(** * Dead Internet Detector: the scoring engine and its signal detectors

    A shallow embedding of [src/analysis/TrustScorer.js],
    [src/analysis/TextAnalyzer.js] and [src/analysis/AccountAnalyzer.js],
    and of the part of the Amazon content script that feeds them, followed
    by the properties the specification claims of them and by further
    properties read off the code.

    Modelling conventions.
    - Numbers.  JavaScript numbers are IEEE-754 doubles.  The modules
      [TrustScorer], [TextAnalyzer], [AccountAnalyzer] and [AmazonScript]
      compute with exact rationals ([Q], compared with [==]); what is
      stated over them does not turn on a rounding.  The scorer and the
      score of [_detectAIPatterns] are embedded a second time in module
      [Double], over binary64 numbers ([PrimFloat]), and what turns on a
      rounding, an exact value or the order of the summands, is stated
      there.  Counters ([signalCount], [matchCount], array lengths) are
      [nat], timestamps are [Z] milliseconds.  The code divides by zero in
      two places only, on an empty text in [_detectAIPatterns] and on an
      empty [reviewCategories]; the quotient is [NaN] in doubles and 0 in
      [Q], and the same branch is taken.
    - Objects.  An object with fixed fields is a [Record]; an object walked
      with [Object.entries] or used as a counter is an association list in
      insertion order.  [get] looks up own properties.  Under a name
      inherited from [Object.prototype] ([JS.inherited]) JavaScript finds a
      function where [get] finds nothing; the statements that depend on the
      difference exclude these names by hypothesis.  [null] and [undefined]
      are told apart only where the code does, in the fields of a reviewer
      profile.
    - Strings are [string]: sequences of 8-bit code units read as Latin-1,
      with the whitespace, word and letter classes and the case mapping
      JavaScript has on that range.  The dash in two details of the Amazon
      script lies outside that range and is kept as its UTF-8 bytes; no
      code looks into a detail.
    - The clock and the parsing of date strings ([Date.now()],
      [new Date(s).getTime()]) are parameters of the account detectors.  In
      [AccountAnalyzer] every date string is taken to parse; module [Dates]
      has the parse partial, and the [RangeError] that [toISOString] throws
      on a date that does not parse.  Star ratings are natural numbers. *)

From Stdlib Require Import List String Ascii Bool Arith NArith ZArith QArith.
From Stdlib Require Import Qminmax Qround Lia Lqa Permutation Sorted DecimalString.
From Stdlib Require PrimFloat.
Import ListNotations.

Set Implicit Arguments.

(* A decimal literal of type [float] is the nearest double, as in JavaScript. *)
Set Warnings "-inexact-float".

(** ** JavaScript primitives shared by the three modules *)
Module JS.

Local Open Scope Q_scope.

(** [a < b] and [a > b] on numbers, as booleans. *)
Definition ltb (a b : Q) : bool := negb (Qle_bool b a).
Definition gtb (a b : Q) : bool := ltb b a.
Definition geb (a b : Q) : bool := Qle_bool b a.

Definition ofNat (n : nat) : Q := inject_Z (Z.of_nat n).

(** [`${n}`] for a non-negative integer. *)
Definition showNat (n : nat) : string :=
  NilEmpty.string_of_uint (Nat.to_uint n).

(** Lookup of an own property in an object walked in insertion order. *)
Fixpoint get {A : Type} (o : list (string * A)) (k : string) : option A :=
  match o with
  | [] => None
  | (k', v) :: o' => if String.eqb k' k then Some v else get o' k
  end.

(** [o[k] = v]: overwrite in place, or append a new own property. *)
Fixpoint set {A : Type} (o : list (string * A)) (k : string) (v : A)
  : list (string * A) :=
  match o with
  | [] => [(k, v)]
  | (k', v') :: o' =>
      if String.eqb k' k then (k', v) :: o' else (k', v') :: set o' k v
  end.

(** [counts[k] = (counts[k] || 0) + 1] on an object used as a counter. *)
Fixpoint bump {K : Type} (eqb : K -> K -> bool) (counts : list (K * nat))
  (k : K) : list (K * nat) :=
  match counts with
  | [] => [(k, 1%nat)]
  | (k', n) :: counts' =>
      if eqb k' k then (k', S n) :: counts'
      else (k', n) :: bump eqb counts' k
  end.

(** [Math.max(...counts)] for a non-empty array of counters. *)
Definition maxNat (l : list nat) : nat := fold_left Nat.max l 0%nat.

(** Stable insertion into a list ordered by [before]; [array.sort(cmp)]
    with [before a b] standing for [cmp(a, b) < 0]. *)
Fixpoint insertBy {A : Type} (before : A -> A -> bool) (x : A) (l : list A)
  : list A :=
  match l with
  | [] => [x]
  | y :: l' => if before y x then y :: insertBy before x l' else x :: y :: l'
  end.

Definition sortBy {A : Type} (before : A -> A -> bool) (l : list A) : list A :=
  fold_right (insertBy before) [] l.

(** The names every object literal inherits from [Object.prototype].  For
    a table [o] and one of these names [k], [o[k]] is not [undefined]: it
    is a function ([Object.prototype] itself for [__proto__]), although [o]
    has no own property [k] and [get o k] is [None]. *)
Definition inherited : list string :=
  [ "constructor"; "__defineGetter__"; "__defineSetter__"; "hasOwnProperty";
    "__lookupGetter__"; "__lookupSetter__"; "isPrototypeOf";
    "propertyIsEnumerable"; "toString"; "valueOf"; "__proto__";
    "toLocaleString" ]%string.

End JS.

(** ** TrustScorer.js *)
Module TrustScorer.

Local Open Scope Q_scope.
Local Open Scope string_scope.

(** What a detector hands to the aggregator: [{ score, detail }]. *)
Module SignalOutput.
Record t := make { score : option Q; detail : option string }.
End SignalOutput.

(** A signal slot of a bundle: [null]/[undefined], a bare number, or an
    object carrying [score] and [detail]. *)
Inductive signalValue :=
| SigNull
| SigNum (n : Q)
| SigObj (o : SignalOutput.t).

Definition signalGroup := list (string * signalValue).
Definition signalBundle := list (string * signalGroup).

Inductive severity := high | medium.

Module Issue.
Record t := make {
  category : string;
  signal : string;
  score : Q;
  detail : option string;
  severity : TrustScorer.severity
}.
End Issue.

Module CategoryResult.
Record t := make {
  score : Q;
  signalCount : nat;
  issues : list Issue.t
}.
End CategoryResult.

Inductive level :=
| HIGH_TRUST | MODERATE_TRUST | LOW_TRUST | VERY_LOW_TRUST | INSUFFICIENT_DATA.

Module TrustResult.
Record t := make {
  score : option Q;
  level : TrustScorer.level;
  confidence : Q;
  message : string;
  details : list (string * CategoryResult.t);
  issues : list Issue.t;
  signalCount : nat
}.
End TrustResult.

(** [this.weights] *)
Definition weights : list (string * list (string * Q)) :=
  [ ("text",
      [ ("aiDetection", 0.25);
        ("repetitionPattern", 0.20);
        ("sentimentConsistency", 0.15);
        ("vocabularyDistribution", 0.15);
        ("templateMatching", 0.25) ]);
    ("account",
      [ ("accountAge", 0.30);
        ("postingFrequency", 0.25);
        ("reviewDiversity", 0.20);
        ("profileCompleteness", 0.15);
        ("networkConnections", 0.10) ]);
    ("behavioral",
      [ ("timingCluster", 0.35);
        ("coordinatedLanguage", 0.35);
        ("ratingDistribution", 0.30) ]);
    ("media",
      [ ("reverseImageMatch", 0.40);
        ("exifAnalysis", 0.25);
        ("aiArtifacts", 0.35) ]) ].

(** [this.categoryWeights] *)
Definition categoryWeights : list (string * Q) :=
  [ ("text", 0.30); ("account", 0.25); ("behavioral", 0.30); ("media", 0.15) ].

(** [this.thresholds] *)
Module thresholds.
Definition HIGH_TRUST : Q := 0.75.
Definition MODERATE_TRUST : Q := 0.50.
Definition LOW_TRUST : Q := 0.30.
Definition VERY_LOW_TRUST : Q := 0.15.
End thresholds.

(** [this.config]; the constructor's argument overrides the two defaults. *)
Record config := {
  minSignalsRequired : Q;
  confidenceDecay : Q
}.

Definition defaultConfig : config :=
  {| minSignalsRequired := 3; confidenceDecay := 0.85 |}.

(** [weights[name] || 0], for a name that is not inherited from
    [Object.prototype]. *)
Definition weightOr0 (w : list (string * Q)) (name : string) : Q :=
  match JS.get w name with
  | Some x => x
  | None => 0
  end.

(** [typeof signalValue === 'object' ? signalValue.score : signalValue],
    for a slot that is neither [null] nor [undefined]. *)
Definition normalizedValue (v : signalValue) : option Q :=
  match v with
  | SigNull => None
  | SigNum n => Some n
  | SigObj o => SignalOutput.score o
  end.

(** [typeof signalValue === 'object' ? signalValue.detail : null] *)
Definition detailOf (v : signalValue) : option string :=
  match v with
  | SigObj o => SignalOutput.detail o
  | _ => None
  end.

(** The four locals of [_scoreCatgory]. *)
Record catState := {
  cs_score : Q;
  cs_weightSum : Q;
  cs_signalCount : nat;
  cs_issues : list Issue.t
}.

Definition catInit : catState :=
  {| cs_score := 0; cs_weightSum := 0; cs_signalCount := 0; cs_issues := [] |}.

(** One turn of the loop over [Object.entries(signals)]. *)
Definition catStep (category : string) (w : list (string * Q))
  (st : catState) (entry : string * signalValue) : catState :=
  let (signalName, sv) := entry in
  match sv with
  | SigNull => st
  | _ =>
    let weight := weightOr0 w signalName in
    match normalizedValue sv with
    | None => st
    | Some v =>
      {| cs_score := cs_score st + v * weight;
         cs_weightSum := cs_weightSum st + weight;
         cs_signalCount := S (cs_signalCount st);
         cs_issues :=
           if JS.ltb v 0.4 then
             cs_issues st ++
               [ Issue.make category signalName v (detailOf sv)
                   (if JS.ltb v 0.2 then high else medium) ]
           else cs_issues st |}
    end
  end.

Definition catFinish (st : catState) : CategoryResult.t :=
  CategoryResult.make
    (if JS.gtb (cs_weightSum st) 0 then cs_score st / cs_weightSum st else 0.5)
    (cs_signalCount st)
    (cs_issues st).

Definition _scoreCatgory (category : string) (signals : signalGroup)
  (w : list (string * Q)) : CategoryResult.t :=
  catFinish (fold_left (catStep category w) signals catInit).

Section Scorer.

Variable cfg : config.

Definition _getTrustLevel (score : Q) : level :=
  if JS.geb score thresholds.HIGH_TRUST then HIGH_TRUST
  else if JS.geb score thresholds.MODERATE_TRUST then MODERATE_TRUST
  else if JS.geb score thresholds.LOW_TRUST then LOW_TRUST
  else VERY_LOW_TRUST.

(** [`${n} ${noun}${n !== 1 ? 's' : ''}`] *)
Definition plural (n : nat) (noun : string) : string :=
  JS.showNat n ++ " " ++ noun ++ (if Nat.eqb n 1 then "" else "s").

Definition _generateMessage (lv : level) (issues : list Issue.t)
  (confidence : Q) : string :=
  let confidenceQualifier :=
    if JS.ltb confidence 0.5 then "Limited data suggests" else "" in
  let n := List.length issues in
  let base :=
    match lv with
    | HIGH_TRUST =>
        "This content appears authentic based on available signals."
    | MODERATE_TRUST =>
        "Mixed signals detected. " ++ plural n "potential concern" ++ " found."
    | LOW_TRUST =>
        "Multiple markers suggest this content may not be authentic. "
          ++ plural n "concern" ++ " flagged."
    | VERY_LOW_TRUST =>
        "Strong indicators of inauthentic content detected. "
          ++ plural n "significant concern" ++ " found."
    | INSUFFICIENT_DATA => "Unable to assess."
    end in
  if String.eqb confidenceQualifier "" then base
  else confidenceQualifier ++ ": " ++ base.

(** The three locals of the first loop of [computeScore]. *)
Record scoreState := {
  categoryScores : list (string * CategoryResult.t);
  flaggedIssues : list Issue.t;
  totalSignals : nat
}.

Definition scoreInit : scoreState :=
  {| categoryScores := []; flaggedIssues := []; totalSignals := 0 |}.

Definition scoreStep (st : scoreState) (entry : string * signalGroup)
  : scoreState :=
  let (category, group) := entry in
  match JS.get weights category with
  | None => st
  | Some w =>
    let categoryResult := _scoreCatgory category group w in
    if Nat.ltb 0 (CategoryResult.signalCount categoryResult) then
      {| categoryScores := JS.set (categoryScores st) category categoryResult;
         totalSignals :=
           (totalSignals st + CategoryResult.signalCount categoryResult)%nat;
         flaggedIssues :=
           flaggedIssues st ++ CategoryResult.issues categoryResult |}
    else st
  end.

(** The second loop: [(finalScore, weightSum)] over the kept categories. *)
Definition finalStep (acc : Q * Q) (entry : string * CategoryResult.t)
  : Q * Q :=
  let (category, result) := entry in
  let weight := weightOr0 categoryWeights category in
  (fst acc + CategoryResult.score result * weight, snd acc + weight).

Definition finalScoreOf (cs : list (string * CategoryResult.t)) : Q :=
  let (finalScore, weightSum) := fold_left finalStep cs (0, 0) in
  if JS.gtb weightSum 0 then finalScore / weightSum else 0.5.

Definition confidenceOf (total : nat) : Q :=
  Qmin 1 (JS.ofNat total / 10) * confidenceDecay cfg.

Definition computeScore (signals : signalBundle) : TrustResult.t :=
  let st := fold_left scoreStep signals scoreInit in
  if JS.ltb (JS.ofNat (totalSignals st)) (minSignalsRequired cfg) then
    TrustResult.make None INSUFFICIENT_DATA 0
      "Not enough data to assess authenticity"
      (categoryScores st) [] (totalSignals st)
  else
    let finalScore := finalScoreOf (categoryScores st) in
    let confidence := confidenceOf (totalSignals st) in
    let lv := _getTrustLevel finalScore in
    let message := _generateMessage lv (flaggedIssues st) confidence in
    TrustResult.make (Some finalScore) lv confidence message
      (categoryScores st) (flaggedIssues st) (totalSignals st).

End Scorer.

End TrustScorer.

(** ** String built-ins used by the analyzers *)
Module Str.

Local Open Scope string_scope.

Definition code (c : ascii) : N := N_of_ascii c.

Definition inRange (lo hi : N) (c : ascii) : bool :=
  (lo <=? code c)%N && (code c <=? hi)%N.

(** [\s], which is also what [trim] strips: TAB, LF, VT, FF, CR, SP, NBSP. *)
Definition isSpace (c : ascii) : bool :=
  inRange 9 13 c || N.eqb (code c) 32 || N.eqb (code c) 160.

(** [\d] *)
Definition isDigit (c : ascii) : bool := inRange 48 57 c.

(** [[a-z]] and [[A-Z]] *)
Definition isLowerAZ (c : ascii) : bool := inRange 97 122 c.
Definition isUpperAZ (c : ascii) : bool := inRange 65 90 c.

(** [\w] *)
Definition isWordChar (c : ascii) : bool :=
  isLowerAZ c || isUpperAZ c || isDigit c || N.eqb (code c) 95.

(** Lower-casing of one Latin-1 code unit: A-Z, and U+00C0..U+00DE but
    the multiplication sign U+00D7. *)
Definition lower (c : ascii) : ascii :=
  if isUpperAZ c || (inRange 192 222 c && negb (N.eqb (code c) 215))
  then ascii_of_N (code c + 32)
  else c.

Fixpoint toLowerCase (s : string) : string :=
  match s with
  | EmptyString => EmptyString
  | String c s' => String (lower c) (toLowerCase s')
  end.

Fixpoint trimStart (s : string) : string :=
  match s with
  | EmptyString => EmptyString
  | String c s' => if isSpace c then trimStart s' else s
  end.

Fixpoint trimEnd (s : string) : string :=
  match s with
  | EmptyString => EmptyString
  | String c s' =>
      let r := trimEnd s' in
      if isSpace c && String.eqb r "" then "" else String c r
  end.

Definition trim (s : string) : string := trimEnd (trimStart s).

(** [s.split(/[...]+/)]: the pieces between maximal runs of separator
    characters; a run at either end leaves an empty piece there, and the
    empty string splits into one empty piece. *)
Fixpoint splitRuns (sep : ascii -> bool) (s cur : string) (inRun : bool)
  : list string :=
  match s with
  | EmptyString => [cur]
  | String c s' =>
      if sep c then
        if inRun then splitRuns sep s' "" true
        else cur :: splitRuns sep s' "" true
      else splitRuns sep s' (cur ++ String c "") false
  end.

Definition split (sep : ascii -> bool) (s : string) : list string :=
  splitRuns sep s "" false.

(** [s.split(/\s+/)] *)
Definition splitWs (s : string) : list string := split isSpace s.

(** [words.join(' ')] *)
Fixpoint join (sep : string) (l : list string) : string :=
  match l with
  | [] => ""
  | [x] => x
  | x :: l' => x ++ sep ++ join sep l'
  end.

(** [text.includes(t)] *)
Fixpoint includes (text t : string) : bool :=
  if String.prefix t text then true
  else match text with
       | EmptyString => false
       | String _ text' => includes text' t
       end.

(** [w.replace(/[^a-z]/g, '')] *)
Fixpoint keepLowerAZ (s : string) : string :=
  match s with
  | EmptyString => EmptyString
  | String c s' =>
      if isLowerAZ c then String c (keepLowerAZ s') else keepLowerAZ s'
  end.

(** [p] read case-insensitively at the start of [text]. *)
Fixpoint prefixCI (p text : string) : bool :=
  match p, text with
  | EmptyString, _ => true
  | String a p', String b text' =>
      if Ascii.eqb (lower a) (lower b) then prefixCI p' text' else false
  | String _ _, EmptyString => false
  end.

(** [(text.match(new RegExp(escaped p, 'gi')) || []).length] for a non-empty
    literal [p]: matches are taken left to right and do not overlap.  [skip]
    counts the characters still covered by the last match. *)
Fixpoint countLiteralFrom (p text : string) (skip : nat) : nat :=
  match text with
  | EmptyString => 0
  | String _ text' =>
      match skip with
      | S k => countLiteralFrom p text' k
      | O =>
          if prefixCI p text
          then S (countLiteralFrom p text' (String.length p - 1))
          else countLiteralFrom p text' 0
      end
  end.

Definition countLiteral (p text : string) : nat := countLiteralFrom p text 0.

Definition isWordOpt (c : option ascii) : bool :=
  match c with
  | Some x => isWordChar x
  | None => false
  end.

(** [\b] between the characters [before] and [after] (absent at an end). *)
Definition boundary (before after : option ascii) : bool :=
  xorb (isWordOpt before) (isWordOpt after).

Definition charAt (s : string) (i : nat) : option ascii := String.get i s.

(** [\bp\b] read case-insensitively at the start of [text], the character
    before it being [prev]. *)
Definition wordAt (p : string) (prev : option ascii) (text : string) : bool :=
  if boundary prev (charAt text 0) then
    if prefixCI p text then
      boundary (match String.length p with
                | O => prev
                | S k => charAt text k
                end)
               (charAt text (String.length p))
    else false
  else false.

(** [(text.match(new RegExp('\\b' + p + '\\b', 'gi')) || []).length] for a
    non-empty literal [p]. *)
Fixpoint countWordFrom (p text : string) (prev : option ascii) (skip : nat)
  : nat :=
  match text with
  | EmptyString => 0
  | String c text' =>
      match skip with
      | S k => countWordFrom p text' (Some c) k
      | O =>
          if wordAt p prev text
          then S (countWordFrom p text' (Some c) (String.length p - 1))
          else countWordFrom p text' (Some c) 0
      end
  end.

Definition countWord (p text : string) : nat := countWordFrom p text None 0.

(** [list.includes(x)] on strings. *)
Definition mem (x : string) (l : list string) : bool :=
  existsb (String.eqb x) l.

(** [new Set(list)], in insertion order. *)
Fixpoint setOf (l : list string) (seen : list string) : list string :=
  match l with
  | [] => seen
  | x :: l' => setOf l' (if mem x seen then seen else seen ++ [x])
  end.

Definition newSet (l : list string) : list string := setOf l [].

(** The tally of an array of strings: [counts[k] = (counts[k] || 0) + 1]
    for each [k] in turn. *)
Definition tally (keys : list string) : list (string * nat) :=
  fold_left (JS.bump String.eqb) keys [].

(** [words.slice(i, i + n).join(' ')] for [i = 0 .. words.length - n]. *)
Fixpoint ngramsFrom (n : nat) (words : list string) (count : nat)
  : list string :=
  match count with
  | O => []
  | S k =>
      match words with
      | [] => []
      | _ :: rest => join " " (firstn n words) :: ngramsFrom n rest k
      end
  end.

Definition ngrams (n : nat) (words : list string) : list string :=
  ngramsFrom n words (List.length words + 1 - n).

End Str.

(** ** The regular expressions that are only ever [test]ed *)
Module RegExp.

Inductive t :=
| Never
| Eps
| Chr (p : ascii -> bool)
| Seq (a b : t)
| Alt (a b : t)
| Star (a : t).

Definition seq (a b : t) : t :=
  match a, b with
  | Never, _ => Never
  | _, Never => Never
  | Eps, _ => b
  | _, Eps => a
  | _, _ => Seq a b
  end.

Definition alt (a b : t) : t :=
  match a, b with
  | Never, _ => b
  | _, Never => a
  | _, _ => Alt a b
  end.

Fixpoint nullable (r : t) : bool :=
  match r with
  | Never => false
  | Eps => true
  | Chr _ => false
  | Seq a b => nullable a && nullable b
  | Alt a b => nullable a || nullable b
  | Star _ => true
  end.

(** What is left of [r] after reading [c]. *)
Fixpoint deriv (c : ascii) (r : t) : t :=
  match r with
  | Never => Never
  | Eps => Never
  | Chr p => if p c then Eps else Never
  | Seq a b => alt (seq (deriv c a) b) (if nullable a then deriv c b else Never)
  | Alt a b => alt (deriv c a) (deriv c b)
  | Star a => seq (deriv c a) (Star a)
  end.

(** Some prefix of [s] matches [r]. *)
Fixpoint matchesPrefix (r : t) (s : string) : bool :=
  if nullable r then true
  else match s with
       | EmptyString => false
       | String c s' => matchesPrefix (deriv c r) s'
       end.

(** [r.test(s)]: some substring of [s] matches [r]. *)
Fixpoint test (r : t) (s : string) : bool :=
  if matchesPrefix r s then true
  else match s with
       | EmptyString => false
       | String _ s' => test r s'
       end.

Definition chr (c : ascii) : t := Chr (Ascii.eqb c).
Definition chrCI (c : ascii) : t :=
  Chr (fun x => Ascii.eqb (Str.lower x) (Str.lower c)).
Definition plus (r : t) : t := Seq r (Star r).

Fixpoint lit (s : string) : t :=
  match s with
  | EmptyString => Eps
  | String c s' => Seq (chr c) (lit s')
  end.

Fixpoint litCI (s : string) : t :=
  match s with
  | EmptyString => Eps
  | String c s' => Seq (chrCI c) (litCI s')
  end.

Fixpoint oneOf (l : list t) : t :=
  match l with
  | [] => Never
  | [r] => r
  | r :: l' => Alt r (oneOf l')
  end.

End RegExp.

(** ** TextAnalyzer.js *)
Module TextAnalyzer.

Import TrustScorer.
Local Open Scope Q_scope.
Local Open Scope string_scope.

(** [this.aiTellPhrases] *)
Definition aiTellPhrases : list string :=
  [ "it's worth noting";
    "it is worth noting";
    "a testament to";
    "game-changer";
    "game changer";
    "delve into";
    "tapestry";
    "multifaceted";
    "in today's world";
    "in the realm of";
    "navigating the";
    "stands out as";
    "it should be noted";
    "in this regard";
    "underscores";
    "fostering";
    "holistic";
    "elevate the";
    "elevates the";
    "truly remarkable";
    "new heights";
    "commitment to excellence";
    "user experience";
    "attention to detail is";
    "works flawlessly";
    "couldn't be happier";
    "changed my daily routine";
    "both elegant and practical" ].

(** [this.hypeWords] *)
Definition hypeWords : list string :=
  [ "amazing"; "incredible"; "fantastic"; "exceptional"; "remarkable";
    "outstanding"; "unbeatable"; "flawlessly"; "truly"; "absolutely";
    "every way"; "everyone"; "definitely"; "certainly" ].

(** [this.fakeReviewTemplates] *)
Definition fakeReviewTemplates : list string :=
  [ "i bought this for my";
    "i purchased this for";
    "my husband/wife loves";
    "exactly as described";
    "exactly what i needed";
    "highly recommend this product";
    "five stars all the way";
    "exceeded my expectations";
    "i was skeptical at first but";
    "worth every penny";
    "great quality for the price";
    "you won't be disappointed";
    "must have product";
    "i've tried many similar products";
    "this is by far the best";
    "don't hesitate to buy";
    "arrived quickly and well packaged" ].

Definition sumNat (l : list nat) : nat := fold_left Nat.add l 0%nat.
Definition sumQ (l : list Q) : Q := fold_left Qplus l 0.

(** [Math.max(0, Math.min(1, x))] *)
Definition clamp01 (x : Q) : Q := Qmax 0 (Qmin 1 x).

(** [Math.round(x)] for [x >= 0]. *)
Definition round (x : Q) : nat := Z.to_nat (Qfloor (x + 0.5)).

Definition signal (score : Q) (detail : option string) : SignalOutput.t :=
  SignalOutput.make (Some score) detail.

Definition _detectAIPatterns (text : string) : SignalOutput.t :=
  let counts := map (fun phrase => Str.countLiteral phrase text) aiTellPhrases in
  let aiPhraseCount := sumNat counts in
  let foundPhrases :=
    filter (fun phrase => Nat.ltb 0 (Str.countLiteral phrase text))
      aiTellPhrases in
  let density := JS.ofNat aiPhraseCount / (JS.ofNat (String.length text) / 500) in
  let hypeCount := sumNat (map (fun word => Str.countWord word text) hypeWords) in
  let hypeDensity := JS.ofNat hypeCount / (JS.ofNat (String.length text) / 500) in
  let score := 1 in
  let score :=
    if Nat.ltb 0 aiPhraseCount then score - Qmin 0.5 (density * 0.25)
    else score in
  let score :=
    if JS.gtb hypeDensity 3 then score - Qmin 0.4 ((hypeDensity - 2) * 0.1)
    else score in
  let score := clamp01 score in
  signal score
    (if Nat.ltb 0 (List.length foundPhrases) || Nat.ltb 3 hypeCount
     then Some ("Found " ++ JS.showNat aiPhraseCount
                 ++ " AI-associated phrases, " ++ JS.showNat hypeCount
                 ++ " hype words")
     else None).

Definition _extractNgrams (text : string) (n : nat) : list string :=
  let words :=
    filter (fun w => Nat.ltb 0 (String.length w)) (Str.splitWs text) in
  Str.ngrams n words.

Definition isSentenceEnd (c : ascii) : bool :=
  Ascii.eqb c "." || Ascii.eqb c "!" || Ascii.eqb c "?".

Definition connectives : list string :=
  [ "because"; "since"; "so"; "which"; "where"; "when"; "after"; "before";
    "while"; "then" ].

(** [s.trim().split(/\s+/).length] *)
Definition wordLength (s : string) : nat :=
  List.length (Str.splitWs (Str.trim s)).

Definition _analyzeRepetition (text : string) : SignalOutput.t :=
  let sentences :=
    filter (fun s => Nat.ltb 10 (String.length (Str.trim s)))
      (Str.split isSentenceEnd text) in
  if Nat.ltb (List.length sentences) 2 then signal 0.5 None
  else
    let trigrams := _extractNgrams text 3 in
    let trigramCounts := Str.tally trigrams in
    let repeatedTrigrams :=
      List.length (filter (fun count => Nat.ltb 2 count)
                     (map snd trigramCounts)) in
    let trigramRepetitionRate :=
      JS.ofNat repeatedTrigrams / JS.ofNat (Nat.max 1 (List.length trigrams)) in
    let starts :=
      map (fun s => Str.join " " (firstn 3 (Str.splitWs (Str.trim s))))
        sentences in
    let uniqueStarts := List.length (Str.newSet starts) in
    let startDiversity := JS.ofNat uniqueStarts / JS.ofNat (List.length starts) in
    let formulaicScore := 0 in
    let avgSentenceLength :=
      JS.ofNat (sumNat (map wordLength sentences))
        / JS.ofNat (List.length sentences) in
    let sentenceLengthVariance :=
      sumQ (map (fun s =>
                   let len := JS.ofNat (wordLength s) in
                   (len - avgSentenceLength) * (len - avgSentenceLength))
              sentences)
        / JS.ofNat (List.length sentences) in
    let formulaicScore :=
      if JS.ltb sentenceLengthVariance 8 && Nat.leb 3 (List.length sentences)
      then 0.3 else formulaicScore in
    let connectiveCount :=
      List.length
        (filter (fun word =>
                   Str.mem (Str.keepLowerAZ (Str.toLowerCase word)) connectives)
           (Str.splitWs text)) in
    let formulaicScore :=
      if Nat.eqb connectiveCount 0 && Nat.leb 4 (List.length sentences)
      then formulaicScore + 0.2 else formulaicScore in
    let score := 1 in
    let score := score - (1 - startDiversity) * 0.3 in
    let score := score - Qmin 0.3 (trigramRepetitionRate * 50 * 0.3) in
    let score := score - formulaicScore in
    signal (clamp01 score)
      (if JS.ltb score 0.5
       then Some ("Formulaic structure detected: "
                   ++ JS.showNat repeatedTrigrams
                   ++ " repeated phrases, low sentence variation")
       else None).

Definition positiveWords : list string :=
  [ "great"; "amazing"; "excellent"; "perfect"; "love"; "best"; "wonderful";
    "fantastic"; "awesome"; "incredible"; "superb"; "outstanding"; "brilliant";
    "magnificent"; "terrific"; "fabulous"; "happy"; "recommend" ].

Definition negativeWords : list string :=
  [ "bad"; "terrible"; "awful"; "worst"; "hate"; "horrible"; "poor";
    "disappointing"; "broken"; "waste"; "junk"; "useless"; "defective";
    "cheap"; "flimsy"; "garbage" ].

Definition hedgingWords : list string :=
  [ "but"; "however"; "although"; "though"; "except"; "unless";
    "somewhat"; "slightly"; "minor"; "small issue"; "only complaint";
    "downside"; "only"; "wish"; "could be"; "not perfect" ].

Import RegExp.

(** [specificityMarkers] *)
Definition specificityMarkers : list RegExp.t :=
  [ (* /\d+\s*(inch|mm|cm|lb|kg|oz|gb|mb|watt|hour|day|week|month|minute)/i *)
    Seq (plus (Chr Str.isDigit))
      (Seq (Star (Chr Str.isSpace))
         (oneOf (map litCI
            [ "inch"; "mm"; "cm"; "lb"; "kg"; "oz"; "gb"; "mb"; "watt";
              "hour"; "day"; "week"; "month"; "minute" ])));
    (* /\d+\/\d+/ *)
    Seq (plus (Chr Str.isDigit)) (Seq (chr "/") (plus (Chr Str.isDigit)));
    (* /\$\d+/ *)
    Seq (chr "$") (plus (Chr Str.isDigit));
    (* /[A-Z][a-z]+ [A-Z]/ *)
    Seq (Chr Str.isUpperAZ)
      (Seq (plus (Chr Str.isLowerAZ)) (Seq (chr " ") (Chr Str.isUpperAZ)));
    (* /my (wife|husband|son|daughter|mom|dad|friend|sister|brother|kid)/i *)
    Seq (litCI "my ")
      (oneOf (map litCI
         [ "wife"; "husband"; "son"; "daughter"; "mom"; "dad"; "friend";
           "sister"; "brother"; "kid" ])) ].

Definition countIn (dict : list string) (words : list string) : nat :=
  List.length (filter (fun w => Str.mem w dict) words).

Definition _analyzeSentiment (text : string) : SignalOutput.t :=
  let words := Str.splitWs text in
  let wordCount := List.length words in
  let cleaned := map Str.keepLowerAZ words in
  let posCount := countIn positiveWords cleaned in
  let negCount := countIn negativeWords cleaned in
  let hedgeCount := countIn hedgingWords cleaned in
  let posDensity := JS.ofNat posCount / JS.ofNat wordCount in
  let specificityScore :=
    List.length (filter (fun marker => test marker text) specificityMarkers) in
  if JS.gtb posDensity 0.06 && Nat.eqb hedgeCount 0 && Nat.eqb negCount 0
     && Nat.eqb specificityScore 0
  then signal 0.15
         (Some "Uniformly positive with no nuance or specific details")
  else if JS.gtb posDensity 0.08 && Nat.eqb specificityScore 0
  then signal 0.30
         (Some "Very high praise density without concrete details")
  else if JS.gtb posDensity 0.06 && Nat.eqb hedgeCount 0 && Nat.eqb negCount 0
          && Nat.ltb 0 specificityScore
  then signal 0.45
         (Some "Positive without hedging but contains specific details")
  else if Nat.ltb 0 hedgeCount || (Nat.ltb 0 posCount && Nat.ltb 0 negCount)
  then signal 0.85 None
  else signal 0.6 None.

Definition vagueWords : list string :=
  [ "product"; "item"; "thing"; "purchase"; "quality"; "price";
    "everything"; "everyone"; "anyone"; "nothing"; "something";
    "ever"; "always"; "never"; "every"; "very"; "really"; "just";
    "amazing"; "great"; "good"; "nice"; "best"; "love"; "happy" ].

Definition _analyzeVocabulary (text : string) : SignalOutput.t :=
  let words :=
    filter (fun w => Nat.ltb 2 (String.length w))
      (map Str.keepLowerAZ (Str.splitWs text)) in
  if Nat.ltb (List.length words) 20 then signal 0.5 None
  else
    let n := JS.ofNat (List.length words) in
    let uniqueWords := Str.newSet words in
    let typeTokenRatio := JS.ofNat (List.length uniqueWords) / n in
    let vagueCount := countIn vagueWords words in
    let vagueDensity := JS.ofNat vagueCount / n in
    let score :=
      if JS.gtb typeTokenRatio 0.85 && Nat.ltb 100 (List.length words) then 0.5
      else if JS.ltb typeTokenRatio 0.3 then 0.35
      else 0.7 + typeTokenRatio * 0.2 in
    let score :=
      if JS.gtb vagueDensity 0.20 then score - 0.35
      else if JS.gtb vagueDensity 0.15 then score - 0.2
      else score in
    let avgWordLength :=
      JS.ofNat (sumNat (map String.length words)) / n in
    let wordLengthVariance :=
      sumQ (map (fun w =>
                   let len := JS.ofNat (String.length w) in
                   (len - avgWordLength) * (len - avgWordLength))
              words) / n in
    let score :=
      if JS.ltb wordLengthVariance 3 then score * 0.8 else score in
    signal (clamp01 score)
      (if JS.ltb score 0.4
       then Some ("Vocabulary lacks specificity ("
                   ++ JS.showNat (round (vagueDensity * 100))
                   ++ "% generic words)")
       else None).

(** The templates of the list found in [text], in list order. *)
Definition matchedTemplates (text : string) : list string :=
  filter (fun template => Str.includes text template) fakeReviewTemplates.

Definition matchCount (text : string) : nat :=
  List.length (matchedTemplates text).

Definition _detectTemplates (text : string) : SignalOutput.t :=
  let matchCount := matchCount text in
  let score := Qmax 0 (1 - JS.ofNat matchCount * 0.3) in
  signal score
    (if Nat.ltb 0 matchCount
     then Some ("Matched " ++ JS.showNat matchCount
                 ++ " common fake review template phrase"
                 ++ (if Nat.ltb 1 matchCount then "s" else ""))
     else None).

(** The object [analyze] returns. *)
Record textSignals := {
  aiDetection : option SignalOutput.t;
  repetitionPattern : option SignalOutput.t;
  sentimentConsistency : option SignalOutput.t;
  vocabularyDistribution : option SignalOutput.t;
  templateMatching : option SignalOutput.t
}.

Definition analyze (text : string) : textSignals :=
  if Nat.ltb (String.length text) 20 then
    {| aiDetection := None;
       repetitionPattern := None;
       sentimentConsistency := None;
       vocabularyDistribution := None;
       templateMatching := None |}
  else
    let normalized := Str.trim (Str.toLowerCase text) in
    {| aiDetection := Some (_detectAIPatterns normalized);
       repetitionPattern := Some (_analyzeRepetition normalized);
       sentimentConsistency := Some (_analyzeSentiment normalized);
       vocabularyDistribution := Some (_analyzeVocabulary normalized);
       templateMatching := Some (_detectTemplates normalized) |}.

Definition slot (o : option SignalOutput.t) : signalValue :=
  match o with
  | Some s => SigObj s
  | None => SigNull
  end.

(** The [text] entry of a bundle, as [Object.entries] walks it. *)
Definition entries (s : textSignals) : signalGroup :=
  [ ("aiDetection", slot (aiDetection s));
    ("repetitionPattern", slot (repetitionPattern s));
    ("sentimentConsistency", slot (sentimentConsistency s));
    ("vocabularyDistribution", slot (vocabularyDistribution s));
    ("templateMatching", slot (templateMatching s)) ].

End TextAnalyzer.

(** ** BatchTextAnalyzer (TextAnalyzer.js) *)
Module BatchTextAnalyzer.

Import TrustScorer.
Local Open Scope Q_scope.
Local Open Scope string_scope.

Record sharedPhrase := { phrase : string; count : nat }.

(** The [coordinatedLanguage] object: a signal output carrying the phrases. *)
Record coordinated := {
  score : Q;
  detail : option string;
  sharedPhrases : list sharedPhrase
}.

Record crossSignals := {
  coordinatedLanguage : option coordinated;
  ratingDistribution : option SignalOutput.t;
  timingCluster : option SignalOutput.t
}.

(** The [Set] of 4-grams of one text. *)
Definition grams (t : string) : list string :=
  Str.newSet (Str.ngrams 4 (Str.splitWs (Str.toLowerCase t))).

(** [phraseCounts] after the two nested loops. *)
Definition phraseCounts (texts : list string) : list (string * nat) :=
  fold_left (fun counts g => fold_left (JS.bump String.eqb) g counts)
    (map grams texts) [].

Definition _findSharedPhrases (texts : list string) : list sharedPhrase :=
  JS.sortBy (fun a b => Nat.ltb (count b) (count a))
    (map (fun e => {| phrase := fst e; count := snd e |})
       (filter (fun e => Nat.leb 3 (snd e)) (phraseCounts texts))).

Definition _analyzeCrossPatterns (texts : list string) : crossSignals :=
  if Nat.ltb (List.length texts) 3 then
    {| coordinatedLanguage := None;
       ratingDistribution := None;
       timingCluster := None |}
  else
    let sharedPhrases := _findSharedPhrases texts in
    let n := List.length sharedPhrases in
    let coordinationScore := Qmax 0 (1 - JS.ofNat n * 0.15) in
    {| coordinatedLanguage :=
         Some {| score := coordinationScore;
                 detail :=
                   if Nat.ltb 3 n
                   then Some ("Found " ++ JS.showNat n
                               ++ " phrases repeated across multiple reviews")
                   else None;
                 sharedPhrases := sharedPhrases |};
       ratingDistribution := None;
       timingCluster := None |}.

Record batchResult := {
  individual : list TextAnalyzer.textSignals;
  batch : crossSignals
}.

Definition analyzeBatch (texts : list string) : batchResult :=
  {| individual := map TextAnalyzer.analyze texts;
     batch := _analyzeCrossPatterns texts |}.

End BatchTextAnalyzer.

(** ** AccountAnalyzer.js *)
Module AccountAnalyzer.

Import TrustScorer.
Local Open Scope Q_scope.
Local Open Scope string_scope.

(** A property of an object: absent ([undefined]), [null], or a value. *)
Inductive prop (A : Type) :=
| undefined
| null
| val (a : A).
Arguments undefined {A}.
Arguments null {A}.
Arguments val {A} a.

(** JavaScript truthiness of the values a profile holds. *)
Class Truthy (A : Type) := truthy : A -> bool.
#[export] Instance truthy_string : Truthy string :=
  fun s => negb (String.eqb s "").
#[export] Instance truthy_number : Truthy Q :=
  fun q => negb (Qeq_bool q 0).
#[export] Instance truthy_bool : Truthy bool :=
  fun b => b.
#[export] Instance truthy_array (A : Type) : Truthy (list A) :=
  fun _ => true.

(** [!!p] *)
Definition toBool {A : Type} `{Truthy A} (p : prop A) : bool :=
  match p with
  | val a => truthy a
  | _ => false
  end.

(** [p || q] *)
Definition or {A : Type} `{Truthy A} (p q : prop A) : prop A :=
  if toBool p then p else q.

(** The fields of a reviewer profile, and of the [data] it is built from. *)
Record fields := {
  displayName : prop string;
  avatarUrl : prop string;
  bio : prop string;
  location : prop string;
  accountCreated : prop string;
  firstReviewDate : prop string;
  totalReviews : prop Q;
  helpfulVotes : prop Q;
  ratings : prop (list nat);
  reviewDates : prop (list string);
  reviewCategories : prop (list string);
  reviewDate : prop string;
  verifiedPurchase : prop bool
}.

(** [new ReviewerProfile(data)] *)
Definition ReviewerProfile (data : fields) : fields :=
  {| displayName := or (displayName data) null;
     avatarUrl := or (avatarUrl data) null;
     bio := or (bio data) null;
     location := or (location data) null;
     accountCreated := or (accountCreated data) null;
     firstReviewDate := or (firstReviewDate data) null;
     totalReviews := or (totalReviews data) null;
     helpfulVotes := or (helpfulVotes data) null;
     ratings := or (ratings data) (val []);
     reviewDates := or (reviewDates data) (val []);
     reviewCategories := or (reviewCategories data) (val []);
     reviewDate := or (reviewDate data) null;
     verifiedPurchase := or (verifiedPurchase data) (val false) |}.

(** [this.suspiciousPatterns] *)
Module suspiciousPatterns.
Definition burstThreshold : nat := 5.
Definition minAccountAgeDays : Q := 30.
Definition allSameRatingThreshold : Q := 0.9.
Definition reviewsPerDayMax : Q := 3.
End suspiciousPatterns.

Definition signal (score : Q) (detail : option string) : SignalOutput.t :=
  SignalOutput.make (Some score) detail.

Definition dayMs : Z := 86400000.

(** [array.sort((a, b) => a - b)] on timestamps. *)
Definition sortAscending (l : list Z) : list Z := JS.sortBy Z.ltb l.

(** The number a property stands for in arithmetic; [null] is 0. *)
Definition toNumber (p : prop Q) : Q :=
  match p with
  | val q => q
  | _ => 0
  end.

Definition arrayOf {A : Type} (p : prop (list A)) : list A :=
  match p with
  | val l => l
  | _ => []
  end.

Section Analyzer.

(** [Date.now()], and [new Date(s).getTime()] for the date strings of a
    profile, both in milliseconds. *)
Variable now : Z.
Variable getTime : string -> Z.

Definition _scoreAccountAge (profile : fields) : option SignalOutput.t :=
  if negb (toBool (accountCreated profile))
     && negb (toBool (firstReviewDate profile))
  then None
  else
    match or (accountCreated profile) (firstReviewDate profile) with
    | val referenceDate =>
      let ageDays := inject_Z (now - getTime referenceDate) / inject_Z dayMs in
      if JS.ltb ageDays 7 then
        Some (signal 0.1 (Some "Account created within the last week"))
      else if JS.ltb ageDays 30 then
        Some (signal 0.3 (Some "Account less than 30 days old"))
      else if JS.ltb ageDays 90 then
        Some (signal 0.6 None)
      else Some (signal 0.9 None)
    | _ => None
    end.

(** The calendar day of a timestamp: what keys [dateCounts]. *)
Definition dayOf (t : Z) : Z := (t / dayMs)%Z.

Definition _scorePostingFrequency (profile : fields) : option SignalOutput.t :=
  if negb (toBool (reviewDates profile))
     || Nat.ltb (List.length (arrayOf (reviewDates profile))) 2
  then None
  else
    let dates := sortAscending (map getTime (arrayOf (reviewDates profile))) in
    let dateCounts := fold_left (JS.bump Z.eqb) (map dayOf dates) [] in
    let maxInOneDay := JS.maxNat (map snd dateCounts) in
    let avgPerDay :=
      JS.ofNat (List.length dates) / JS.ofNat (List.length dateCounts) in
    if Nat.ltb suspiciousPatterns.burstThreshold maxInOneDay then
      Some (signal 0.15
              (Some (JS.showNat maxInOneDay ++ " reviews posted on a single day")))
    else if JS.gtb avgPerDay suspiciousPatterns.reviewsPerDayMax then
      Some (signal 0.3 (Some "Unusually high review frequency"))
    else Some (signal 0.8 None).

(** [Object.entries] of a counter keyed by ratings: integer keys come out
    in ascending order. *)
Definition ratingEntries (counts : list (nat * nat)) : list (nat * nat) :=
  JS.sortBy (fun a b => Nat.ltb (fst a) (fst b)) counts.

Definition _scoreReviewDiversity (profile : fields) : option SignalOutput.t :=
  if negb (toBool (ratings profile))
     || Nat.ltb (List.length (arrayOf (ratings profile))) 3
  then None
  else
    let ratings := arrayOf (ratings profile) in
    let ratingCounts := fold_left (JS.bump Nat.eqb) ratings [] in
    let maxRatingPct :=
      JS.ofNat (JS.maxNat (map snd ratingCounts))
        / JS.ofNat (List.length ratings) in
    if JS.geb maxRatingPct suspiciousPatterns.allSameRatingThreshold then
      let dominantRating :=
        match JS.sortBy (fun a b => Nat.ltb (snd b) (snd a))
                (ratingEntries ratingCounts) with
        | (r, _) :: _ => r
        | [] => 0%nat
        end in
      Some (signal 0.2
              (Some (JS.showNat (TextAnalyzer.round (maxRatingPct * 100))
                      ++ "% of reviews are " ++ JS.showNat dominantRating
                      ++ "-star")))
    else
      let concentrated :=
        match reviewCategories profile with
        | val categories =>
          let uniqueCategories := List.length (Str.newSet categories) in
          let categoryDiversity :=
            JS.ofNat uniqueCategories / JS.ofNat (List.length categories) in
          JS.ltb categoryDiversity 0.1 && Nat.ltb 10 (List.length categories)
        | _ => false
        end in
      if concentrated then
        Some (signal 0.35
                (Some "Reviews concentrated in a single product category"))
      else
        let ratingSpread := List.length ratingCounts in
        let diversityScore :=
          Qmin 1 (JS.ofNat ratingSpread / 5 * 0.5 + (1 - maxRatingPct) * 0.5) in
        Some (signal (Qmax 0.4 diversityScore) None).

Definition _scoreProfileCompleteness (profile : fields)
  : option SignalOutput.t :=
  let present :=
    [ toBool (displayName profile);
      toBool (avatarUrl profile);
      toBool (bio profile);
      toBool (location profile);
      toBool (helpfulVotes profile);
      toBool (totalReviews profile) ] in
  let completeness := List.length (filter (fun b => b) present) in
  let score := JS.ofNat completeness / JS.ofNat (List.length present) in
  if JS.ltb score 0.3 then
    Some (signal 0.3 (Some "Minimal profile information"))
  else Some (signal (Qmax 0.5 score) None).

Definition _scoreNetworkSignals (profile : fields) : option SignalOutput.t :=
  let isDefined :=
    match helpfulVotes profile with
    | undefined => false
    | _ => true
    end in
  if isDefined && toBool (totalReviews profile) then
    let helpfulRatio :=
      toNumber (helpfulVotes profile) / toNumber (totalReviews profile) in
    if JS.ltb helpfulRatio 0.1 && JS.gtb (toNumber (totalReviews profile)) 20
    then
      Some (signal 0.4
              (Some "Very low helpful vote ratio despite many reviews"))
    else if JS.gtb helpfulRatio 1 then Some (signal 0.9 None)
    else None
  else None.

(** The object [analyze] returns. *)
Record accountSignals := {
  accountAge : option SignalOutput.t;
  postingFrequency : option SignalOutput.t;
  reviewDiversity : option SignalOutput.t;
  profileCompleteness : option SignalOutput.t;
  networkConnections : option SignalOutput.t
}.

Definition analyze (profile : fields) : accountSignals :=
  {| accountAge := _scoreAccountAge profile;
     postingFrequency := _scorePostingFrequency profile;
     reviewDiversity := _scoreReviewDiversity profile;
     profileCompleteness := _scoreProfileCompleteness profile;
     networkConnections := _scoreNetworkSignals profile |}.

(** The locals of the clustering loop: the clusters kept so far, the
    cluster being grown, and the previous timestamp. *)
Definition clusterStep (st : list (list Z) * list Z * Z) (d : Z)
  : list (list Z) * list Z * Z :=
  let '(clusters, currentCluster, prev) := st in
  if (d - prev <? dayMs)%Z then (clusters, (currentCluster ++ [d])%list, d)
  else if Nat.leb 3 (List.length currentCluster)
       then ((clusters ++ [currentCluster])%list, [d], d)
       else (clusters, [d], d).

Definition findClusters (reviewDates : list Z) : list (list Z) :=
  match reviewDates with
  | [] => []
  | d0 :: rest =>
      let '(clusters, currentCluster, _) :=
        fold_left clusterStep rest ([], [d0], d0) in
      if Nat.leb 3 (List.length currentCluster)
      then (clusters ++ [currentCluster])%list
      else clusters
  end.

Definition datesOf (get : fields -> prop string) (profiles : list fields)
  : list Z :=
  flat_map (fun p => match get p with
                     | val s => if truthy s then [getTime s] else []
                     | _ => []
                     end) profiles.

Definition _detectTimingClusters (profiles : list fields)
  : option SignalOutput.t :=
  let reviewDates := datesOf reviewDate profiles in
  if Nat.ltb (List.length reviewDates) 5 then None
  else
    let reviewDates := sortAscending reviewDates in
    let clusters := findClusters reviewDates in
    if Nat.eqb (List.length clusters) 0 then Some (signal 0.8 None)
    else
      let largestCluster := JS.maxNat (map (@List.length Z) clusters) in
      let clusterRatio :=
        JS.ofNat largestCluster / JS.ofNat (List.length reviewDates) in
      if JS.gtb clusterRatio 0.5 then
        Some (signal 0.15
                (Some (JS.showNat largestCluster ++ " of "
                        ++ JS.showNat (List.length reviewDates)
                        ++ " reviews posted within 24 hours of each other")))
      else
        Some (signal (Qmax 0.3 (1 - clusterRatio))
                (if JS.gtb clusterRatio 0.3
                 then Some "Review timing shows clustering patterns"
                 else None)).

Definition _detectAccountAgeCluster (profiles : list fields)
  : option SignalOutput.t :=
  let creationDates := datesOf accountCreated profiles in
  if Nat.ltb (List.length creationDates) 3 then None
  else
    let creationDates := sortAscending creationDates in
    let range := (last creationDates 0 - hd 0 creationDates)%Z in
    let weekMs := (7 * dayMs)%Z in
    if (range <? weekMs)%Z && Nat.leb 5 (List.length creationDates) then
      Some (signal 0.1
              (Some (JS.showNat (List.length creationDates)
                      ++ " reviewer accounts created within the same week")))
    else Some (signal 0.7 None).

Record batchSignals := {
  timingCluster : option SignalOutput.t;
  accountAgeCluster : option SignalOutput.t
}.

Record batchResult := {
  individual : list accountSignals;
  batch : batchSignals
}.

Definition analyzeBatch (profiles : list fields) : batchResult :=
  {| individual := map analyze profiles;
     batch := {| timingCluster := _detectTimingClusters profiles;
                 accountAgeCluster := _detectAccountAgeCluster profiles |} |}.

End Analyzer.

End AccountAnalyzer.

(** ** Review dates that do not parse

    [new Date(s)] is an Invalid Date when [s] does not parse, and
    [toISOString] throws a [RangeError] on an Invalid Date.
    [_scorePostingFrequency] once more, with the parse a partial function
    and the exception an outcome of the call. *)
Module Dates.

Import TrustScorer AccountAnalyzer.
Local Open Scope Q_scope.
Local Open Scope string_scope.

(** How a call ends. *)
Inductive completion (A : Type) : Type :=
| Returns (value : A)
| Throws (error : string).

Arguments Throws {A} error.

Section Parse.

(** The time value of [new Date(s)]; [None] is [NaN], the time value of
    an Invalid Date. *)
Variable parse : string -> option Z.

(** [a - b < 0] on dates: never, when either is invalid. *)
Definition before (a b : option Z) : bool :=
  match a, b with
  | Some x, Some y => Z.ltb x y
  | _, _ => false
  end.

(** One turn of the loop over [dates]: [date.toISOString()] throws on an
    Invalid Date, and the day is counted otherwise. *)
Definition countStep (acc : completion (list (Z * nat))) (date : option Z)
  : completion (list (Z * nat)) :=
  match acc with
  | Throws error => Throws error
  | Returns dateCounts =>
      match date with
      | None => Throws "RangeError"
      | Some t => Returns (JS.bump Z.eqb dateCounts (dayOf t))
      end
  end.

Definition _scorePostingFrequency (profile : fields)
  : completion (option SignalOutput.t) :=
  if negb (toBool (reviewDates profile))
     || Nat.ltb (List.length (arrayOf (reviewDates profile))) 2
  then Returns None
  else
    let dates := JS.sortBy before (map parse (arrayOf (reviewDates profile))) in
    match fold_left countStep dates (Returns []) with
    | Throws error => Throws error
    | Returns dateCounts =>
        let maxInOneDay := JS.maxNat (map snd dateCounts) in
        let avgPerDay :=
          JS.ofNat (List.length dates) / JS.ofNat (List.length dateCounts) in
        if Nat.ltb suspiciousPatterns.burstThreshold maxInOneDay then
          Returns
            (Some (signal 0.15
                     (Some (JS.showNat maxInOneDay
                              ++ " reviews posted on a single day"))))
        else if JS.gtb avgPerDay suspiciousPatterns.reviewsPerDayMax then
          Returns (Some (signal 0.3 (Some "Unusually high review frequency")))
        else Returns (Some (signal 0.8 None))
    end.

End Parse.

End Dates.

(** ** The Amazon content script *)
Module AmazonScript.

Import TrustScorer AccountAnalyzer.
Local Open Scope Q_scope.
Local Open Scope string_scope.

(** What [_extractReviews] keeps of a review card for the analysis. *)
Record review := { text : string; profile : fields }.

(** The profile [_extractReviews] and [_extractSingleReview] build: the
    reviewer's name if the card shows one, the verified badge, the helpful
    count (0 when the card has none), the review date and the star rating
    if they could be read. *)
Definition scrapedProfile (name : option string) (verified : bool)
  (helpfulCount : nat) (date : option string) (rating : option nat) : fields :=
  ReviewerProfile
    {| displayName :=
         or (match name with Some s => val s | None => undefined end) null;
       avatarUrl := undefined;
       bio := undefined;
       location := undefined;
       accountCreated := undefined;
       firstReviewDate := undefined;
       totalReviews := undefined;
       helpfulVotes := val (JS.ofNat helpfulCount);
       ratings := val (match rating with Some r => [r] | None => [] end);
       reviewDates := undefined;
       reviewCategories := undefined;
       reviewDate := match date with Some s => val s | None => null end;
       verifiedPurchase := val verified |}.

(** [`${n}`] for an integer. *)
Definition showZ (z : Z) : string := NilEmpty.string_of_int (Z.to_int z).

(** [histogram[stars] || 0] on the histogram of percentages by stars. *)
Fixpoint pct (histogram : list (Z * Z)) (stars : Z) : Z :=
  match histogram with
  | [] => 0%Z
  | (s, p) :: histogram' => if Z.eqb s stars then p else pct histogram' stars
  end.

Definition _analyzeRatingDistribution (histogram : list (Z * Z))
  : option SignalOutput.t :=
  if Nat.ltb (List.length histogram) 3 then None
  else
    let fiveStarPct := pct histogram 5 in
    let oneStarPct := pct histogram 1 in
    let middlePct := (pct histogram 2 + pct histogram 3 + pct histogram 4)%Z in
    if (90 <? fiveStarPct)%Z && (middlePct <? 5)%Z then
      Some (signal 0.2
              (Some (showZ fiveStarPct
                      ++ "% five-star reviews with almost no middle ratings — unusual distribution")))
    else if (80 <? fiveStarPct)%Z && (oneStarPct <? 2)%Z then
      Some (signal 0.4 (Some "Unusually concentrated positive ratings"))
    else if (50 <? fiveStarPct)%Z && (25 <? oneStarPct)%Z
            && (middlePct <? 15)%Z then
      Some (signal 0.35
              (Some "Polarized ratings with few middle reviews — possible fake positive campaign"))
    else Some (signal 0.8 None).

(** [!aggregated[key]] *)
Definition unset (o : option Q) : bool :=
  match o with
  | Some q => Qeq_bool q 0
  | None => true
  end.

Definition sumOr0 (o : list (string * Q)) (key : string) : Q :=
  match JS.get o key with
  | Some q => q
  | None => 0
  end.

Definition countOr0 (o : list (string * nat)) (key : string) : nat :=
  match JS.get o key with
  | Some n => n
  | None => 0%nat
  end.

(** One turn of the inner loop of [_aggregateSignals], on the two objects
    [aggregated] and [counts]. *)
Definition aggregateStep (st : list (string * Q) * list (string * nat))
  (entry : string * signalValue) : list (string * Q) * list (string * nat) :=
  let (key, value) := entry in
  match value with
  | SigNull => st
  | _ =>
    match normalizedValue value with
    | None => st
    | Some score =>
      let (aggregated, counts) := st in
      let (aggregated, counts) :=
        if unset (JS.get aggregated key)
        then (JS.set aggregated key 0, JS.set counts key 0%nat)
        else (aggregated, counts) in
      (JS.set aggregated key (sumOr0 aggregated key + score),
       JS.set counts key (S (countOr0 counts key)))
    end
  end.

Definition _aggregateSignals (signalArrays : list signalGroup) : signalGroup :=
  let (aggregated, counts) :=
    fold_left (fun st signals => fold_left aggregateStep signals st)
      signalArrays ([], []) in
  map (fun e =>
         (fst e,
          SigObj (SignalOutput.make
                    (Some (snd e / JS.ofNat (countOr0 counts (fst e)))) None)))
    aggregated.

(** The [account] entry of a bundle, as [Object.entries] walks it. *)
Definition accountEntries (s : accountSignals) : signalGroup :=
  [ ("accountAge", TextAnalyzer.slot (accountAge s));
    ("postingFrequency", TextAnalyzer.slot (postingFrequency s));
    ("reviewDiversity", TextAnalyzer.slot (reviewDiversity s));
    ("profileCompleteness", TextAnalyzer.slot (profileCompleteness s));
    ("networkConnections", TextAnalyzer.slot (networkConnections s)) ].

Definition coordinatedSlot (c : option BatchTextAnalyzer.coordinated)
  : signalValue :=
  match c with
  | Some c =>
      SigObj (SignalOutput.make (Some (BatchTextAnalyzer.score c))
                (BatchTextAnalyzer.detail c))
  | None => SigNull
  end.

Section Run.

Variable now : Z.
Variable getTime : string -> Z.

(** The bundle [run] scores one review with. *)
Definition reviewSignals (textResult : TextAnalyzer.textSignals)
  (accountResult : accountSignals)
  (timing ratingDistribution : option SignalOutput.t) : signalBundle :=
  [ ("text", TextAnalyzer.entries textResult);
    ("account", accountEntries accountResult);
    ("behavioral",
      [ ("timingCluster", TextAnalyzer.slot timing);
        ("ratingDistribution", TextAnalyzer.slot ratingDistribution) ]) ].

(** The bundle [run] scores the product with. *)
Definition overallSignals (textResults : list TextAnalyzer.textSignals)
  (accountResults : batchResult)
  (coordinatedLanguage : option BatchTextAnalyzer.coordinated)
  (ratingDistribution : option SignalOutput.t) : signalBundle :=
  [ ("text", _aggregateSignals (map TextAnalyzer.entries textResults));
    ("behavioral",
      [ ("timingCluster",
          TextAnalyzer.slot (timingCluster (batch accountResults)));
        ("coordinatedLanguage", coordinatedSlot coordinatedLanguage);
        ("ratingDistribution", TextAnalyzer.slot ratingDistribution) ]);
    ("account",
      _aggregateSignals (map accountEntries (individual accountResults))) ].

Record scores := {
  reviewScores : list TrustResult.t;
  overallScore : TrustResult.t
}.

(** Steps 3 to 8 of [run], on the reviews and the histogram read off the
    page; nothing is scored on a page without reviews. *)
Definition run (reviews : list review) (histogram : list (Z * Z))
  : option scores :=
  if Nat.eqb (List.length reviews) 0 then None
  else
    let textResults := map (fun r => TextAnalyzer.analyze (text r)) reviews in
    let batchTextResults :=
      BatchTextAnalyzer.analyzeBatch (map text reviews) in
    let accountResults := analyzeBatch now getTime (map profile reviews) in
    let ratingDistribution := _analyzeRatingDistribution histogram in
    Some
      {| reviewScores :=
           map (fun ta =>
                  computeScore defaultConfig
                    (reviewSignals (fst ta) (snd ta)
                       (timingCluster (batch accountResults))
                       ratingDistribution))
             (combine textResults (individual accountResults));
         overallScore :=
           computeScore defaultConfig
             (overallSignals textResults accountResults
                (BatchTextAnalyzer.coordinatedLanguage
                   (BatchTextAnalyzer.batch batchTextResults))
                ratingDistribution) |}.

(** The score [_analyzeNewReviews] gives a review loaded later. *)
Definition analyzeNewReview (r : review) : TrustResult.t :=
  computeScore defaultConfig
    [ ("text", TextAnalyzer.entries (TextAnalyzer.analyze (text r)));
      ("account", accountEntries (analyze now getTime (profile r)));
      ("behavioral", []) ].

End Run.

End AmazonScript.

(** ** StorageManager.js: the result cache

    [chrome.storage.local] is an object from keys to values, passed from
    call to call; the calls of one [async] method run one after the other.
    Each method reads the clock once. *)
Module StorageManager.

Local Open Scope string_scope.

Section Storage.

(** What a cached result holds besides [cachedAt], and the other objects
    kept in storage (settings, usage, statistics), which have no
    [cachedAt]. *)
Variable A : Type.
Variable V : Type.

Inductive stored :=
| Cached (result : A) (cachedAt : Z)
| Plain (v : V).

Definition storage := list (string * stored).

Definition CACHE_TTL : Z := (24 * 60 * 60 * 1000)%Z.
Definition CACHE_MAX_AGE : Z := (7 * 24 * 60 * 60 * 1000)%Z.

(** [chrome.storage.local.remove(key)] *)
Definition remove (s : storage) (key : string) : storage :=
  filter (fun e => negb (String.eqb (fst e) key)) s.

Definition cacheResult (now : Z) (key : string) (result : A) (s : storage)
  : storage :=
  let cacheKey := "cache_" ++ key in
  JS.set s cacheKey (Cached result now).

(** The answer and the storage left behind.  On a value without
    [cachedAt] the age is [NaN] and the comparison fails. *)
Definition getCachedResult (now : Z) (key : string) (s : storage)
  : option stored * storage :=
  let cacheKey := "cache_" ++ key in
  match JS.get s cacheKey with
  | None => (None, s)
  | Some cached =>
      match cached with
      | Cached _ cachedAt =>
          if (CACHE_TTL <? now - cachedAt)%Z
          then (None, remove s cacheKey)
          else (Some cached, s)
      | Plain _ => (Some cached, s)
      end
  end.

(** The test of the loop of [cleanupOldCache]:
    [key.startsWith('cache_') && value.cachedAt], then the age. *)
Definition tooOld (now : Z) (e : string * stored) : bool :=
  if String.prefix "cache_" (fst e) then
    match snd e with
    | Cached _ cachedAt =>
        if Z.eqb cachedAt 0 then false
        else (CACHE_MAX_AGE <? now - cachedAt)%Z
    | Plain _ => false
    end
  else false.

(** The number of keys removed and the storage left behind. *)
Definition cleanupOldCache (now : Z) (s : storage) : nat * storage :=
  let keysToRemove := map fst (filter (tooOld now) s) in
  (List.length keysToRemove,
   if Nat.ltb 0 (List.length keysToRemove)
   then fold_left remove keysToRemove s
   else s).

End Storage.

End StorageManager.

(** ** The scorer in double precision

    [TrustScorer.js] and the score of [_detectAIPatterns] once more, over
    the numbers JavaScript computes with: IEEE-754 binary64, every
    operation rounded to nearest, ties to even.  The properties that turn
    on a rounding are stated over this module. *)
Module Double.

Import PrimFloat.
Local Open Scope string_scope.
Local Open Scope float_scope.

(** A count as a number: [n] times [+ 1], exact below [2^53]. *)
Fixpoint ofNat (n : nat) : float :=
  match n with
  | O => 0
  | S k => ofNat k + 1
  end.

(** [Math.min(a, b)] and [Math.max(a, b)]: [NaN] if either is; of two
    zeros, the negative one is the smaller. *)
Definition min (a b : float) : float :=
  if is_nan a || is_nan b then nan
  else if b <? a then b
  else if a <? b then a
  else if get_sign a then a else b.

Definition max (a b : float) : float :=
  if is_nan a || is_nan b then nan
  else if a <? b then b
  else if b <? a then a
  else if get_sign a then b else a.

Module SignalOutput.
Record t := make { score : option float; detail : option string }.
End SignalOutput.

Inductive signalValue :=
| SigNull
| SigNum (n : float)
| SigObj (o : SignalOutput.t).

Definition signalGroup := list (string * signalValue).
Definition signalBundle := list (string * signalGroup).

Module Issue.
Record t := make {
  category : string;
  signal : string;
  score : float;
  detail : option string;
  severity : TrustScorer.severity
}.
End Issue.

Module CategoryResult.
Record t := make {
  score : float;
  signalCount : nat;
  issues : list Issue.t
}.
End CategoryResult.

Module TrustResult.
Record t := make {
  score : option float;
  level : TrustScorer.level;
  confidence : float;
  message : string;
  details : list (string * CategoryResult.t);
  issues : list Issue.t;
  signalCount : nat
}.
End TrustResult.

(** [this.weights] *)
Definition weights : list (string * list (string * float)) :=
  [ ("text",
      [ ("aiDetection", 0.25);
        ("repetitionPattern", 0.20);
        ("sentimentConsistency", 0.15);
        ("vocabularyDistribution", 0.15);
        ("templateMatching", 0.25) ]);
    ("account",
      [ ("accountAge", 0.30);
        ("postingFrequency", 0.25);
        ("reviewDiversity", 0.20);
        ("profileCompleteness", 0.15);
        ("networkConnections", 0.10) ]);
    ("behavioral",
      [ ("timingCluster", 0.35);
        ("coordinatedLanguage", 0.35);
        ("ratingDistribution", 0.30) ]);
    ("media",
      [ ("reverseImageMatch", 0.40);
        ("exifAnalysis", 0.25);
        ("aiArtifacts", 0.35) ]) ].

(** [this.categoryWeights] *)
Definition categoryWeights : list (string * float) :=
  [ ("text", 0.30); ("account", 0.25); ("behavioral", 0.30); ("media", 0.15) ].

(** [this.thresholds] *)
Module thresholds.
Definition HIGH_TRUST : float := 0.75.
Definition MODERATE_TRUST : float := 0.50.
Definition LOW_TRUST : float := 0.30.
Definition VERY_LOW_TRUST : float := 0.15.
End thresholds.

(** [this.config] *)
Record config := {
  minSignalsRequired : float;
  confidenceDecay : float
}.

Definition defaultConfig : config :=
  {| minSignalsRequired := 3; confidenceDecay := 0.85 |}.

(** [weights[name] || 0], for a name that is not inherited from
    [Object.prototype]: a weight that is zero or [NaN] is falsy. *)
Definition weightOr0 (w : list (string * float)) (name : string) : float :=
  match JS.get w name with
  | Some x => if is_nan x || is_zero x then 0 else x
  | None => 0
  end.

Definition normalizedValue (v : signalValue) : option float :=
  match v with
  | SigNull => None
  | SigNum n => Some n
  | SigObj o => SignalOutput.score o
  end.

Definition detailOf (v : signalValue) : option string :=
  match v with
  | SigObj o => SignalOutput.detail o
  | _ => None
  end.

(** The four locals of [_scoreCatgory]. *)
Record catState := {
  cs_score : float;
  cs_weightSum : float;
  cs_signalCount : nat;
  cs_issues : list Issue.t
}.

Definition catInit : catState :=
  {| cs_score := 0; cs_weightSum := 0; cs_signalCount := 0; cs_issues := [] |}.

(** One turn of the loop over [Object.entries(signals)]. *)
Definition catStep (category : string) (w : list (string * float))
  (st : catState) (entry : string * signalValue) : catState :=
  let (signalName, sv) := entry in
  match sv with
  | SigNull => st
  | _ =>
    let weight := weightOr0 w signalName in
    match normalizedValue sv with
    | None => st
    | Some v =>
      {| cs_score := cs_score st + v * weight;
         cs_weightSum := cs_weightSum st + weight;
         cs_signalCount := S (cs_signalCount st);
         cs_issues :=
           if v <? 0.4 then
             cs_issues st ++
               [ Issue.make category signalName v (detailOf sv)
                   (if v <? 0.2 then TrustScorer.high else TrustScorer.medium) ]
           else cs_issues st |}
    end
  end.

Definition catFinish (st : catState) : CategoryResult.t :=
  CategoryResult.make
    (if 0 <? cs_weightSum st then cs_score st / cs_weightSum st else 0.5)
    (cs_signalCount st)
    (cs_issues st).

Definition _scoreCatgory (category : string) (signals : signalGroup)
  (w : list (string * float)) : CategoryResult.t :=
  catFinish (fold_left (catStep category w) signals catInit).

Section Scorer.

Variable cfg : config.

Definition _getTrustLevel (score : float) : TrustScorer.level :=
  if thresholds.HIGH_TRUST <=? score then TrustScorer.HIGH_TRUST
  else if thresholds.MODERATE_TRUST <=? score then TrustScorer.MODERATE_TRUST
  else if thresholds.LOW_TRUST <=? score then TrustScorer.LOW_TRUST
  else TrustScorer.VERY_LOW_TRUST.

Definition _generateMessage (lv : TrustScorer.level) (issues : list Issue.t)
  (confidence : float) : string :=
  let confidenceQualifier :=
    if confidence <? 0.5 then "Limited data suggests" else "" in
  let n := List.length issues in
  let base :=
    match lv with
    | TrustScorer.HIGH_TRUST =>
        "This content appears authentic based on available signals."
    | TrustScorer.MODERATE_TRUST =>
        "Mixed signals detected. "
          ++ TrustScorer.plural n "potential concern" ++ " found."
    | TrustScorer.LOW_TRUST =>
        "Multiple markers suggest this content may not be authentic. "
          ++ TrustScorer.plural n "concern" ++ " flagged."
    | TrustScorer.VERY_LOW_TRUST =>
        "Strong indicators of inauthentic content detected. "
          ++ TrustScorer.plural n "significant concern" ++ " found."
    | TrustScorer.INSUFFICIENT_DATA => "Unable to assess."
    end in
  if String.eqb confidenceQualifier "" then base
  else confidenceQualifier ++ ": " ++ base.

(** The three locals of the first loop of [computeScore]. *)
Record scoreState := {
  categoryScores : list (string * CategoryResult.t);
  flaggedIssues : list Issue.t;
  totalSignals : nat
}.

Definition scoreInit : scoreState :=
  {| categoryScores := []; flaggedIssues := []; totalSignals := 0 |}.

Definition scoreStep (st : scoreState) (entry : string * signalGroup)
  : scoreState :=
  let (category, group) := entry in
  match JS.get weights category with
  | None => st
  | Some w =>
    let categoryResult := _scoreCatgory category group w in
    if Nat.ltb 0 (CategoryResult.signalCount categoryResult) then
      {| categoryScores := JS.set (categoryScores st) category categoryResult;
         totalSignals :=
           (totalSignals st + CategoryResult.signalCount categoryResult)%nat;
         flaggedIssues :=
           flaggedIssues st ++ CategoryResult.issues categoryResult |}
    else st
  end.

(** The second loop: [(finalScore, weightSum)] over the kept categories. *)
Definition finalStep (acc : float * float) (entry : string * CategoryResult.t)
  : float * float :=
  let (category, result) := entry in
  let weight := weightOr0 categoryWeights category in
  (fst acc + CategoryResult.score result * weight, snd acc + weight).

Definition finalScoreOf (cs : list (string * CategoryResult.t)) : float :=
  let (finalScore, weightSum) := fold_left finalStep cs (0, 0) in
  if 0 <? weightSum then finalScore / weightSum else 0.5.

Definition confidenceOf (total : nat) : float :=
  min 1 (ofNat total / 10) * confidenceDecay cfg.

Definition computeScore (signals : signalBundle) : TrustResult.t :=
  let st := fold_left scoreStep signals scoreInit in
  if ofNat (totalSignals st) <? minSignalsRequired cfg then
    TrustResult.make None TrustScorer.INSUFFICIENT_DATA 0
      "Not enough data to assess authenticity"
      (categoryScores st) [] (totalSignals st)
  else
    let finalScore := finalScoreOf (categoryScores st) in
    let confidence := confidenceOf (totalSignals st) in
    let lv := _getTrustLevel finalScore in
    let message := _generateMessage lv (flaggedIssues st) confidence in
    TrustResult.make (Some finalScore) lv confidence message
      (categoryScores st) (flaggedIssues st) (totalSignals st).

End Scorer.

(** [_detectAIPatterns] of [TextAnalyzer.js]: the counts are those of
    [TextAnalyzer._detectAIPatterns], the score is computed in doubles. *)
Definition _detectAIPatterns (text : string) : SignalOutput.t :=
  let counts :=
    map (fun phrase => Str.countLiteral phrase text)
      TextAnalyzer.aiTellPhrases in
  let aiPhraseCount := TextAnalyzer.sumNat counts in
  let foundPhrases :=
    filter (fun phrase => Nat.ltb 0 (Str.countLiteral phrase text))
      TextAnalyzer.aiTellPhrases in
  let density := ofNat aiPhraseCount / (ofNat (String.length text) / 500) in
  let hypeCount :=
    TextAnalyzer.sumNat
      (map (fun word => Str.countWord word text) TextAnalyzer.hypeWords) in
  let hypeDensity := ofNat hypeCount / (ofNat (String.length text) / 500) in
  let score := 1 in
  let score :=
    if Nat.ltb 0 aiPhraseCount then score - min 0.5 (density * 0.25)
    else score in
  let score :=
    if 3 <? hypeDensity then score - min 0.4 ((hypeDensity - 2) * 0.1)
    else score in
  let score := max 0 (min 1 score) in
  SignalOutput.make (Some score)
    (if Nat.ltb 0 (List.length foundPhrases) || Nat.ltb 3 hypeCount
     then Some ("Found " ++ JS.showNat aiPhraseCount
                 ++ " AI-associated phrases, " ++ JS.showNat hypeCount
                 ++ " hype words")
     else None).

End Double.

(** * Specification terms *)

(** ** Terms in which the aggregator is specified *)
Module TrustScorerSpec.

Import JS TrustScorer.
Local Open Scope Q_scope.

(** Does the slot take part in the average? *)
Definition contributes (sv : signalValue) : bool :=
  match normalizedValue sv with
  | Some _ => true
  | None => false
  end.

(** The non-null signals of a group. *)
Definition countOf (g : signalGroup) : nat :=
  List.length (filter (fun e => contributes (snd e)) g).

(** The issue a slot raises, if any. *)
Definition issueOf (category : string) (e : string * signalValue)
  : list Issue.t :=
  match normalizedValue (snd e) with
  | Some v =>
      if ltb v 0.4
      then [ Issue.make category (fst e) v (detailOf (snd e))
               (if ltb v 0.2 then high else medium) ]
      else []
  | None => []
  end.

Definition addScore (w : list (string * Q)) (a : Q) (e : string * signalValue)
  : Q :=
  match normalizedValue (snd e) with
  | Some v => a + v * weightOr0 w (fst e)
  | None => a
  end.

Definition addWeight (w : list (string * Q)) (a : Q)
  (e : string * signalValue) : Q :=
  match normalizedValue (snd e) with
  | Some _ => a + weightOr0 w (fst e)
  | None => a
  end.

(** The signals a bundle entry adds to [totalSignals]. *)
Definition entryCount (e : string * signalGroup) : nat :=
  match get weights (fst e) with
  | Some _ => countOf (snd e)
  | None => 0
  end.

(** The issues a bundle entry adds to [flaggedIssues]. *)
Definition entryIssues (e : string * signalGroup) : list Issue.t :=
  match get weights (fst e) with
  | Some _ => flat_map (issueOf (fst e)) (snd e)
  | None => []
  end.

(** The non-null signals of the known categories of a bundle. *)
Definition signalsOf (b : signalBundle) : nat :=
  fold_right (fun e n => (entryCount e + n)%nat) 0%nat b.

Definition positiveTable (w : list (string * Q)) : Prop :=
  Forall (fun e => 0 < snd e) w.

Definition textSignals : list string :=
  [ "aiDetection"; "repetitionPattern"; "sentimentConsistency";
    "vocabularyDistribution"; "templateMatching" ]%string.

Definition textWeights : list (string * Q) :=
  [ ("aiDetection", 0.25);
    ("repetitionPattern", 0.20);
    ("sentimentConsistency", 0.15);
    ("vocabularyDistribution", 0.15);
    ("templateMatching", 0.25) ]%string.

(** Two groups with the same names and the same scores, slot by slot. *)
Definition sameScores (g g' : signalGroup) : Prop :=
  Forall2 (fun e e' => fst e = fst e'
                       /\ normalizedValue (snd e) = normalizedValue (snd e'))
    g g'.

(** The part of a category result the final score is computed from. *)
Definition skeleton (e : string * CategoryResult.t) : string * Q * nat :=
  (fst e, CategoryResult.score (snd e), CategoryResult.signalCount (snd e)).

(** Two bundles with the same categories and, in each, the same scores. *)
Definition sameBundle (b b' : signalBundle) : Prop :=
  Forall2 (fun e e' => fst e = fst e' /\ sameScores (snd e) (snd e')) b b'.

(** The same issue with [detail: null]. *)
Definition withoutDetail (i : Issue.t) : Issue.t :=
  Issue.make (Issue.category i) (Issue.signal i) (Issue.score i) None
    (Issue.severity i).

End TrustScorerSpec.

(** ** Terms in which the lexical detectors are specified *)
Module TextAnalyzerSpec.

Import JS TrustScorer TextAnalyzer.
Local Open Scope Q_scope.

(** A signal output whose score, if it has one, lies in [[0,1]]. *)
Definition inUnit (s : SignalOutput.t) : Prop :=
  match SignalOutput.score s with
  | Some q => 0 <= q <= 1
  | None => True
  end.

(** The same for a slot that may hold no output at all. *)
Definition slotInUnit (o : option SignalOutput.t) : Prop :=
  match o with
  | Some s => inUnit s
  | None => True
  end.

(** A signal output that does carry a score, and one in [[0,1]]. *)
Definition scored (s : SignalOutput.t) : Prop :=
  exists q, SignalOutput.score s = Some q /\ 0 <= q <= 1.

(** A slot that holds such an output. *)
Definition slotScored (o : option SignalOutput.t) : Prop :=
  exists s, o = Some s /\ scored s.

(** [t] occurs in [text] as a substring. *)
Definition occurs (t text : string) : Prop :=
  exists pre post : string, text = (pre ++ t ++ post)%string.

Definition scoresOf (r : textSignals) : list (option Q) :=
  map (fun o => match o with
                | Some s => option_map Qred (SignalOutput.score s)
                | None => None
                end)
    [ aiDetection r; repetitionPattern r; sentimentConsistency r;
      vocabularyDistribution r; templateMatching r ].

End TextAnalyzerSpec.

(** ** Terms in which the cross-item detector is specified *)
Module BatchTextAnalyzerSpec.

Import JS TrustScorer BatchTextAnalyzer.
Local Open Scope Q_scope.

(** The counter of [k], 0 when the object has no such property. *)
Definition countFor (counts : list (string * nat)) (k : string) : nat :=
  match get counts k with
  | Some n => n
  | None => 0
  end.

(** What a well-formed counter object looks like. *)
Definition counter (counts : list (string * nat)) : Prop :=
  NoDup (map fst counts) /\ Forall (fun e => (1 <= snd e)%nat) counts.

(** The 4-word shingles of a text, with repetitions. *)
Definition shingles (t : string) : list string :=
  Str.ngrams 4 (Str.splitWs (Str.toLowerCase t)).

(** In how many of the texts [p] is a shingle. *)
Definition textsWith (p : string) (texts : list string) : nat :=
  List.length (filter (fun t => Str.mem p (shingles t)) texts).

(** The shingles found in at least three of the texts, each once. *)
Definition sharedShingles (texts : list string) : list string :=
  filter (fun p => Nat.leb 3 (textsWith p texts))
    (nodup string_dec (flat_map shingles texts)).

Definition sharedPhraseCount (texts : list string) : nat :=
  List.length (sharedShingles texts).

(** The phrases [_findSharedPhrases] returns, before sorting. *)
Definition sharedKeys (texts : list string) : list string :=
  map fst (filter (fun e => Nat.leb 3 (snd e)) (phraseCounts texts)).

End BatchTextAnalyzerSpec.

(** ** Terms in which profiles and account detectors are specified *)
Module AccountAnalyzerSpec.

Import JS TrustScorer AccountAnalyzer.
Local Open Scope Q_scope.

(** Two supplied values the constructor cannot tell apart: the same value,
    or two falsy ones (absent, [null], [0], the empty string, [false]). *)
Definition agree {A : Type} `{Truthy A} (p q : prop A) : Prop :=
  p = q \/ (toBool p = false /\ toBool q = false).

Record agreeUpToFalsy (d d' : fields) : Prop := {
  agree_displayName : agree (displayName d) (displayName d');
  agree_avatarUrl : agree (avatarUrl d) (avatarUrl d');
  agree_bio : agree (bio d) (bio d');
  agree_location : agree (location d) (location d');
  agree_accountCreated : agree (accountCreated d) (accountCreated d');
  agree_firstReviewDate : agree (firstReviewDate d) (firstReviewDate d');
  agree_totalReviews : agree (totalReviews d) (totalReviews d');
  agree_helpfulVotes : agree (helpfulVotes d) (helpfulVotes d');
  agree_ratings : agree (ratings d) (ratings d');
  agree_reviewDates : agree (reviewDates d) (reviewDates d');
  agree_reviewCategories : agree (reviewCategories d) (reviewCategories d');
  agree_reviewDate : agree (reviewDate d) (reviewDate d');
  agree_verifiedPurchase : agree (verifiedPurchase d) (verifiedPurchase d')
}.

(** The supplied data with every falsy field taken away. *)
Definition strip {A : Type} `{Truthy A} (p : prop A) : prop A :=
  if toBool p then p else undefined.

Definition withoutFalsy (d : fields) : fields :=
  {| displayName := strip (displayName d);
     avatarUrl := strip (avatarUrl d);
     bio := strip (bio d);
     location := strip (location d);
     accountCreated := strip (accountCreated d);
     firstReviewDate := strip (firstReviewDate d);
     totalReviews := strip (totalReviews d);
     helpfulVotes := strip (helpfulVotes d);
     ratings := strip (ratings d);
     reviewDates := strip (reviewDates d);
     reviewCategories := strip (reviewCategories d);
     reviewDate := strip (reviewDate d);
     verifiedPurchase := strip (verifiedPurchase d) |}.

(** The data of a profile no field of which was supplied. *)
Definition noData : fields :=
  {| displayName := undefined;
     avatarUrl := undefined;
     bio := undefined;
     location := undefined;
     accountCreated := undefined;
     firstReviewDate := undefined;
     totalReviews := undefined;
     helpfulVotes := undefined;
     ratings := undefined;
     reviewDates := undefined;
     reviewCategories := undefined;
     reviewDate := undefined;
     verifiedPurchase := undefined |}.

(** [{ displayName: '', bio: '', location: '', helpfulVotes: 0,
      totalReviews: 0 }] *)
Definition zeroData : fields :=
  {| displayName := val ""%string;
     avatarUrl := undefined;
     bio := val ""%string;
     location := val ""%string;
     accountCreated := undefined;
     firstReviewDate := undefined;
     totalReviews := val 0;
     helpfulVotes := val 0;
     ratings := undefined;
     reviewDates := undefined;
     reviewCategories := undefined;
     reviewDate := undefined;
     verifiedPurchase := undefined |}.

(** How many of the six profile fields [_scoreProfileCompleteness] finds. *)
Definition presentFields (profile : fields) : nat :=
  List.length
    (filter (fun b => b)
       [ toBool (displayName profile); toBool (avatarUrl profile);
         toBool (bio profile); toBool (location profile);
         toBool (helpfulVotes profile); toBool (totalReviews profile) ]).

(** [{ totalReviews: 25 }] *)
Definition onlyTotalReviews : fields :=
  {| displayName := undefined;
     avatarUrl := undefined;
     bio := undefined;
     location := undefined;
     accountCreated := undefined;
     firstReviewDate := undefined;
     totalReviews := val 25;
     helpfulVotes := undefined;
     ratings := undefined;
     reviewDates := undefined;
     reviewCategories := undefined;
     reviewDate := undefined;
     verifiedPurchase := undefined |}.

(** A clock for the examples: a date string of [n] characters reads as
    [n] hours after the epoch. *)
Definition hours (s : string) : Z := (Z.of_nat (String.length s) * 3600000)%Z.

Definition createdAt (date : string) : fields :=
  {| displayName := undefined; avatarUrl := undefined; bio := undefined;
     location := undefined; accountCreated := val date;
     firstReviewDate := undefined; totalReviews := undefined;
     helpfulVotes := undefined; ratings := undefined;
     reviewDates := undefined; reviewCategories := undefined;
     reviewDate := undefined; verifiedPurchase := undefined |}.

Definition reviewedAt (date : string) : fields :=
  {| displayName := undefined; avatarUrl := undefined; bio := undefined;
     location := undefined; accountCreated := undefined;
     firstReviewDate := undefined; totalReviews := undefined;
     helpfulVotes := undefined; ratings := undefined;
     reviewDates := undefined; reviewCategories := undefined;
     reviewDate := val date; verifiedPurchase := undefined |}.

End AccountAnalyzerSpec.

(** ** Further terms for the aggregator *)
Module AggregatorTerms.

Import JS TrustScorer TrustScorerSpec.
Local Open Scope Q_scope.

(** The trust levels from worst to best. *)
Definition rank (l : level) : nat :=
  match l with
  | VERY_LOW_TRUST => 0
  | LOW_TRUST => 1
  | MODERATE_TRUST => 2
  | HIGH_TRUST => 3
  | INSUFFICIENT_DATA => 4
  end.

(** Every score a group holds lies in [[0,1]]. *)
Definition groupInUnit (g : signalGroup) : Prop :=
  Forall (fun e => forall v, normalizedValue (snd e) = Some v -> 0 <= v <= 1) g.

Definition bundleInUnit (b : signalBundle) : Prop :=
  Forall (fun e => groupInUnit (snd e)) b.

(** An entry of the bundle that adds nothing to the first loop. *)
Definition silentEntry (e : string * signalGroup) : Prop :=
  get weights (fst e) = None \/ countOf (snd e) = 0%nat.

End AggregatorTerms.

(** ** Terms in which the detectors are described *)
Module DetectorTerms.

Import JS TrustScorer AccountAnalyzer.
Local Open Scope Q_scope.

(** Every character of [s] satisfies [P]. *)
Fixpoint allChars (P : ascii -> bool) (s : string) : bool :=
  match s with
  | EmptyString => true
  | String c s' => if P c then allChars P s' else false
  end.

(** What [TextAnalyzer.analyze] hands to its detectors. *)
Definition normalize (text : string) : string :=
  Str.trim (Str.toLowerCase text).

(** The two counters of [_detectAIPatterns]. *)
Definition aiPhraseCount (text : string) : nat :=
  TextAnalyzer.sumNat
    (map (fun phrase => Str.countLiteral phrase text) TextAnalyzer.aiTellPhrases).

Definition hypeCount (text : string) : nat :=
  TextAnalyzer.sumNat
    (map (fun word => Str.countWord word text) TextAnalyzer.hypeWords).

(** The cleaned words [_analyzeSentiment] looks up in its dictionaries. *)
Definition cleanedWords (text : string) : list string :=
  map Str.keepLowerAZ (Str.splitWs text).

(** The share of positive words among the words of a text. *)
Definition positiveShare (text : string) : Q :=
  ofNat (TextAnalyzer.countIn TextAnalyzer.positiveWords (cleanedWords text))
  / ofNat (List.length (Str.splitWs text)).

(** The fourth specificity marker, [/[A-Z][a-z]+ [A-Z]/]. *)
Definition properNounMarker : RegExp.t :=
  RegExp.Seq (RegExp.Chr Str.isUpperAZ)
    (RegExp.Seq (RegExp.plus (RegExp.Chr Str.isLowerAZ))
       (RegExp.Seq (RegExp.chr " ") (RegExp.Chr Str.isUpperAZ))).

(** The hedging words that are one word. *)
Definition singleWordHedges : list string :=
  filter (allChars Str.isLowerAZ) TextAnalyzer.hedgingWords.

(** The phrases come out with the larger counts first. *)
Definition descending (l : list BatchTextAnalyzer.sharedPhrase) : Prop :=
  StronglySorted
    (fun a b => (BatchTextAnalyzer.count b <= BatchTextAnalyzer.count a)%nat) l.

(** The counter of [k] in an object used as a tally, 0 when it has no such
    property. *)
Fixpoint lookup {K : Type} (eqb : K -> K -> bool) (counts : list (K * nat))
  (k : K) : nat :=
  match counts with
  | [] => 0%nat
  | (k', n) :: counts' => if eqb k' k then n else lookup eqb counts' k
  end.

(** The calendar days of the review dates of a profile. *)
Definition reviewDays (getTime : string -> Z) (dates : list string) : list Z :=
  map (fun d => AccountAnalyzer.dayOf (getTime d)) dates.

(** A date field that holds a non-empty string. *)
Definition dateOf (p : AccountAnalyzer.prop string) : option string :=
  match p with
  | AccountAnalyzer.val s => if AccountAnalyzer.truthy s then Some s else None
  | _ => None
  end.

(** [profile.accountCreated || profile.firstReviewDate], when either is
    there. *)
Definition referenceOf (profile : AccountAnalyzer.fields) : option string :=
  match dateOf (AccountAnalyzer.accountCreated profile) with
  | Some s => Some s
  | None => dateOf (AccountAnalyzer.firstReviewDate profile)
  end.

(** The score of an account by its age in milliseconds. *)
Definition ageBand (ageMs : Z) : Q :=
  if (ageMs <? 7 * AccountAnalyzer.dayMs)%Z then 0.1
  else if (ageMs <? 30 * AccountAnalyzer.dayMs)%Z then 0.3
  else if (ageMs <? 90 * AccountAnalyzer.dayMs)%Z then 0.6
  else 0.9.

(** Timestamps each less than 24 hours after the one before. *)
Fixpoint chained (c : list Z) : Prop :=
  match c with
  | a :: rest =>
      match rest with
      | b :: _ => (b - a < AccountAnalyzer.dayMs)%Z /\ chained rest
      | [] => True
      end
  | [] => True
  end.

(** The scores a key holds across the objects handed to
    [_aggregateSignals], in the order the loops meet them. *)
Definition scoresFor (k : string) (arrays : list signalGroup) : list Q :=
  flat_map (fun e => if String.eqb (fst e) k
                     then match normalizedValue (snd e) with
                          | Some v => [v]
                          | None => []
                          end
                     else [])
    (List.concat arrays).

(** What one score does to the running sum and count of its key. *)
Definition keyStep (st : option (Q * nat)) (v : Q) : option (Q * nat) :=
  match st with
  | Some (a, c) => if Qeq_bool a 0 then Some (0 + v, 1%nat) else Some (a + v, S c)
  | None => Some (0 + v, 1%nat)
  end.

(** The running sum and count of a key. *)
Definition keyState (st : list (string * Q) * list (string * nat))
  (k : string) : option (Q * nat) :=
  match get (fst st) k with
  | Some a => Some (a, AmazonScript.countOr0 (snd st) k)
  | None => None
  end.

(** The sum of a list of scores. *)
Definition total (s : list Q) : Q := fold_right Qplus 0 s.

(** A result whose numbers fit the badge: a score between 0 and 1, or no
    score and [INSUFFICIENT_DATA]; a confidence between 0 and 0.85. *)
Definition wellScored (r : TrustResult.t) : Prop :=
  match TrustResult.score r with
  | Some q => 0 <= q <= 1 /\ TrustResult.level r <> INSUFFICIENT_DATA
  | None => TrustResult.level r = INSUFFICIENT_DATA
  end
  /\ 0 <= TrustResult.confidence r <= 0.85.

(** A parse for the examples: the empty string is no date, and a string of
    [n] characters reads as [n] hours after the epoch. *)
Definition parseHours (s : string) : option Z :=
  if String.eqb s "" then None else Some (AccountAnalyzerSpec.hours s).

End DetectorTerms.

(** ** Terms in which the double-precision scorer is described *)
Module DoubleTerms.

Import PrimFloat JS Double.
Local Open Scope float_scope.

(** Does the slot take part in the average? *)
Definition contributes (sv : signalValue) : bool :=
  match normalizedValue sv with
  | Some _ => true
  | None => false
  end.

(** The non-null signals of a group. *)
Definition countOf (g : signalGroup) : nat :=
  List.length (filter (fun e => contributes (snd e)) g).

(** The issue a slot raises, if any. *)
Definition issueOf (category : string) (e : string * signalValue)
  : list Issue.t :=
  match normalizedValue (snd e) with
  | Some v =>
      if v <? 0.4
      then [ Issue.make category (fst e) v (detailOf (snd e))
               (if v <? 0.2 then TrustScorer.high else TrustScorer.medium) ]
      else []
  | None => []
  end.

(** The names and the scores of the slots that take part, in the order of
    the group. *)
Definition scoresOf (g : signalGroup) : list (string * float) :=
  flat_map (fun e => match normalizedValue (snd e) with
                     | Some v => [(fst e, v)]
                     | None => []
                     end) g.

(** What one score adds to [(score, weightSum)]. *)
Definition addSignal (w : list (string * float)) (acc : float * float)
  (e : string * float) : float * float :=
  (fst acc + snd e * weightOr0 w (fst e), snd acc + weightOr0 w (fst e)).

(** [weightSum > 0 ? score / weightSum : 0.5] *)
Definition ratioOf (acc : float * float) : float :=
  if 0 <? snd acc then fst acc / snd acc else 0.5.

(** The signals a bundle entry adds to [totalSignals]. *)
Definition entryCount (e : string * signalGroup) : nat :=
  match get weights (fst e) with
  | Some _ => countOf (snd e)
  | None => 0
  end.

(** The issues a bundle entry adds to [flaggedIssues]. *)
Definition entryIssues (e : string * signalGroup) : list Issue.t :=
  match get weights (fst e) with
  | Some _ => flat_map (issueOf (fst e)) (snd e)
  | None => []
  end.

(** The non-null signals of the known categories of a bundle. *)
Definition signalsOf (b : signalBundle) : nat :=
  fold_right (fun e n => (entryCount e + n)%nat) 0%nat b.

(** What the first loop keeps of a bundle entry. *)
Definition keptOf (e : string * signalGroup)
  : list (string * CategoryResult.t) :=
  match get weights (fst e) with
  | Some w =>
      if Nat.ltb 0 (countOf (snd e))
      then [(fst e, _scoreCatgory (fst e) (snd e) w)]
      else []
  | None => []
  end.

Definition textWeights : list (string * float) :=
  [ ("aiDetection", 0.25);
    ("repetitionPattern", 0.20);
    ("sentimentConsistency", 0.15);
    ("vocabularyDistribution", 0.15);
    ("templateMatching", 0.25) ]%string.

(** Every list of [n] elements of an alphabet. *)
Fixpoint words {A : Type} (alphabet : list A) (n : nat) : list (list A) :=
  match n with
  | O => [[]]
  | S k => flat_map (fun a => map (cons a) (words alphabet k)) alphabet
  end.

(** No name occurs twice. *)
Fixpoint distinct (l : list string) : bool :=
  match l with
  | [] => true
  | a :: l' => negb (existsb (String.eqb a) l') && distinct l'
  end.

(** The score of the text category when the listed signals all score [v]. *)
Definition textScoreAt (v : float) (names : list string) : float :=
  ratioOf (fold_left (addSignal textWeights)
             (map (fun name => (name, v)) names) (0, 0)).

(** Every listed signal at the score [v]. *)
Definition allAt (v : float) (names : list string) : signalGroup :=
  map (fun name => (name, SigNum v)) names.

End DoubleTerms.

(** * Properties *)

(** ** Facts about the shared primitives *)
Module JSFacts.

Import JS.
Local Open Scope Q_scope.

Lemma ltb_lt (a b : Q) : ltb a b = true <-> a < b.
Proof.
  unfold ltb. rewrite negb_true_iff.
  split; intro H.
  - apply Qnot_le_lt. intro Hle. apply Qle_bool_iff in Hle. congruence.
  - destruct (Qle_bool b a) eqn:E; [|reflexivity].
    apply Qle_bool_iff in E. exfalso. apply (Qlt_not_le _ _ H E).
Qed.

Lemma ltb_ge (a b : Q) : ltb a b = false <-> b <= a.
Proof.
  unfold ltb. rewrite negb_false_iff. apply Qle_bool_iff.
Qed.

Lemma geb_le (a b : Q) : geb a b = true <-> b <= a.
Proof. apply Qle_bool_iff. Qed.

Lemma ofNat_nonneg (n : nat) : 0 <= ofNat n.
Proof.
  unfold ofNat. change 0 with (inject_Z 0). rewrite <- Zle_Qle. lia.
Qed.

Lemma ofNat_le (n m : nat) : ofNat n <= ofNat m <-> (n <= m)%nat.
Proof. unfold ofNat. rewrite <- Zle_Qle. lia. Qed.

Lemma gtb_gt (a b : Q) : gtb a b = true <-> b < a.
Proof. apply ltb_lt. Qed.

Lemma gtb_le (a b : Q) : gtb a b = false <-> a <= b.
Proof. apply ltb_ge. Qed.

End JSFacts.

(** ** The aggregator *)
Module TrustScorerFacts.

Import JS JSFacts TrustScorer TrustScorerSpec.
Local Open Scope Q_scope.

(** *** The loop of [_scoreCatgory], field by field *)

Lemma catStep_spec category w st e :
  catStep category w st e =
  {| cs_score := addScore w (cs_score st) e;
     cs_weightSum := addWeight w (cs_weightSum st) e;
     cs_signalCount :=
       (cs_signalCount st + (if contributes (snd e) then 1 else 0))%nat;
     cs_issues := cs_issues st ++ issueOf category e |}.
Proof.
  destruct e as [name sv], st as [s ws n iss].
  unfold catStep, addScore, addWeight, issueOf, contributes.
  destruct sv as [|q|[[v|] d]]; simpl;
    rewrite ?app_nil_r, ?Nat.add_0_r, ?Nat.add_1_r; try reflexivity.
  - destruct (ltb q 0.4); rewrite ?app_nil_r; reflexivity.
  - destruct (ltb v 0.4); rewrite ?app_nil_r; reflexivity.
Qed.

Lemma catFold_spec category w g : forall st,
  fold_left (catStep category w) g st =
  {| cs_score := fold_left (addScore w) g (cs_score st);
     cs_weightSum := fold_left (addWeight w) g (cs_weightSum st);
     cs_signalCount := (cs_signalCount st + countOf g)%nat;
     cs_issues := cs_issues st ++ flat_map (issueOf category) g |}.
Proof.
  induction g as [|e g IH]; intros st; simpl.
  - unfold countOf; simpl. rewrite Nat.add_0_r, app_nil_r.
    destruct st; reflexivity.
  - rewrite IH, catStep_spec; simpl. unfold countOf; simpl.
    destruct (contributes (snd e)); simpl;
      rewrite <- ?app_assoc; f_equal; lia.
Qed.

Lemma scoreCatgory_signalCount category g w :
  CategoryResult.signalCount (_scoreCatgory category g w) = countOf g.
Proof. unfold _scoreCatgory. rewrite catFold_spec. reflexivity. Qed.

Lemma scoreCatgory_issues category g w :
  CategoryResult.issues (_scoreCatgory category g w)
  = flat_map (issueOf category) g.
Proof. unfold _scoreCatgory. rewrite catFold_spec. reflexivity. Qed.

Lemma scoreCatgory_score category g w :
  CategoryResult.score (_scoreCatgory category g w)
  = let ws := fold_left (addWeight w) g 0 in
    if gtb ws 0 then fold_left (addScore w) g 0 / ws else 0.5.
Proof. unfold _scoreCatgory. rewrite catFold_spec. reflexivity. Qed.

Lemma issueOf_silent category e :
  contributes (snd e) = false -> issueOf category e = [].
Proof.
  unfold contributes, issueOf. destruct (normalizedValue (snd e)); easy.
Qed.

Lemma countOf_0_issues category g :
  countOf g = 0%nat -> flat_map (issueOf category) g = [].
Proof.
  unfold countOf. induction g as [|e g IH]; simpl; [reflexivity|].
  destruct (contributes (snd e)) eqn:E; simpl; [discriminate|].
  intros H. rewrite (issueOf_silent _ _ E). simpl. auto.
Qed.

(** *** The first loop of [computeScore] *)

Lemma scoreStep_totalSignals st e :
  totalSignals (scoreStep st e) = (totalSignals st + entryCount e)%nat.
Proof.
  destruct e as [c g]. unfold scoreStep, entryCount. cbn [fst snd].
  destruct (get weights c) as [w|]; [|lia].
  rewrite scoreCatgory_signalCount.
  destruct (Nat.ltb_spec 0 (countOf g)); cbn [totalSignals]; lia.
Qed.

Lemma scoreStep_flaggedIssues st e :
  flaggedIssues (scoreStep st e) = flaggedIssues st ++ entryIssues e.
Proof.
  destruct e as [c g]. unfold scoreStep, entryIssues. cbn [fst snd].
  destruct (get weights c) as [w|]; [|now rewrite app_nil_r].
  rewrite scoreCatgory_signalCount.
  destruct (Nat.ltb_spec 0 (countOf g)); cbn [flaggedIssues].
  - rewrite scoreCatgory_issues. reflexivity.
  - rewrite (countOf_0_issues c g) by lia. now rewrite app_nil_r.
Qed.

Lemma scoreFold_totalSignals b : forall st,
  totalSignals (fold_left scoreStep b st) = (totalSignals st + signalsOf b)%nat.
Proof.
  induction b as [|e b IH]; intros st; cbn [fold_left signalsOf fold_right].
  - lia.
  - rewrite IH, scoreStep_totalSignals. fold (signalsOf b). lia.
Qed.

Lemma scoreFold_flaggedIssues b : forall st,
  flaggedIssues (fold_left scoreStep b st)
  = flaggedIssues st ++ flat_map entryIssues b.
Proof.
  induction b as [|e b IH]; intros st; cbn [fold_left flat_map].
  - now rewrite app_nil_r.
  - rewrite IH, scoreStep_flaggedIssues, app_assoc. reflexivity.
Qed.

Lemma computeScore_signalCount cfg b :
  TrustResult.signalCount (computeScore cfg b) = signalsOf b.
Proof.
  unfold computeScore.
  destruct (ltb _ _); simpl; rewrite scoreFold_totalSignals; reflexivity.
Qed.

Lemma getTrustLevel_sufficient q : _getTrustLevel q <> INSUFFICIENT_DATA.
Proof.
  unfold _getTrustLevel.
  destruct (geb q thresholds.HIGH_TRUST); [discriminate|].
  destruct (geb q thresholds.MODERATE_TRUST); [discriminate|].
  destruct (geb q thresholds.LOW_TRUST); discriminate.
Qed.


(** *** The weight tables *)

Lemma weights_positive :
  Forall (fun e => positiveTable (snd e)) weights.
Proof. repeat constructor. Qed.

Lemma get_In {A : Type} (o : list (string * A)) k v :
  get o k = Some v -> exists k', In (k', v) o.
Proof.
  induction o as [|[k' v'] o IH]; simpl; [discriminate|].
  destruct (String.eqb k' k).
  - intros [= ->]. exists k'. now left.
  - intros H. destruct (IH H) as [k'' Hin]. exists k''. now right.
Qed.

Lemma weights_get_positive category w :
  get weights category = Some w -> positiveTable w.
Proof.
  intros H. apply get_In in H as [k Hin].
  pose proof weights_positive as P. rewrite Forall_forall in P.
  apply (P _ Hin).
Qed.

Lemma weightOr0_nonneg w name : positiveTable w -> 0 <= weightOr0 w name.
Proof.
  intros P. unfold weightOr0.
  destruct (get w name) as [x|] eqn:E; [|apply Qle_refl].
  apply get_In in E as [k Hin]. unfold positiveTable in P.
  rewrite Forall_forall in P. apply Qlt_le_weak. apply (P _ Hin).
Qed.

(** *** Monotonicity of the weighted average *)

Lemma addScore_fold_mono w g :
  positiveTable w ->
  forall a a', a' <= a ->
  fold_left (addScore w) g a' <= fold_left (addScore w) g a.
Proof.
  intros P. induction g as [|e g IH]; intros a a' H; simpl; [assumption|].
  apply IH. unfold addScore.
  destruct (normalizedValue (snd e)); [|assumption].
  apply Qplus_le_compat; [assumption|apply Qle_refl].
Qed.

Lemma addWeight_same w name sv sv' a :
  contributes sv = contributes sv' ->
  addWeight w a (name, sv) = addWeight w a (name, sv').
Proof.
  unfold addWeight, contributes; simpl.
  destruct (normalizedValue sv), (normalizedValue sv');
    intros; congruence.
Qed.

(** C8. In any category of the weight table, lowering the score of one
    non-null signal while every other slot stays as it is cannot raise the
    weighted score [_scoreCatgory] gives the category. *)
Theorem C8_category_score_monotone
  (category : string) (w : list (string * Q)) (pre post : signalGroup)
  (name : string) (sv sv' : signalValue) (v v' : Q) :
  get weights category = Some w ->
  normalizedValue sv = Some v ->
  normalizedValue sv' = Some v' ->
  v' <= v ->
  CategoryResult.score (_scoreCatgory category (pre ++ (name, sv') :: post) w)
  <= CategoryResult.score (_scoreCatgory category (pre ++ (name, sv) :: post) w).
Proof.
  intros Hw Hv Hv' Hle.
  pose proof (weights_get_positive _ Hw) as P.
  rewrite !scoreCatgory_score. cbv zeta.
  rewrite !fold_left_app. cbn [fold_left].
  rewrite (addWeight_same w name sv' sv).
  2:{ unfold contributes. now rewrite Hv, Hv'. }
  set (ws := fold_left (addWeight w) post _).
  destruct (gtb ws 0) eqn:E; [|apply Qle_refl].
  apply gtb_gt in E.
  unfold Qdiv. apply Qmult_le_compat_r.
  - apply addScore_fold_mono; [assumption|].
    unfold addScore; cbn [fst snd]. rewrite Hv, Hv'.
    apply Qplus_le_compat; [apply Qle_refl|].
    apply Qmult_le_compat_r; [assumption|].
    now apply weightOr0_nonneg.
  - apply Qinv_le_0_compat. now apply Qlt_le_weak.
Qed.

(** A text group in which [aiDetection] drops from 0.9 to 0.2. *)
Lemma C8_category_score_monotone_witness :
  let pre := [("templateMatching"%string, SigNum 0.5)] in
  let post := [("repetitionPattern"%string, SigNull)] in
  let sv := SigObj (SignalOutput.make (Some 0.9) None) in
  let sv' := SigNum 0.2 in
  get weights "text" = Some textWeights
  /\ normalizedValue sv = Some 0.9
  /\ normalizedValue sv' = Some 0.2
  /\ 0.2 <= 0.9
  /\ CategoryResult.score
       (_scoreCatgory "text" (pre ++ ("aiDetection"%string, sv') :: post)
          textWeights)
     <= CategoryResult.score
          (_scoreCatgory "text" (pre ++ ("aiDetection"%string, sv) :: post)
             textWeights).
Proof.
  cbv zeta.
  split; [reflexivity|]. split; [reflexivity|]. split; [reflexivity|].
  split; [discriminate|].
  apply (@C8_category_score_monotone "text" textWeights _ _ "aiDetection"
           (SigObj (SignalOutput.make (Some 0.9) None)) (SigNum 0.2) 0.9 0.2).
  - reflexivity.
  - reflexivity.
  - reflexivity.
  - discriminate.
Defined.

(** *** What the numbers of a result depend on *)

Lemma sameScores_refl g : sameScores g g.
Proof. induction g; constructor; auto. Qed.

Lemma sameScores_countOf g g' : sameScores g g' -> countOf g = countOf g'.
Proof.
  unfold countOf.
  induction 1 as [|[k sv] [k' sv'] g g' [_ Hv] _ IH]; [reflexivity|].
  cbn [snd] in Hv. cbn [filter snd].
  replace (contributes sv) with (contributes sv')
    by (unfold contributes; now rewrite Hv).
  destruct (contributes sv'); cbn [List.length]; congruence.
Qed.

Lemma sameScores_fold w g g' :
  sameScores g g' ->
  forall a b,
    fold_left (addScore w) g a = fold_left (addScore w) g' a
    /\ fold_left (addWeight w) g b = fold_left (addWeight w) g' b.
Proof.
  induction 1 as [|[k sv] [k' sv'] g g' [Hk Hv] _ IH]; intros a b;
    [auto|].
  cbn [fst snd] in Hk, Hv. subst k'.
  cbn [fold_left].
  replace (addScore w a (k, sv)) with (addScore w a (k, sv'))
    by (unfold addScore; cbn [fst snd]; now rewrite Hv).
  replace (addWeight w b (k, sv)) with (addWeight w b (k, sv'))
    by (unfold addWeight; cbn [fst snd]; now rewrite Hv).
  apply IH.
Qed.

Lemma sameScores_result category w g g' :
  sameScores g g' ->
  CategoryResult.score (_scoreCatgory category g w)
  = CategoryResult.score (_scoreCatgory category g' w)
  /\ CategoryResult.signalCount (_scoreCatgory category g w)
     = CategoryResult.signalCount (_scoreCatgory category g' w).
Proof.
  intros H. rewrite !scoreCatgory_score, !scoreCatgory_signalCount.
  destruct (sameScores_fold w H 0 0) as (H1 & H2).
  cbv zeta. rewrite H1, H2, (sameScores_countOf H). split; reflexivity.
Qed.

Lemma set_skeleton o o' k r r' :
  map skeleton o = map skeleton o' ->
  CategoryResult.score r = CategoryResult.score r' ->
  CategoryResult.signalCount r = CategoryResult.signalCount r' ->
  map skeleton (set o k r) = map skeleton (set o' k r').
Proof.
  intros H Hs Hn. revert o' H.
  induction o as [|[k1 r1] o IH]; intros [|[k2 r2] o'] H;
    try discriminate; cbn [set map].
  - unfold skeleton; cbn [fst snd]. now rewrite Hs, Hn.
  - cbn [map] in H. unfold skeleton at 1 3 in H. cbn [fst snd] in H.
    injection H as Hk Hsc Hct Htl. subst k2.
    destruct (String.eqb k1 k); cbn [map].
    + unfold skeleton at 1 3; cbn [fst snd]. now rewrite Hs, Hn, Htl.
    + unfold skeleton at 1 3; cbn [fst snd].
      now rewrite Hsc, Hct, (IH _ Htl).
Qed.

Lemma finalFold_skeleton cs : forall cs' acc,
  map skeleton cs = map skeleton cs' ->
  fold_left finalStep cs acc = fold_left finalStep cs' acc.
Proof.
  induction cs as [|[k r] cs IH]; intros [|[k' r'] cs'] acc H;
    try discriminate; [reflexivity|].
  cbn [map] in H. unfold skeleton at 1 3 in H. cbn [fst snd] in H.
  injection H as Hk Hs Hn Htl. subst k'.
  cbn [fold_left]. unfold finalStep at 2 4. rewrite Hs. now apply IH.
Qed.

Lemma sameBundle_fold b b' :
  sameBundle b b' ->
  forall st st',
    totalSignals st = totalSignals st' ->
    map skeleton (categoryScores st) = map skeleton (categoryScores st') ->
    totalSignals (fold_left scoreStep b st)
    = totalSignals (fold_left scoreStep b' st')
    /\ map skeleton (categoryScores (fold_left scoreStep b st))
       = map skeleton (categoryScores (fold_left scoreStep b' st')).
Proof.
  induction 1 as [|[c g] [c' g'] b b' [Hc Hg] _ IH]; intros st st' Ht Hm;
    [auto|].
  cbn [fst snd] in Hc, Hg. subst c'.
  cbn [fold_left]. apply IH.
  - rewrite !scoreStep_totalSignals. unfold entryCount. cbn [fst snd].
    destruct (get weights c); [|lia].
    rewrite (sameScores_countOf Hg). lia.
  - unfold scoreStep.
    destruct (get weights c) as [w|]; [|assumption].
    destruct (sameScores_result c w Hg) as [Hs Hn]. rewrite <- Hn.
    destruct (Nat.ltb 0 _); [|assumption].
    cbn [categoryScores]. now apply set_skeleton.
Qed.

Lemma sameBundle_numbers cfg b b' :
  sameBundle b b' ->
  let r := computeScore cfg b in
  let r' := computeScore cfg b' in
  TrustResult.score r' = TrustResult.score r
  /\ TrustResult.level r' = TrustResult.level r
  /\ TrustResult.confidence r' = TrustResult.confidence r
  /\ TrustResult.signalCount r' = TrustResult.signalCount r.
Proof.
  intros H. cbv zeta. unfold computeScore.
  destruct (sameBundle_fold H scoreInit scoreInit eq_refl eq_refl) as [Ht Hm].
  rewrite <- Ht.
  destruct (ltb _ _); cbn; [auto|].
  unfold finalScoreOf. rewrite (finalFold_skeleton _ _ _ Hm). auto.
Qed.

(** The issue list of a result, read off the bundle. *)
Lemma computeScore_issues cfg b :
  TrustResult.issues (computeScore cfg b)
  = if ltb (ofNat (signalsOf b)) (minSignalsRequired cfg) then []
    else flat_map entryIssues b.
Proof.
  unfold computeScore. rewrite scoreFold_totalSignals, Nat.add_0_l.
  destruct (ltb _ _); cbn; [reflexivity|].
  now rewrite scoreFold_flaggedIssues.
Qed.

(** C9. Writing a signal as the bare number [s] instead of the object
    [{score: s, detail: d}] leaves the score, the level, the confidence and
    the signal count of the result as they were; the issue list changes at
    most in the one issue that slot raises, which now has [detail: null]. *)
Theorem C9_bare_number_signal
  (cfg : config) (bpre bpost : signalBundle) (category : string)
  (gpre gpost : signalGroup) (name : string) (s : Q) (d : option string) :
  let object := SigObj (SignalOutput.make (Some s) d) in
  let r :=
    computeScore cfg
      (bpre ++ (category, gpre ++ (name, object) :: gpost) :: bpost) in
  let r' :=
    computeScore cfg
      (bpre ++ (category, gpre ++ (name, SigNum s) :: gpost) :: bpost) in
  TrustResult.score r' = TrustResult.score r
  /\ TrustResult.level r' = TrustResult.level r
  /\ TrustResult.confidence r' = TrustResult.confidence r
  /\ TrustResult.signalCount r' = TrustResult.signalCount r
  /\ exists ipre mid ipost,
       TrustResult.issues r = ipre ++ mid ++ ipost
       /\ TrustResult.issues r' = ipre ++ map withoutDetail mid ++ ipost
       /\ (List.length mid <= 1)%nat
       /\ Forall (fun i => Issue.category i = category
                           /\ Issue.signal i = name
                           /\ Issue.score i = s) mid.
Proof.
  cbv zeta.
  set (b := bpre ++ (category, gpre ++ (name, SigObj _) :: gpost) :: bpost).
  set (b' := bpre ++ (category, gpre ++ (name, SigNum s) :: gpost) :: bpost).
  assert (Hsame : sameBundle b b').
  { unfold b, b'. apply Forall2_app.
    - clear. induction bpre; constructor; auto using sameScores_refl.
    - constructor.
      + split; [reflexivity|]. cbn [snd]. apply Forall2_app.
        * apply sameScores_refl.
        * constructor; [split; reflexivity|apply sameScores_refl].
      + clear. induction bpost; constructor; auto using sameScores_refl. }
  destruct (sameBundle_numbers cfg Hsame) as (Hs & Hl & Hc & Hn).
  repeat (split; [assumption|]).
  rewrite !computeScore_issues.
  rewrite <- !computeScore_signalCount with (cfg := cfg).
  fold b b'. rewrite Hn.
  destruct (ltb _ _).
  { exists [], [], []. repeat split; auto. }
  unfold b, b'. rewrite !flat_map_app. cbn [flat_map].
  unfold entryIssues at 2 5. cbn [fst snd].
  destruct (get weights category) as [w|].
  - rewrite !flat_map_app. cbn [flat_map].
    exists (flat_map entryIssues bpre ++ flat_map (issueOf category) gpre),
           (issueOf category (name, SigObj (SignalOutput.make (Some s) d))),
           (flat_map (issueOf category) gpost ++ flat_map entryIssues bpost).
    unfold issueOf. cbn [fst snd normalizedValue detailOf
                          SignalOutput.score SignalOutput.detail].
    destruct (ltb s 0.4); cbn [map List.length app];
      rewrite <- ?app_assoc; cbn [app]; repeat split; auto.
  - exists (flat_map entryIssues bpre), [], (flat_map entryIssues bpost).
    repeat split; auto.
Qed.

(** *** Categories without contributing weight *)

Lemma scoreStep_silent st c g :
  countOf g = 0%nat -> scoreStep st (c, g) = st.
Proof.
  intros H. unfold scoreStep.
  destruct (get weights c) as [w|]; [|reflexivity].
  now rewrite scoreCatgory_signalCount, H.
Qed.

Lemma addScore_fold_compat w g : forall a a',
  a == a' -> fold_left (addScore w) g a == fold_left (addScore w) g a'.
Proof.
  induction g as [|e g IH]; intros a a' H; cbn [fold_left]; [assumption|].
  apply IH. unfold addScore.
  destruct (normalizedValue (snd e)); [now rewrite H|assumption].
Qed.

Lemma addWeight_fold_compat w g : forall a a',
  a == a' -> fold_left (addWeight w) g a == fold_left (addWeight w) g a'.
Proof.
  induction g as [|e g IH]; intros a a' H; cbn [fold_left]; [assumption|].
  apply IH. unfold addWeight.
  destruct (normalizedValue (snd e)); [now rewrite H|assumption].
Qed.

Lemma gtb_compat a a' b : a == a' -> gtb a b = gtb a' b.
Proof.
  intros H. destruct (gtb a' b) eqn:E.
  - apply gtb_gt. apply gtb_gt in E. now rewrite H.
  - apply gtb_le. apply gtb_le in E. now rewrite H.
Qed.

(** Signals of undefined weight leave the weight sum where it was. *)
Lemma unweighted_fold w g :
  Forall (fun e => contributes (snd e) = true -> get w (fst e) = None) g ->
  forall ws, fold_left (addWeight w) g ws == ws.
Proof.
  induction 1 as [|e g He _ IH]; intros ws; cbn [fold_left];
    [reflexivity|].
  rewrite IH. unfold addWeight, weightOr0. unfold contributes in He.
  destruct (normalizedValue (snd e)); [|reflexivity].
  rewrite (He eq_refl). ring.
Qed.

Lemma get_set_same {A : Type} (o : list (string * A)) k v :
  get (set o k v) k = Some v.
Proof.
  induction o as [|[k' v'] o IH]; cbn [set get].
  - now rewrite String.eqb_refl.
  - destruct (String.eqb k' k) eqn:E; cbn [get]; rewrite E; auto.
Qed.

(** Three signals the weight table of [text] does not know, all scoring
    0.1: the category has no contributing weight, and still it is counted
    (three signals, which reaches the floor of three), raises three issues
    and puts its fallback 0.5 into the overall score; without it the bundle
    is [INSUFFICIENT_DATA]. *)
Lemma C2_unweighted_signals_counterexample :
  let g := [ ("readability", SigNum 0.1); ("novelty", SigNum 0.1);
             ("tone", SigNum 0.1) ]%string in
  let r := computeScore defaultConfig [("text"%string, g)] in
  Forall (fun e => get textWeights (fst e) = None) g
  /\ fold_left (addWeight textWeights) g 0 == 0
  /\ TrustResult.signalCount r = 3%nat
  /\ TrustResult.level r = MODERATE_TRUST
  /\ (exists q, TrustResult.score r = Some q /\ q == 0.5)
  /\ List.length (TrustResult.issues r) = 3%nat
  /\ (exists category, TrustResult.details r = [("text"%string, category)]
                       /\ CategoryResult.score category = 0.5)
  /\ TrustResult.level (computeScore defaultConfig []) = INSUFFICIENT_DATA.
Proof.
  cbv zeta. split; [repeat constructor|].
  split; [reflexivity|].
  split; [reflexivity|].
  split; [reflexivity|].
  split; [eexists; split; [reflexivity|reflexivity]|].
  split; [reflexivity|].
  split; [eexists; split; reflexivity|reflexivity].
Qed.

(** C2, as the code has it.  (a) A category none of whose slots holds a
    score is left out: the result is the one of the bundle without it.
    (b) A signal whose weight is undefined, its name being neither in the
    weight table of the category nor inherited from [Object.prototype],
    does not move the weighted score of its category.  (c) Such a signal
    is counted all the same, and a category whose non-null signals are all
    of undefined weight scores the fallback 0.5; (d) with at least one
    non-null signal, a known category is recorded and its signals are added
    to [totalSignals] whatever their weights. *)
Theorem C2_zero_weight_category :
  (forall cfg bpre c g bpost,
     countOf g = 0%nat ->
     computeScore cfg (bpre ++ (c, g) :: bpost)
     = computeScore cfg (bpre ++ bpost))
  /\ (forall c w gpre name sv gpost,
        get w name = None ->
        ~ In name inherited ->
        CategoryResult.score (_scoreCatgory c (gpre ++ (name, sv) :: gpost) w)
        == CategoryResult.score (_scoreCatgory c (gpre ++ gpost) w))
  /\ (forall c w g,
        Forall (fun e => contributes (snd e) = true -> get w (fst e) = None) g ->
        CategoryResult.score (_scoreCatgory c g w) = 0.5
        /\ CategoryResult.signalCount (_scoreCatgory c g w) = countOf g)
  /\ (forall st c w g,
        get weights c = Some w ->
        (0 < countOf g)%nat ->
        get (categoryScores (scoreStep st (c, g))) c
        = Some (_scoreCatgory c g w)
        /\ totalSignals (scoreStep st (c, g))
           = (totalSignals st + countOf g)%nat).
Proof.
  repeat split.
  - intros cfg bpre c g bpost H. unfold computeScore.
    rewrite !fold_left_app. cbn [fold_left].
    now rewrite (scoreStep_silent _ c g H).
  - intros c w gpre name sv gpost H _.
    rewrite !scoreCatgory_score. cbv zeta.
    rewrite !fold_left_app. cbn [fold_left].
    assert (Hs : addScore w (fold_left (addScore w) gpre 0) (name, sv)
                 == fold_left (addScore w) gpre 0).
    { unfold addScore, weightOr0. cbn [fst snd]. rewrite H.
      destruct (normalizedValue sv); [ring|reflexivity]. }
    assert (Hw : addWeight w (fold_left (addWeight w) gpre 0) (name, sv)
                 == fold_left (addWeight w) gpre 0).
    { unfold addWeight, weightOr0. cbn [fst snd]. rewrite H.
      destruct (normalizedValue sv); [ring|reflexivity]. }
    pose proof (addScore_fold_compat w gpost Hs) as Hs'.
    pose proof (addWeight_fold_compat w gpost Hw) as Hw'.
    rewrite (gtb_compat 0 Hw').
    destruct (gtb _ 0); [|reflexivity].
    now rewrite Hs', Hw'.
  - rewrite scoreCatgory_score. cbv zeta.
    replace (gtb (fold_left (addWeight w) g 0) 0) with false; [reflexivity|].
    symmetry. apply gtb_le. rewrite unweighted_fold by assumption.
    apply Qle_refl.
  - apply scoreCatgory_signalCount.
  - unfold scoreStep. rewrite H, scoreCatgory_signalCount.
    destruct (Nat.ltb_spec 0 (countOf g)); [|lia].
    cbn [categoryScores]. apply get_set_same.
  - rewrite scoreStep_totalSignals. unfold entryCount. cbn [fst snd].
    now rewrite H.
Qed.

(** A text group of two nulls among known categories; an unknown
    [readability] next to [aiDetection]; three unknown signals. *)
Lemma C2_zero_weight_category_witness :
  let silent := [ ("timingCluster", SigNull);
                  ("ratingDistribution",
                   SigObj (SignalOutput.make None None)) ]%string in
  let text := [ ("aiDetection", SigNum 0.9); ("templateMatching", SigNum 0.7);
                ("repetitionPattern", SigNum 0.5) ]%string in
  let unknown := [ ("readability", SigNum 0.1); ("novelty", SigNum 0.1);
                   ("tone", SigNum 0.1) ]%string in
  (countOf silent = 0%nat
   /\ computeScore defaultConfig
        ([("text"%string, text)] ++ ("behavioral"%string, silent) :: [])
      = computeScore defaultConfig ([("text"%string, text)] ++ []))
  /\ (get textWeights "readability" = None
      /\ ~ In "readability"%string inherited
      /\ CategoryResult.score
           (_scoreCatgory "text"
              ([("aiDetection"%string, SigNum 0.9)]
                 ++ ("readability"%string, SigNum 0.1) :: []) textWeights)
         == CategoryResult.score
              (_scoreCatgory "text"
                 ([("aiDetection"%string, SigNum 0.9)] ++ []) textWeights))
  /\ (CategoryResult.score (_scoreCatgory "text" unknown textWeights) = 0.5
      /\ CategoryResult.signalCount (_scoreCatgory "text" unknown textWeights)
         = countOf unknown)
  /\ (get weights "text" = Some textWeights
      /\ (0 < countOf unknown)%nat
      /\ get (categoryScores (scoreStep scoreInit ("text"%string, unknown)))
           "text"
         = Some (_scoreCatgory "text" unknown textWeights)
      /\ totalSignals (scoreStep scoreInit ("text"%string, unknown))
         = (totalSignals scoreInit + countOf unknown)%nat).
Proof.
  cbv zeta.
  destruct C2_zero_weight_category as (Ha & Hb & Hc & Hd).
  split; [split; [reflexivity|apply Ha; reflexivity]|].
  assert (Hn : ~ In "readability"%string inherited)
    by (intros H; cbn [inherited In] in H; intuition discriminate).
  split; [split; [reflexivity|split; [exact Hn|now apply Hb]]|].
  split; [apply Hc; repeat constructor|].
  split; [reflexivity|].
  split; [cbn; lia|].
  apply Hd; [reflexivity|cbn; lia].
Defined.

(** *** The scorer at work *)

(** Three low text signals: very low trust, three issues, two of them
    high. *)
Example three_low_text_signals :
  let r :=
    computeScore defaultConfig
      [ ("text"%string,
         [ ("aiDetection"%string, SigObj (SignalOutput.make (Some 0.1) None));
           ("templateMatching"%string,
            SigObj (SignalOutput.make (Some 0.1) None));
           ("repetitionPattern"%string,
            SigObj (SignalOutput.make (Some 0.2) None)) ]) ] in
  TrustResult.level r = VERY_LOW_TRUST
  /\ TrustResult.signalCount r = 3%nat
  /\ map Issue.severity (TrustResult.issues r) = [high; high; medium]
  /\ TrustResult.message r
     = "Limited data suggests: Strong indicators of inauthentic content detected. 3 significant concerns found."%string.
Proof. repeat split. Qed.

(** The empty bundle. *)
Example empty_bundle :
  computeScore defaultConfig []
  = TrustResult.make None INSUFFICIENT_DATA 0
      "Not enough data to assess authenticity" [] [] 0.
Proof. reflexivity. Qed.

(** An unknown category is passed over. *)
Example unknown_category :
  computeScore defaultConfig
    [ ("sentiment"%string,
       [ ("a"%string, SigNum 0.1); ("b"%string, SigNum 0.1);
         ("c"%string, SigNum 0.1) ]) ]
  = computeScore defaultConfig [].
Proof. reflexivity. Qed.

End TrustScorerFacts.

(** ** The lexical detectors *)
Module TextAnalyzerFacts.

Import JS JSFacts TrustScorer TextAnalyzer TextAnalyzerSpec.
Local Open Scope Q_scope.

(** *** Scores stay in the unit interval *)

Lemma clamp01_bounds x : 0 <= clamp01 x <= 1.
Proof.
  unfold clamp01. split.
  - apply Q.le_max_l.
  - apply Q.max_lub; [discriminate|apply Q.le_min_l].
Qed.

Lemma signal_scored q d : 0 <= q <= 1 -> scored (signal q d).
Proof. intros H. exists q. split; [reflexivity|assumption]. Qed.

Lemma signal_clamp_scored x d : scored (signal (clamp01 x) d).
Proof. apply signal_scored, clamp01_bounds. Qed.

Lemma scored_inUnit s : scored s -> inUnit s.
Proof. intros (q & Hq & H). unfold inUnit. now rewrite Hq. Qed.

Ltac branches :=
  repeat match goal with
         | |- context [if ?c then _ else _] => destruct c
         end.

Lemma detectAIPatterns_scored text : scored (_detectAIPatterns text).
Proof. unfold _detectAIPatterns. cbv zeta. apply signal_clamp_scored. Qed.

Lemma analyzeRepetition_scored text : scored (_analyzeRepetition text).
Proof.
  unfold _analyzeRepetition. cbv zeta.
  destruct (Nat.ltb _ 2).
  - apply signal_scored. split; discriminate.
  - apply signal_clamp_scored.
Qed.

Lemma analyzeSentiment_scored text : scored (_analyzeSentiment text).
Proof.
  unfold _analyzeSentiment. cbv zeta.
  branches; apply signal_scored; split; discriminate.
Qed.

Lemma analyzeVocabulary_scored text : scored (_analyzeVocabulary text).
Proof.
  unfold _analyzeVocabulary. cbv zeta.
  destruct (Nat.ltb _ 20).
  - apply signal_scored. split; discriminate.
  - apply signal_clamp_scored.
Qed.

Lemma template_score_bounds n : 0 <= Qmax 0 (1 - ofNat n * 0.3) <= 1.
Proof.
  split; [apply Q.le_max_l|].
  apply Q.max_lub; [discriminate|].
  pose proof (ofNat_nonneg n). lra.
Qed.

Lemma detectTemplates_scored text : scored (_detectTemplates text).
Proof.
  unfold _detectTemplates. cbv zeta.
  apply signal_scored, template_score_bounds.
Qed.

(** C5. Whatever the text, each of the five outputs of [analyze] either
    carries no score or carries one in the closed interval from 0 to 1:
    below 20 characters all five are [null], from 20 characters on all five
    are scored, and every score lies between 0 and 1. *)
Theorem C5_lexical_scores_in_unit_interval (text : string) :
  let r := analyze text in
  (slotInUnit (aiDetection r)
   /\ slotInUnit (repetitionPattern r)
   /\ slotInUnit (sentimentConsistency r)
   /\ slotInUnit (vocabularyDistribution r)
   /\ slotInUnit (templateMatching r))
  /\ (((String.length text < 20)%nat
       /\ aiDetection r = None
       /\ repetitionPattern r = None
       /\ sentimentConsistency r = None
       /\ vocabularyDistribution r = None
       /\ templateMatching r = None)
      \/ ((20 <= String.length text)%nat
          /\ slotScored (aiDetection r)
          /\ slotScored (repetitionPattern r)
          /\ slotScored (sentimentConsistency r)
          /\ slotScored (vocabularyDistribution r)
          /\ slotScored (templateMatching r))).
Proof.
  cbv zeta. unfold analyze.
  destruct (Nat.ltb_spec (String.length text) 20) as [Hlen|Hlen];
    cbn [aiDetection repetitionPattern sentimentConsistency
         vocabularyDistribution templateMatching slotInUnit].
  - split; [repeat split|]. left. repeat split. assumption.
  - split.
    + split; [apply scored_inUnit, detectAIPatterns_scored|].
      split; [apply scored_inUnit, analyzeRepetition_scored|].
      split; [apply scored_inUnit, analyzeSentiment_scored|].
      split; [apply scored_inUnit, analyzeVocabulary_scored|].
      apply scored_inUnit, detectTemplates_scored.
    + right. split; [assumption|].
      split; [eexists; split; [reflexivity|apply detectAIPatterns_scored]|].
      split; [eexists; split; [reflexivity|apply analyzeRepetition_scored]|].
      split; [eexists; split; [reflexivity|apply analyzeSentiment_scored]|].
      split; [eexists; split; [reflexivity|apply analyzeVocabulary_scored]|].
      eexists; split; [reflexivity|apply detectTemplates_scored].
Qed.

(** *** Template matching *)

Lemma prefix_spec (t text : string) :
  String.prefix t text = true <-> exists post, text = (t ++ post)%string.
Proof.
  revert text. induction t as [|a t IH]; intros [|b text];
    cbn [String.prefix String.append].
  - split; [intros _; now exists ""%string|reflexivity].
  - split; [intros _; now exists (String b text)|reflexivity].
  - split; [discriminate|intros [post H]; discriminate].
  - destruct (Ascii.ascii_dec a b) as [->|Hne].
    + rewrite IH. split; intros [post H]; exists post.
      * now rewrite H.
      * now injection H.
    + split; [discriminate|]. intros [post H]. injection H as H1 H2.
      now elim Hne.
Qed.

Lemma includes_spec (text t : string) :
  Str.includes text t = true <-> occurs t text.
Proof.
  induction text as [|c text IH]; cbn [Str.includes].
  - destruct (String.prefix t "") eqn:E.
    + split; [|reflexivity]. intros _.
      apply prefix_spec in E as [post H]. now exists ""%string, post.
    + split; [discriminate|]. intros (pre & post & H).
      destruct pre; [|discriminate]. cbn [String.append] in H.
      assert (String.prefix t "" = true) by (apply prefix_spec; eauto).
      congruence.
  - destruct (String.prefix t (String c text)) eqn:E.
    + split; [|reflexivity]. intros _.
      apply prefix_spec in E as [post H]. now exists ""%string, post.
    + rewrite IH. split.
      * intros (pre & post & H). exists (String c pre), post.
        cbn [String.append]. now rewrite H.
      * intros (pre & post & H). destruct pre as [|c' pre].
        -- cbn [String.append] in H.
           assert (String.prefix t (String c text) = true)
             by (apply prefix_spec; eauto).
           congruence.
        -- cbn [String.append] in H. injection H as _ H.
           now exists pre, post.
Qed.

Lemma fakeReviewTemplates_NoDup : NoDup fakeReviewTemplates.
Proof.
  unfold fakeReviewTemplates.
  repeat (constructor; [cbn [In]; intuition discriminate|]).
  constructor.
Qed.

(** [matchedTemplates] lists, once each, the templates that occur. *)
Lemma matchedTemplates_spec text :
  NoDup (matchedTemplates text)
  /\ forall t, In t (matchedTemplates text)
               <-> In t fakeReviewTemplates /\ occurs t text.
Proof.
  unfold matchedTemplates. split.
  - apply NoDup_filter, fakeReviewTemplates_NoDup.
  - intros t. rewrite filter_In, includes_spec. reflexivity.
Qed.

Lemma detectTemplates_score text :
  SignalOutput.score (_detectTemplates text)
  = Some (Qmax 0 (1 - ofNat (matchCount text) * 0.3)).
Proof. reflexivity. Qed.

Lemma template_score_saturates n :
  (4 <= n)%nat -> Qmax 0 (1 - ofNat n * 0.3) == 0.
Proof.
  intros H. apply Q.max_l.
  assert (ofNat 4 <= ofNat n) by now apply ofNat_le.
  assert (ofNat 4 == 4) by reflexivity. lra.
Qed.

(** C6. The template-matching score of a text is
    [max(0, 1 - 0.3 * matchCount)], [matchCount] being the number of
    templates of the fixed list that occur in the text (each counted once);
    [analyze] applies it to the normalized text whenever the text has at
    least 20 characters; and a text in which four or more templates of the
    list occur scores exactly 0. *)
Theorem C6_template_matching_score :
  (forall text,
     SignalOutput.score (_detectTemplates text)
     = Some (Qmax 0 (1 - ofNat (matchCount text) * 0.3))
     /\ matchCount text = List.length (matchedTemplates text)
     /\ NoDup (matchedTemplates text)
     /\ (forall t, In t (matchedTemplates text)
                   <-> In t fakeReviewTemplates /\ occurs t text))
  /\ (forall text,
        (20 <= String.length text)%nat ->
        templateMatching (analyze text)
        = Some (_detectTemplates (Str.trim (Str.toLowerCase text))))
  /\ (forall text found,
        NoDup found ->
        (forall t, In t found -> In t fakeReviewTemplates /\ occurs t text) ->
        (4 <= List.length found)%nat ->
        exists q, SignalOutput.score (_detectTemplates text) = Some q
                  /\ q == 0).
Proof.
  split; [|split].
  - intros text. split; [apply detectTemplates_score|].
    split; [reflexivity|]. apply matchedTemplates_spec.
  - intros text H. unfold analyze.
    destruct (Nat.ltb_spec (String.length text) 20); [lia|reflexivity].
  - intros text found Hnd Hin Hlen.
    eexists. split; [apply detectTemplates_score|].
    apply template_score_saturates.
    assert (List.length found <= List.length (matchedTemplates text))%nat.
    { apply NoDup_incl_length; [assumption|].
      intros t Ht. apply matchedTemplates_spec. now apply Hin. }
    unfold matchCount. lia.
Qed.

(** A review stitched from four templates. *)
Lemma C6_template_matching_score_witness :
  let text :=
    "exactly as described, worth every penny, exceeded my expectations and arrived quickly and well packaged"%string in
  let found :=
    [ "exactly as described"; "worth every penny";
      "exceeded my expectations";
      "arrived quickly and well packaged" ]%string in
  ((20 <= String.length text)%nat
   /\ templateMatching (analyze text)
      = Some (_detectTemplates (Str.trim (Str.toLowerCase text))))
  /\ (NoDup found
      /\ (4 <= List.length found)%nat
      /\ exists q, SignalOutput.score (_detectTemplates text) = Some q
                   /\ q == 0).
Proof.
  cbv zeta.
  destruct C6_template_matching_score as (_ & Hb & Hc).
  assert (Hnd : NoDup [ "exactly as described"; "worth every penny";
                        "exceeded my expectations";
                        "arrived quickly and well packaged" ]%string).
  { repeat (constructor; [cbn [In]; intuition discriminate|]). constructor. }
  split.
  - split; [cbn [String.length]; lia|].
    apply Hb. cbn [String.length]. lia.
  - split; [exact Hnd|]. split; [cbn; lia|].
    apply (Hc _ _ Hnd); [|cbn; lia].
    intros t Ht. split.
    + cbn [In] in Ht. unfold fakeReviewTemplates. cbn [In].
      intuition (subst; auto 20).
    + apply includes_spec.
      cbn [In] in Ht.
      destruct Ht as [<-|[<-|[<-|[<-|[]]]]]; vm_compute; reflexivity.
Defined.

(** One template repeated four times is one match: the score is 0.7. *)
Example template_counted_once :
  let text :=
    "worth every penny worth every penny worth every penny worth every penny"%string in
  matchCount text = 1%nat
  /\ SignalOutput.score (_detectTemplates text) = Some (Qmax 0 (1 - 1 * 0.3)).
Proof. split; reflexivity. Qed.

(** *** The detectors at work *)

(** A review made of templates. *)
Example template_heavy_review :
  scoresOf
    (analyze
       "I bought this for my husband and he loves it. Great quality for the price. Arrived quickly and well packaged. Exactly as described. Would highly recommend this product. Don't hesitate to buy!")
  = [Some 1; Some (1 # 2); Some (9 # 20); Some (44 # 65); Some 0].
Proof. vm_compute. reflexivity. Qed.

(** A review with a price, a duration and a reservation. *)
Example keyboard_review :
  scoresOf
    (analyze
       "Really solid keyboard for the price. Keys feel great and the bluetooth connects fast. Only downside is the spacebar is a little mushy compared to my old mechanical, but for $40 I can't complain. Been using it daily for 3 months now.")
  = [Some 1; Some (4 # 5); Some (17 # 20); Some (289 # 330); Some 1].
Proof. vm_compute. reflexivity. Qed.

(** Too short to judge. *)
Example short_text :
  scoresOf (analyze "Works as expected.") = [None; None; None; None; None].
Proof. reflexivity. Qed.

End TextAnalyzerFacts.

(** ** The cross-item detector *)
Module BatchTextAnalyzerFacts.

Import JS JSFacts TrustScorer BatchTextAnalyzer BatchTextAnalyzerSpec.
Local Open Scope Q_scope.

(** *** Sets and counters *)

Lemma mem_In x l : Str.mem x l = true <-> In x l.
Proof.
  unfold Str.mem. rewrite existsb_exists. split.
  - intros [y [Hy E]]. apply String.eqb_eq in E. now subst.
  - intros H. exists x. split; [assumption|apply String.eqb_refl].
Qed.

Lemma mem_not_In x l : Str.mem x l = false <-> ~ In x l.
Proof.
  rewrite <- mem_In. destruct (Str.mem x l); split; congruence.
Qed.

Lemma setOf_spec l : forall seen,
  NoDup seen ->
  NoDup (Str.setOf l seen)
  /\ forall x, In x (Str.setOf l seen) <-> In x seen \/ In x l.
Proof.
  induction l as [|a l IH]; intros seen Hnd; cbn [Str.setOf].
  - split; [assumption|]. intros x. cbn [In]. tauto.
  - destruct (Str.mem a seen) eqn:E.
    + destruct (IH seen Hnd) as [H1 H2]. split; [assumption|].
      intros x. rewrite H2. cbn [In]. apply mem_In in E.
      split; [tauto|]. intros [H|[<-|H]]; auto.
    + apply mem_not_In in E.
      assert (Hnd' : NoDup (seen ++ [a])).
      { apply NoDup_app; [assumption|repeat constructor; auto|].
        intros x Hx [<-|[]]. contradiction. }
      destruct (IH _ Hnd') as [H1 H2]. split; [assumption|].
      intros x. rewrite H2, in_app_iff. cbn [In]. tauto.
Qed.

Lemma newSet_NoDup l : NoDup (Str.newSet l).
Proof. apply setOf_spec. constructor. Qed.

Lemma newSet_In l x : In x (Str.newSet l) <-> In x l.
Proof.
  unfold Str.newSet. destruct (setOf_spec l (seen := [])) as [_ H].
  - constructor.
  - rewrite H. cbn [In]. tauto.
Qed.

Lemma get_bump counts k k' :
  get (bump String.eqb counts k) k'
  = if String.eqb k k' then Some (S (countFor counts k'))
    else get counts k'.
Proof.
  unfold countFor.
  induction counts as [|[k1 n] counts IH]; cbn [bump get].
  - destruct (String.eqb k k'); reflexivity.
  - destruct (String.eqb k1 k) eqn:E1.
    + apply String.eqb_eq in E1. subst k1. cbn [get].
      destruct (String.eqb k k'); reflexivity.
    + cbn [get]. rewrite IH.
      destruct (String.eqb k1 k') eqn:E2; [|reflexivity].
      apply String.eqb_eq in E2. subst k1. now rewrite String.eqb_sym, E1.
Qed.

Lemma countFor_bump counts k k' :
  countFor (bump String.eqb counts k) k'
  = (countFor counts k' + if String.eqb k k' then 1 else 0)%nat.
Proof.
  unfold countFor at 1. rewrite get_bump.
  destruct (String.eqb k k'); [lia|].
  unfold countFor. lia.
Qed.

Lemma bump_keys counts k k' :
  In k' (map fst (bump String.eqb counts k))
  <-> k' = k \/ In k' (map fst counts).
Proof.
  induction counts as [|[k1 n] counts IH]; cbn [bump map fst In].
  - intuition.
  - destruct (String.eqb k1 k) eqn:E; cbn [map fst In].
    + apply String.eqb_eq in E. subst. intuition.
    + rewrite IH. intuition.
Qed.

Lemma bump_NoDup counts k :
  NoDup (map fst counts) -> NoDup (map fst (bump String.eqb counts k)).
Proof.
  induction counts as [|[k1 n] counts IH]; cbn [bump map fst]; intros H.
  - repeat constructor. auto.
  - inversion H as [|? ? Hnotin Hnd]; subst.
    destruct (String.eqb k1 k) eqn:E; cbn [map fst].
    + constructor; assumption.
    + constructor; [|auto]. rewrite bump_keys. intros [->|Hin].
      * now rewrite String.eqb_refl in E.
      * contradiction.
Qed.

Lemma bump_positive counts k :
  Forall (fun e => (1 <= snd e)%nat) counts ->
  Forall (fun e => (1 <= snd e)%nat) (bump String.eqb counts k).
Proof.
  induction 1 as [|[k1 n] counts Hn Hrest IH]; cbn [bump].
  - repeat constructor.
  - cbn [snd] in Hn.
    destruct (String.eqb k1 k); constructor; cbn [snd]; auto.
Qed.

Lemma get_In_NoDup (counts : list (string * nat)) :
  NoDup (map fst counts) ->
  forall k n, In (k, n) counts <-> get counts k = Some n.
Proof.
  induction counts as [|[k1 n1] counts IH]; cbn [map fst get In]; intros H k n.
  - split; [tauto|discriminate].
  - inversion H as [|? ? Hnotin Hnd]; subst.
    destruct (String.eqb k1 k) eqn:E.
    + apply String.eqb_eq in E. subst k1. split.
      * intros [[= ->]|Hin]; [reflexivity|].
        elim Hnotin. apply (in_map fst) in Hin. exact Hin.
      * intros [= ->]. now left.
    + rewrite <- (IH Hnd). split; [|tauto].
      intros [[= -> ->]|Hin]; [|assumption].
      now rewrite String.eqb_refl in E.
Qed.

Lemma tally_fold ks : forall counts,
  counter counts ->
  counter (fold_left (bump String.eqb) ks counts)
  /\ forall k, countFor (fold_left (bump String.eqb) ks counts) k
               = (countFor counts k + count_occ string_dec ks k)%nat.
Proof.
  induction ks as [|a ks IH]; intros counts [Hnd Hpos]; cbn [fold_left].
  - split; [split; assumption|]. intros k. cbn [count_occ]. lia.
  - destruct (IH (bump String.eqb counts a)) as [Hc Hk].
    { split; [now apply bump_NoDup|now apply bump_positive]. }
    split; [assumption|]. intros k. rewrite Hk, countFor_bump.
    cbn [count_occ].
    destruct (string_dec a k) as [->|Hne].
    + rewrite String.eqb_refl. lia.
    + apply String.eqb_neq in Hne. rewrite Hne. lia.
Qed.

Lemma count_occ_NoDup (l : list string) k :
  NoDup l -> count_occ string_dec l k = if Str.mem k l then 1%nat else 0%nat.
Proof.
  intros H. destruct (Str.mem k l) eqn:E.
  - apply mem_In in E.
    pose proof (proj1 (NoDup_count_occ string_dec l) H k).
    pose proof (proj1 (count_occ_In string_dec l k) E). lia.
  - apply mem_not_In in E. now apply count_occ_not_In.
Qed.

(** *** Shingles shared between texts *)

Lemma grams_mem p t : Str.mem p (grams t) = Str.mem p (shingles t).
Proof.
  unfold grams. fold (shingles t).
  destruct (Str.mem p (shingles t)) eqn:E.
  - apply mem_In. apply newSet_In. now apply mem_In.
  - apply mem_not_In. rewrite newSet_In. now apply mem_not_In.
Qed.

Lemma phraseCounts_fold texts : forall counts,
  counter counts ->
  let result :=
    fold_left (fun counts g => fold_left (bump String.eqb) g counts)
      (map grams texts) counts in
  counter result
  /\ forall p, countFor result p = (countFor counts p + textsWith p texts)%nat.
Proof.
  induction texts as [|t texts IH]; intros counts Hc; cbn [map fold_left].
  - split; [assumption|]. intros p. unfold textsWith. cbn. lia.
  - destruct (tally_fold (grams t) Hc) as [Hc' Hk].
    destruct (IH _ Hc') as [Hc'' Hk'].
    split; [assumption|]. intros p. rewrite Hk', Hk.
    rewrite count_occ_NoDup by apply newSet_NoDup.
    rewrite grams_mem. unfold textsWith. cbn [filter].
    destruct (Str.mem p (shingles t)); cbn [List.length]; lia.
Qed.

Lemma phraseCounts_spec texts :
  counter (phraseCounts texts)
  /\ forall p, countFor (phraseCounts texts) p = textsWith p texts.
Proof.
  destruct (phraseCounts_fold texts (counts := [])) as [Hc Hk].
  - split; constructor.
  - split; [assumption|]. intros p. now rewrite Hk.
Qed.

(** *** The sort keeps the phrases *)

Lemma insertBy_perm {A : Type} (before : A -> A -> bool) x l :
  Permutation (insertBy before x l) (x :: l).
Proof.
  induction l as [|y l IH]; cbn [insertBy]; [reflexivity|].
  destruct (before y x); [|reflexivity].
  rewrite IH. apply perm_swap.
Qed.

Lemma sortBy_perm {A : Type} (before : A -> A -> bool) l :
  Permutation (sortBy before l) l.
Proof.
  unfold sortBy. induction l as [|x l IH]; cbn [fold_right]; [reflexivity|].
  rewrite insertBy_perm. now constructor.
Qed.

Lemma filter_keys_NoDup {B : Type} (f : string * B -> bool) l :
  NoDup (map fst l) -> NoDup (map fst (filter f l)).
Proof.
  induction l as [|e l IH]; cbn [map filter]; intros H; [constructor|].
  inversion H as [|? ? Hnotin Hnd]; subst.
  destruct (f e); cbn [map]; [|auto].
  constructor; [|auto]. intros Hin. apply Hnotin.
  apply in_map_iff in Hin as [e' [He' Hin]]. apply filter_In in Hin as [Hin _].
  rewrite <- He'. now apply in_map.
Qed.

Lemma findSharedPhrases_perm texts :
  Permutation (map phrase (_findSharedPhrases texts)) (sharedKeys texts).
Proof.
  unfold _findSharedPhrases, sharedKeys.
  rewrite sortBy_perm, map_map. cbn [phrase]. reflexivity.
Qed.

Lemma sharedKeys_spec texts :
  NoDup (sharedKeys texts)
  /\ forall p, In p (sharedKeys texts) <-> (3 <= textsWith p texts)%nat.
Proof.
  destruct (phraseCounts_spec texts) as [[Hnd Hpos] Hk]. unfold sharedKeys.
  split; [now apply filter_keys_NoDup|].
  intros p. rewrite <- Hk. unfold countFor. rewrite in_map_iff. split.
  - intros [[k n] [Hfst Hin]]. cbn [fst] in Hfst. subst k.
    apply filter_In in Hin as [Hin Hn]. cbn [snd] in Hn.
    apply (@get_In_NoDup _ Hnd) in Hin. rewrite Hin. now apply Nat.leb_le.
  - destruct (get (phraseCounts texts) p) as [n|] eqn:E; [|lia].
    intros Hn. exists (p, n). split; [reflexivity|].
    apply filter_In. split; [now apply (@get_In_NoDup _ Hnd)|].
    now apply Nat.leb_le.
Qed.

Lemma textsWith_In p texts :
  (1 <= textsWith p texts)%nat -> In p (flat_map shingles texts).
Proof.
  unfold textsWith. induction texts as [|t texts IH]; cbn [filter flat_map].
  - cbn. lia.
  - rewrite in_app_iff. destruct (Str.mem p (shingles t)) eqn:E.
    + intros _. left. now apply mem_In.
    + intros H. right. auto.
Qed.

Lemma sharedShingles_spec texts :
  NoDup (sharedShingles texts)
  /\ forall p, In p (sharedShingles texts) <-> (3 <= textsWith p texts)%nat.
Proof.
  unfold sharedShingles. split.
  - apply NoDup_filter, NoDup_nodup.
  - intros p. rewrite filter_In, nodup_In, Nat.leb_le. split; [tauto|].
    intros H. split; [|assumption]. apply textsWith_In. lia.
Qed.

Lemma findSharedPhrases_length texts :
  List.length (_findSharedPhrases texts) = sharedPhraseCount texts.
Proof.
  unfold sharedPhraseCount.
  rewrite <- (length_map phrase), (Permutation_length (findSharedPhrases_perm texts)).
  apply Permutation_length, NoDup_Permutation.
  - apply sharedKeys_spec.
  - apply sharedShingles_spec.
  - intros p. rewrite (proj2 (sharedKeys_spec texts)).
    symmetry. apply sharedShingles_spec.
Qed.

Lemma single_shared texts p :
  (forall q, (3 <= textsWith q texts)%nat <-> q = p) ->
  sharedPhraseCount texts = 1%nat.
Proof.
  intros H. unfold sharedPhraseCount.
  destruct (sharedShingles_spec texts) as [Hnd Hin].
  assert (Hp : forall q, In q (sharedShingles texts) <-> q = p)
    by (intros q; now rewrite Hin).
  destruct (sharedShingles texts) as [|a [|b l]].
  - exfalso. now apply (Hp p).
  - reflexivity.
  - exfalso. inversion Hnd as [|? ? Hnotin _]; subst.
    assert (a = p) by (apply Hp; now left).
    assert (b = p) by (apply Hp; right; now left).
    apply Hnotin. left. congruence.
Qed.

(** C7. With fewer than three texts every cross-batch signal is [null].
    With three or more, the [coordinatedLanguage] score is
    [max(0, 1 - 0.15 * sharedPhraseCount)], where [sharedPhraseCount] is the
    number of distinct 4-word shingles that are found in at least three of
    the texts; so four texts in which one shingle is found in exactly three
    and no other shingle is found in more than one score 0.85. *)
Theorem C7_coordinated_language :
  (forall texts,
     (List.length texts < 3)%nat ->
     let r := _analyzeCrossPatterns texts in
     coordinatedLanguage r = None
     /\ ratingDistribution r = None
     /\ timingCluster r = None)
  /\ (forall texts,
        (3 <= List.length texts)%nat ->
        exists c,
          coordinatedLanguage (_analyzeCrossPatterns texts) = Some c
          /\ score c = Qmax 0 (1 - ofNat (sharedPhraseCount texts) * 0.15)
          /\ Permutation (map phrase (sharedPhrases c)) (sharedShingles texts))
  /\ (forall texts p,
        In p (sharedShingles texts) <-> (3 <= textsWith p texts)%nat)
  /\ (forall texts p,
        List.length texts = 4%nat ->
        textsWith p texts = 3%nat ->
        (forall q, q <> p -> (textsWith q texts <= 1)%nat) ->
        exists c,
          coordinatedLanguage (_analyzeCrossPatterns texts) = Some c
          /\ score c == 0.85).
Proof.
  assert (Hmain : forall texts,
            (3 <= List.length texts)%nat ->
            exists c,
              coordinatedLanguage (_analyzeCrossPatterns texts) = Some c
              /\ score c = Qmax 0 (1 - ofNat (sharedPhraseCount texts) * 0.15)
              /\ Permutation (map phrase (sharedPhrases c))
                   (sharedShingles texts)).
  { intros texts H. unfold _analyzeCrossPatterns.
    destruct (Nat.ltb_spec (List.length texts) 3); [lia|].
    cbv zeta. eexists. split; [reflexivity|]. cbn [score sharedPhrases].
    split; [now rewrite findSharedPhrases_length|].
    rewrite findSharedPhrases_perm. apply NoDup_Permutation.
    - apply sharedKeys_spec.
    - apply sharedShingles_spec.
    - intros p. rewrite (proj2 (sharedKeys_spec texts)).
      symmetry. apply sharedShingles_spec. }
  split; [|split; [exact Hmain|split]].
  - intros texts H. cbv zeta. unfold _analyzeCrossPatterns.
    destruct (Nat.ltb_spec (List.length texts) 3); [|lia].
    repeat split.
  - intros texts p. apply sharedShingles_spec.
  - intros texts p Hlen Hp Hothers.
    destruct (Hmain texts) as (c & Hc & Hs & _); [lia|].
    exists c. split; [assumption|]. rewrite Hs.
    rewrite (single_shared texts (p := p)); [reflexivity|].
    intros q. split.
    + intros Hq. destruct (string_dec q p) as [|Hne]; [assumption|].
      specialize (Hothers q Hne). lia.
    + intros ->. lia.
Qed.

(** Three reviews that end in the same four words, and one that does not;
    and a batch of two. *)
Lemma C7_coordinated_language_witness :
  let texts :=
    [ "It works exactly as described";
      "Really works exactly as described";
      "Still works exactly as described";
      "Arrived late and broken sadly" ]%string in
  let p := "works exactly as described"%string in
  ((List.length (firstn 2 texts) < 3)%nat
   /\ coordinatedLanguage (_analyzeCrossPatterns (firstn 2 texts)) = None)
  /\ ((3 <= List.length texts)%nat
      /\ exists c,
           coordinatedLanguage (_analyzeCrossPatterns texts) = Some c
           /\ score c = Qmax 0 (1 - ofNat (sharedPhraseCount texts) * 0.15))
  /\ (List.length texts = 4%nat
      /\ textsWith p texts = 3%nat
      /\ exists c,
           coordinatedLanguage (_analyzeCrossPatterns texts) = Some c
           /\ score c == 0.85).
Proof.
  cbv zeta.
  destruct C7_coordinated_language as (Ha & Hb & _ & Hd).
  split; [|split].
  - split; [cbn; lia|]. apply Ha. cbn; lia.
  - split; [cbn; lia|].
    destruct (Hb [ "It works exactly as described";
                   "Really works exactly as described";
                   "Still works exactly as described";
                   "Arrived late and broken sadly" ]%string)
      as (c & Hc & Hs & _); [cbn; lia|].
    exists c. split; assumption.
  - split; [reflexivity|]. split; [reflexivity|].
    apply (Hd _ "works exactly as described"%string);
      [reflexivity|reflexivity|].
    intros q Hne. unfold textsWith. cbn [filter].
    destruct (Str.mem q (shingles "It works exactly as described")) eqn:E1;
    destruct (Str.mem q (shingles "Really works exactly as described")) eqn:E2;
    destruct (Str.mem q (shingles "Still works exactly as described")) eqn:E3;
    destruct (Str.mem q (shingles "Arrived late and broken sadly")) eqn:E4;
    cbn [List.length]; try lia; exfalso;
    repeat match goal with
           | H : Str.mem _ _ = true |- _ =>
               apply mem_In in H; vm_compute in H
           | H : Str.mem _ _ = false |- _ => clear H
           end;
    intuition congruence.
Defined.

End BatchTextAnalyzerFacts.

(** ** Reviewer profiles and the account detectors *)
Module AccountAnalyzerFacts.

Import JS JSFacts TrustScorer AccountAnalyzer AccountAnalyzerSpec.
Local Open Scope Q_scope.

(** *** What the constructor does to a falsy field *)

Lemma or_falsy {A : Type} `{Truthy A} (p dflt : prop A) :
  toBool p = false -> or p dflt = dflt.
Proof. intros E. unfold or. now rewrite E. Qed.

Lemma or_agree {A : Type} `{Truthy A} (p q dflt : prop A) :
  agree p q -> or p dflt = or q dflt.
Proof.
  intros [->|[Hp Hq]]; [reflexivity|].
  now rewrite !or_falsy.
Qed.

Lemma ReviewerProfile_agree d d' :
  agreeUpToFalsy d d' -> ReviewerProfile d = ReviewerProfile d'.
Proof.
  intros []. unfold ReviewerProfile.
  repeat match goal with
         | H : agree _ _ |- _ => rewrite (or_agree _ H); clear H
         end.
  reflexivity.
Qed.

Lemma strip_agree {A : Type} `{Truthy A} (p : prop A) : agree p (strip p).
Proof.
  unfold strip. destruct (toBool p) eqn:E; [now left|].
  right. split; [assumption|reflexivity].
Qed.

Lemma withoutFalsy_agree d : agreeUpToFalsy d (withoutFalsy d).
Proof. constructor; apply strip_agree. Qed.

(** C10. The constructor stores [null] for a falsy [helpfulVotes],
    [totalReviews], [displayName], [bio] or [location]; two data objects
    that differ only in which falsy value a field holds, or in whether the
    field is there at all, build the same profile, so every account
    detector, single or batch, answers the same on both. *)
Theorem C10_falsy_fields_read_as_absent :
  (forall d,
     (toBool (helpfulVotes d) = false ->
      helpfulVotes (ReviewerProfile d) = null)
     /\ (toBool (totalReviews d) = false ->
         totalReviews (ReviewerProfile d) = null)
     /\ (toBool (displayName d) = false ->
         displayName (ReviewerProfile d) = null)
     /\ (toBool (bio d) = false -> bio (ReviewerProfile d) = null)
     /\ (toBool (location d) = false -> location (ReviewerProfile d) = null))
  /\ (forall d, ReviewerProfile d = ReviewerProfile (withoutFalsy d))
  /\ (forall d d',
        agreeUpToFalsy d d' -> ReviewerProfile d = ReviewerProfile d')
  /\ (forall now getTime d d',
        agreeUpToFalsy d d' ->
        analyze now getTime (ReviewerProfile d)
        = analyze now getTime (ReviewerProfile d'))
  /\ (forall now getTime ds ds',
        Forall2 agreeUpToFalsy ds ds' ->
        analyzeBatch now getTime (map ReviewerProfile ds)
        = analyzeBatch now getTime (map ReviewerProfile ds')).
Proof.
  split; [|split; [|split; [|split]]].
  - intros d. repeat split; intros H; cbn; now apply or_falsy.
  - intros d. apply ReviewerProfile_agree, withoutFalsy_agree.
  - apply ReviewerProfile_agree.
  - intros now getTime d d' H. now rewrite (ReviewerProfile_agree H).
  - intros now getTime ds ds' H.
    replace (map ReviewerProfile ds') with (map ReviewerProfile ds);
      [reflexivity|].
    induction H as [|d d' ds ds' Hd _ IH]; [reflexivity|].
    cbn [map]. now rewrite (ReviewerProfile_agree Hd), IH.
Qed.

Lemma zeroData_agree : agreeUpToFalsy zeroData noData.
Proof. constructor; (now left) || (right; split; reflexivity). Qed.

(** Zeros and empty strings against no data at all. *)
Lemma C10_falsy_fields_read_as_absent_witness :
  (toBool (helpfulVotes zeroData) = false
   /\ helpfulVotes (ReviewerProfile zeroData) = null)
  /\ (toBool (totalReviews zeroData) = false
      /\ totalReviews (ReviewerProfile zeroData) = null)
  /\ (toBool (displayName zeroData) = false
      /\ displayName (ReviewerProfile zeroData) = null)
  /\ (toBool (bio zeroData) = false
      /\ bio (ReviewerProfile zeroData) = null)
  /\ (toBool (location zeroData) = false
      /\ location (ReviewerProfile zeroData) = null)
  /\ (agreeUpToFalsy zeroData noData
      /\ ReviewerProfile zeroData = ReviewerProfile noData
      /\ analyze 0 (fun _ => 0%Z) (ReviewerProfile zeroData)
         = analyze 0 (fun _ => 0%Z) (ReviewerProfile noData)
      /\ analyzeBatch 0 (fun _ => 0%Z) (map ReviewerProfile [zeroData])
         = analyzeBatch 0 (fun _ => 0%Z) (map ReviewerProfile [noData])).
Proof.
  destruct C10_falsy_fields_read_as_absent as (Ha & _ & Hc & Hd & He).
  destruct (Ha zeroData) as (H1 & H2 & H3 & H4 & H5).
  split; [split; [reflexivity|apply H1; reflexivity]|].
  split; [split; [reflexivity|apply H2; reflexivity]|].
  split; [split; [reflexivity|apply H3; reflexivity]|].
  split; [split; [reflexivity|apply H4; reflexivity]|].
  split; [split; [reflexivity|apply H5; reflexivity]|].
  split; [exact zeroData_agree|].
  split; [apply Hc, zeroData_agree|].
  split; [apply Hd, zeroData_agree|].
  apply He. constructor; [exact zeroData_agree|constructor].
Defined.

(** *** Missing fields *)

Lemma presentFields_le_6 profile : (presentFields profile <= 6)%nat.
Proof.
  unfold presentFields.
  etransitivity; [apply filter_length_le|]. cbn [List.length]. lia.
Qed.

Lemma scoreProfileCompleteness_spec profile :
  _scoreProfileCompleteness profile
  = if Nat.ltb (presentFields profile) 2
    then Some (signal 0.3 (Some "Minimal profile information"%string))
    else Some (signal (Qmax 0.5 (ofNat (presentFields profile) / ofNat 6)) None).
Proof.
  unfold _scoreProfileCompleteness. cbv zeta. fold (presentFields profile).
  cbn [List.length].
  pose proof (presentFields_le_6 profile) as H.
  destruct (presentFields profile) as [|[|[|[|[|[|[|n]]]]]]];
    try reflexivity; lia.
Qed.

(** A profile built from no data at all is marked down for it: the
    completeness detector answers 0.3 with a detail, which the aggregator
    turns into an issue.  And a profile that only knows of 25 reviews gets
    0.4 from the network detector, not [null]: the [null] stored for the
    missing [helpfulVotes] passes its [!== undefined] test and reads as no
    votes at all. *)
Lemma C3_missing_fields_counterexample :
  let profile := ReviewerProfile noData in
  (_scoreProfileCompleteness profile
   = Some (signal 0.3 (Some "Minimal profile information"%string))
   /\ TrustScorerSpec.issueOf "account"
        ("profileCompleteness"%string,
         TextAnalyzer.slot (_scoreProfileCompleteness profile))
      = [ Issue.make "account" "profileCompleteness" 0.3
            (Some "Minimal profile information"%string) medium ])
  /\ (helpfulVotes onlyTotalReviews = undefined
      /\ helpfulVotes (ReviewerProfile onlyTotalReviews) = null
      /\ _scoreNetworkSignals (ReviewerProfile onlyTotalReviews)
         = Some (signal 0.4
                   (Some "Very low helpful vote ratio despite many reviews"%string))).
Proof. repeat split. Qed.

Lemma toBool_or_null {A : Type} `{Truthy A} (p : prop A) :
  toBool (or p null) = toBool p.
Proof. unfold or. destruct (toBool p) eqn:E; [assumption|reflexivity]. Qed.

Lemma toNumber_or_null (p : prop Q) :
  toBool p = true -> toNumber (or p null) = toNumber p.
Proof. intros E. unfold or. now rewrite E. Qed.

(** C3, as the code has it.  For a profile built by the constructor: the
    age, posting-frequency and diversity detectors answer [null] when the
    fields they read are missing; the network detector answers [null] when
    [totalReviews] is missing, and when [helpfulVotes] is missing and
    [totalReviews] is at most 20; the completeness detector counts a missing
    field as not filled in, never scores below 0.3, and scores 0.3 when
    fewer than two of its six fields are filled in. *)
Theorem C3_missing_fields_unknown
  (now : Z) (getTime : string -> Z) (d : fields) :
  let profile := ReviewerProfile d in
  (toBool (accountCreated d) = false ->
   toBool (firstReviewDate d) = false ->
   _scoreAccountAge now getTime profile = None)
  /\ (toBool (reviewDates d) = false ->
      _scorePostingFrequency getTime profile = None)
  /\ (toBool (ratings d) = false -> _scoreReviewDiversity profile = None)
  /\ (toBool (totalReviews d) = false -> _scoreNetworkSignals profile = None)
  /\ (toBool (helpfulVotes d) = false ->
      toNumber (totalReviews d) <= 20 ->
      _scoreNetworkSignals profile = None)
  /\ (exists q detail,
        _scoreProfileCompleteness profile = Some (signal q detail)
        /\ 0.3 <= q
        /\ ((presentFields profile < 2)%nat -> q = 0.3))
  /\ presentFields profile = presentFields d.
Proof.
  cbv zeta. split; [|split; [|split; [|split; [|split; [|split]]]]].
  - intros H1 H2. unfold _scoreAccountAge, ReviewerProfile.
    cbn [accountCreated firstReviewDate].
    now rewrite !toBool_or_null, H1, H2.
  - intros H. unfold _scorePostingFrequency, ReviewerProfile.
    cbn [reviewDates]. now rewrite (or_falsy _ _ H).
  - intros H. unfold _scoreReviewDiversity, ReviewerProfile.
    cbn [ratings]. now rewrite (or_falsy _ _ H).
  - intros H. unfold _scoreNetworkSignals, ReviewerProfile.
    cbn [totalReviews helpfulVotes].
    rewrite (toBool_or_null (totalReviews d)), H.
    now rewrite Bool.andb_false_r.
  - intros H Hle. unfold _scoreNetworkSignals, ReviewerProfile.
    cbn [totalReviews helpfulVotes].
    rewrite (or_falsy _ _ H). cbn [toNumber andb].
    rewrite (toBool_or_null (totalReviews d)).
    destruct (toBool (totalReviews d)) eqn:E; [|reflexivity].
    rewrite (toNumber_or_null _ E).
    replace (gtb (toNumber (totalReviews d)) 20) with false
      by (symmetry; now apply gtb_le).
    rewrite Bool.andb_false_r.
    replace (gtb (0 / toNumber (totalReviews d)) 1) with false;
      [reflexivity|].
    symmetry. apply gtb_le. unfold Qdiv. rewrite Qmult_0_l. discriminate.
  - rewrite scoreProfileCompleteness_spec.
    destruct (Nat.ltb_spec (presentFields (ReviewerProfile d)) 2).
    + do 2 eexists. split; [reflexivity|]. split; [apply Qle_refl|reflexivity].
    + do 2 eexists. split; [reflexivity|]. split; [|lia].
      eapply Qle_trans; [|apply Q.le_max_l]. discriminate.
  - unfold presentFields, ReviewerProfile.
    cbn [displayName avatarUrl bio location helpfulVotes totalReviews].
    now rewrite !toBool_or_null.
Qed.

(** No data at all. *)
Lemma C3_missing_fields_unknown_witness :
  let profile := ReviewerProfile noData in
  (toBool (accountCreated noData) = false
   /\ toBool (firstReviewDate noData) = false
   /\ _scoreAccountAge 0 (fun _ => 0%Z) profile = None)
  /\ (toBool (reviewDates noData) = false
      /\ _scorePostingFrequency (fun _ => 0%Z) profile = None)
  /\ (toBool (ratings noData) = false
      /\ _scoreReviewDiversity profile = None)
  /\ (toBool (totalReviews noData) = false
      /\ _scoreNetworkSignals profile = None)
  /\ (toBool (helpfulVotes noData) = false
      /\ toNumber (totalReviews noData) <= 20
      /\ _scoreNetworkSignals profile = None)
  /\ ((presentFields profile < 2)%nat
      /\ exists q detail,
           _scoreProfileCompleteness profile = Some (signal q detail)
           /\ 0.3 <= q /\ q = 0.3).
Proof.
  cbv zeta.
  destruct (C3_missing_fields_unknown 0 (fun _ => 0%Z) noData)
    as (H1 & H2 & H3 & H4 & H5 & (q & detail & H6 & H7 & H8) & _).
  split; [split; [reflexivity|split; [reflexivity|apply H1; reflexivity]]|].
  split; [split; [reflexivity|apply H2; reflexivity]|].
  split; [split; [reflexivity|apply H3; reflexivity]|].
  split; [split; [reflexivity|apply H4; reflexivity]|].
  split; [split; [reflexivity|split; [discriminate|]]|].
  - apply H5; [reflexivity|discriminate].
  - split; [cbn; lia|]. exists q, detail.
    split; [exact H6|]. split; [exact H7|]. apply H8. cbn; lia.
Defined.

(** *** The detectors at work *)

(** An account three days old scores 0.1, one 200 days old 0.9. *)
Example account_age :
  _scoreAccountAge (3 * dayMs + 3600000) hours
    (ReviewerProfile (createdAt "x"))
  = Some (signal 0.1 (Some "Account created within the last week"%string))
  /\ _scoreAccountAge (200 * dayMs + 3600000) hours
       (ReviewerProfile (createdAt "x"))
     = Some (signal 0.9 None).
Proof. split; reflexivity. Qed.

(** Three of five reviews within three hours. *)
Example timing_cluster :
  _detectTimingClusters hours
    (map (fun d => ReviewerProfile (reviewedAt d))
       [ "a"; "....................................................";
         "ab"; "abc";
         "........................................................................................................." ]%string)
  = Some (signal 0.15
            (Some "3 of 5 reviews posted within 24 hours of each other"%string)).
Proof. vm_compute. reflexivity. Qed.

End AccountAnalyzerFacts.

(** ** More on the aggregator *)
Module AggregatorFacts.

Import JS JSFacts TrustScorer TrustScorerSpec TrustScorerFacts AggregatorTerms.
Local Open Scope Q_scope.

(** *** Levels *)

Lemma geb_false a b : geb a b = false <-> a < b.
Proof.
  split; intros H.
  - apply Qnot_le_lt. intros Hle. apply geb_le in Hle. congruence.
  - destruct (geb a b) eqn:E; [|reflexivity].
    apply geb_le in E. exfalso. apply (Qlt_not_le _ _ H E).
Qed.

(** X1. The level is read off fixed bands of the score, 0.75 and up being
    [HIGH_TRUST], 0.5 and up [MODERATE_TRUST], 0.3 and up [LOW_TRUST] and
    everything below [VERY_LOW_TRUST]; so a higher score never gets a worse
    level. *)
Theorem getTrustLevel_monotone (q q' : Q) :
  q <= q' ->
  (rank (_getTrustLevel q) <= rank (_getTrustLevel q'))%nat
  /\ (_getTrustLevel q = HIGH_TRUST <-> 0.75 <= q)
  /\ (_getTrustLevel q = MODERATE_TRUST <-> 0.5 <= q /\ q < 0.75)
  /\ (_getTrustLevel q = LOW_TRUST <-> 0.3 <= q /\ q < 0.5)
  /\ (_getTrustLevel q = VERY_LOW_TRUST <-> q < 0.3).
Proof.
  intros Hle.
  assert (bands : forall x,
    (_getTrustLevel x = HIGH_TRUST /\ 0.75 <= x)
    \/ (_getTrustLevel x = MODERATE_TRUST /\ 0.5 <= x /\ x < 0.75)
    \/ (_getTrustLevel x = LOW_TRUST /\ 0.3 <= x /\ x < 0.5)
    \/ (_getTrustLevel x = VERY_LOW_TRUST /\ x < 0.3)).
  { intros x. unfold _getTrustLevel, thresholds.HIGH_TRUST,
      thresholds.MODERATE_TRUST, thresholds.LOW_TRUST.
    destruct (geb x 0.75) eqn:E1; [apply geb_le in E1; auto|].
    destruct (geb x 0.50) eqn:E2;
      [apply geb_le in E2; apply geb_false in E1; right; left;
       repeat split; auto; lra|].
    destruct (geb x 0.30) eqn:E3;
      [apply geb_le in E3; apply geb_false in E2; right; right; left;
       repeat split; auto; lra|].
    apply geb_false in E3. right; right; right. split; auto; lra. }
  split.
  - destruct (bands q) as [[-> H]|[[-> H]|[[-> H]|[-> H]]]];
      destruct (bands q') as [[-> H']|[[-> H']|[[-> H']|[-> H']]]];
      cbn [rank]; try lia; exfalso; lra.
  - destruct (bands q) as [[E H]|[[E H]|[[E H]|[E H]]]]; rewrite E;
      repeat split; intros; try discriminate; try lra; try tauto.
Qed.

Lemma getTrustLevel_monotone_witness :
  0.29 <= 0.31
  /\ (rank (_getTrustLevel 0.29) <= rank (_getTrustLevel 0.31))%nat
  /\ _getTrustLevel 0.29 = VERY_LOW_TRUST
  /\ _getTrustLevel 0.31 = LOW_TRUST.
Proof.
  split; [discriminate|].
  split; [apply (@getTrustLevel_monotone 0.29 0.31); discriminate|].
  split; reflexivity.
Defined.

(** *** Scores stay in the unit interval *)

Lemma categoryWeights_positive : positiveTable categoryWeights.
Proof. repeat constructor. Qed.

Lemma category_sums_bounds w g :
  positiveTable w -> groupInUnit g ->
  forall S W, 0 <= S <= W ->
  0 <= fold_left (addScore w) g S <= fold_left (addWeight w) g W.
Proof.
  intros P. induction 1 as [|e g He _ IH]; intros S W HS; cbn [fold_left].
  - assumption.
  - apply IH. unfold addScore, addWeight.
    destruct (normalizedValue (snd e)) as [v|]; [|assumption].
    pose proof (He v eq_refl) as Hv.
    pose proof (weightOr0_nonneg (fst e) P) as Hw.
    set (x := weightOr0 w (fst e)) in *. nra.
Qed.

Lemma ratio_in_unit S W : 0 <= S <= W -> 0 < W -> 0 <= S / W <= 1.
Proof.
  intros [H0 H1] HW. split.
  - apply Qle_shift_div_l; [assumption|]. lra.
  - apply Qle_shift_div_r; [assumption|]. lra.
Qed.

Lemma scoreCatgory_in_unit category w g :
  positiveTable w -> groupInUnit g ->
  0 <= CategoryResult.score (_scoreCatgory category g w) <= 1.
Proof.
  intros P Hg. rewrite scoreCatgory_score. cbv zeta.
  destruct (gtb _ 0) eqn:E.
  - apply gtb_gt in E. apply ratio_in_unit; [|assumption].
    apply (category_sums_bounds P Hg). lra.
  - lra.
Qed.

Lemma set_Forall {A : Type} (P : string * A -> Prop) o k v :
  (forall k', P (k', v)) -> Forall P o -> Forall P (set o k v).
Proof.
  intros Pv. induction 1 as [|[k' v'] o Hhd Htl IH]; cbn [set].
  - constructor; [apply Pv|constructor].
  - destruct (String.eqb k' k); constructor; auto.
Qed.

Lemma details_in_unit b : bundleInUnit b -> forall st,
  Forall (fun e => 0 <= CategoryResult.score (snd e) <= 1) (categoryScores st) ->
  Forall (fun e => 0 <= CategoryResult.score (snd e) <= 1)
    (categoryScores (fold_left scoreStep b st)).
Proof.
  induction 1 as [|[c g] b Hg _ IH]; intros st Hst; cbn [fold_left];
    [assumption|].
  apply IH. unfold scoreStep. cbn [snd] in Hg.
  destruct (get weights c) as [w|] eqn:E; [|assumption].
  destruct (Nat.ltb 0 _); [|assumption]. cbn [categoryScores].
  apply set_Forall; [|assumption]. intros k'. cbn [snd].
  apply scoreCatgory_in_unit; [|assumption].
  now apply (weights_get_positive c).
Qed.

Lemma final_sums_bounds cs :
  Forall (fun e => 0 <= CategoryResult.score (snd e) <= 1) cs ->
  forall acc, 0 <= fst acc <= snd acc ->
  0 <= fst (fold_left finalStep cs acc) <= snd (fold_left finalStep cs acc).
Proof.
  induction 1 as [|[c r] cs Hr _ IH]; intros acc Hacc; cbn [fold_left];
    [assumption|].
  apply IH. unfold finalStep. cbn [fst snd] in *.
  pose proof (weightOr0_nonneg c categoryWeights_positive) as Hw.
  set (x := weightOr0 categoryWeights c) in *.
  set (s := CategoryResult.score r) in *. nra.
Qed.

Lemma finalScoreOf_in_unit cs :
  Forall (fun e => 0 <= CategoryResult.score (snd e) <= 1) cs ->
  0 <= finalScoreOf cs <= 1.
Proof.
  intros H. unfold finalScoreOf.
  pose proof (final_sums_bounds H (0, 0)) as Hb. cbn [fst snd] in Hb.
  destruct (fold_left finalStep cs (0, 0)) as [F W]. cbn [fst snd] in Hb.
  destruct (gtb W 0) eqn:E.
  - apply gtb_gt in E. apply ratio_in_unit; [|assumption]. apply Hb. lra.
  - lra.
Qed.

Lemma coverage_in_unit n : 0 <= Qmin 1 (ofNat n / 10) <= 1.
Proof.
  split; [|apply Q.le_min_l].
  apply Q.min_glb; [discriminate|].
  apply Qle_shift_div_l; [reflexivity|].
  pose proof (ofNat_nonneg n). lra.
Qed.

(** X2. When every score of the bundle lies between 0 and 1 and the
    confidence decay does too, so do the score of every category kept in
    [details], the overall score, and the confidence, which never exceeds
    the decay. *)
Theorem computeScore_in_unit_interval (cfg : config) (b : signalBundle) :
  bundleInUnit b ->
  0 <= confidenceDecay cfg <= 1 ->
  let r := computeScore cfg b in
  match TrustResult.score r with
  | Some q => 0 <= q <= 1
  | None => True
  end
  /\ Forall (fun e => 0 <= CategoryResult.score (snd e) <= 1)
       (TrustResult.details r)
  /\ 0 <= TrustResult.confidence r <= confidenceDecay cfg.
Proof.
  intros Hb Hd. cbv zeta.
  assert (Hdet : Forall (fun e => 0 <= CategoryResult.score (snd e) <= 1)
                   (categoryScores (fold_left scoreStep b scoreInit)))
    by (apply details_in_unit; [assumption|constructor]).
  unfold computeScore.
  destruct (ltb _ _);
    cbn [TrustResult.score TrustResult.details TrustResult.confidence].
  - repeat split; auto; lra.
  - split; [now apply finalScoreOf_in_unit|]. split; [assumption|].
    unfold confidenceOf.
    pose proof (coverage_in_unit (totalSignals (fold_left scoreStep b scoreInit)))
      as Hc.
    set (x := Qmin 1 _) in *. set (d := confidenceDecay cfg) in *. nra.
Qed.

Lemma computeScore_in_unit_interval_witness :
  let b :=
    [ ("text"%string,
       [ ("aiDetection"%string, SigNum 1); ("templateMatching"%string, SigNum 0);
         ("repetitionPattern"%string, SigNum 0.5) ]);
      ("account"%string,
       [ ("profileCompleteness"%string,
          SigObj (SignalOutput.make (Some 0.3) None)) ]) ] in
  let r := computeScore defaultConfig b in
  bundleInUnit b
  /\ 0 <= confidenceDecay defaultConfig <= 1
  /\ match TrustResult.score r with
     | Some q => 0 <= q <= 1
     | None => True
     end
  /\ 0 <= TrustResult.confidence r <= confidenceDecay defaultConfig.
Proof.
  cbv zeta.
  assert (Hb : bundleInUnit
            [ ("text"%string,
               [ ("aiDetection"%string, SigNum 1);
                 ("templateMatching"%string, SigNum 0);
                 ("repetitionPattern"%string, SigNum 0.5) ]);
              ("account"%string,
               [ ("profileCompleteness"%string,
                  SigObj (SignalOutput.make (Some 0.3) None)) ]) ]).
  { unfold bundleInUnit, groupInUnit.
    repeat first [apply Forall_nil | apply Forall_cons | progress cbn [snd]];
      cbn [normalizedValue SignalOutput.score];
      intros v [= <-]; split; discriminate. }
  assert (Hd : 0 <= confidenceDecay defaultConfig <= 1)
    by (split; discriminate).
  destruct (computeScore_in_unit_interval defaultConfig Hb Hd) as (H1 & _ & H3).
  split; [exact Hb|]. split; [exact Hd|]. split; [exact H1|exact H3].
Defined.

(** *** Where issues come from *)

Lemma issueOf_In category e i :
  In i (issueOf category e) <->
  exists v, normalizedValue (snd e) = Some v
            /\ v < 0.4
            /\ i = Issue.make category (fst e) v (detailOf (snd e))
                     (if ltb v 0.2 then high else medium).
Proof.
  unfold issueOf. destruct (normalizedValue (snd e)) as [v|].
  - destruct (ltb v 0.4) eqn:E.
    + apply ltb_lt in E. cbn [In]. split.
      * intros [<-|[]]. now exists v.
      * intros (v' & [= <-] & _ & ->). now left.
    + apply ltb_ge in E. cbn [In]. split; [tauto|].
      intros (v' & [= <-] & Hlt & _). lra.
  - cbn [In]. split; [tauto|]. intros (v & H & _). discriminate.
Qed.

Lemma issueOf_length category e :
  (List.length (issueOf category e) <= if contributes (snd e) then 1 else 0)%nat.
Proof.
  unfold issueOf, contributes. destruct (normalizedValue (snd e)) as [v|].
  - destruct (ltb v 0.4); cbn; lia.
  - cbn. lia.
Qed.

Lemma group_issues_length category g :
  (List.length (flat_map (issueOf category) g) <= countOf g)%nat.
Proof.
  unfold countOf. induction g as [|e g IH]; cbn [flat_map filter]; [cbn; lia|].
  rewrite length_app. pose proof (issueOf_length category e).
  destruct (contributes (snd e)); cbn [List.length]; lia.
Qed.

Lemma entry_issues_length e :
  (List.length (entryIssues e) <= entryCount e)%nat.
Proof.
  unfold entryIssues, entryCount. destruct (get weights (fst e)).
  - apply group_issues_length.
  - cbn [List.length]. lia.
Qed.

Lemma bundle_issues_length b :
  (List.length (flat_map entryIssues b) <= signalsOf b)%nat.
Proof.
  induction b as [|e b IH]; [cbn; lia|].
  change (flat_map entryIssues (e :: b))
    with (entryIssues e ++ flat_map entryIssues b)%list.
  change (signalsOf (e :: b)) with (entryCount e + signalsOf b)%nat.
  rewrite length_app. pose proof (entry_issues_length e). lia.
Qed.

Lemma entryIssues_In b i :
  In i (flat_map entryIssues b) <->
  exists g sv,
    In (Issue.category i, g) b
    /\ get weights (Issue.category i) <> None
    /\ In (Issue.signal i, sv) g
    /\ normalizedValue sv = Some (Issue.score i)
    /\ Issue.score i < 0.4
    /\ Issue.detail i = detailOf sv
    /\ Issue.severity i = (if ltb (Issue.score i) 0.2 then high else medium).
Proof.
  rewrite in_flat_map. split.
  - intros ([c g] & Hin & Hi). unfold entryIssues in Hi. cbn [fst snd] in Hi.
    destruct (get weights c) eqn:E; [|contradiction].
    apply in_flat_map in Hi as ([n sv] & Hs & Hi).
    apply issueOf_In in Hi as (v & Hv & Hlt & ->). cbn [fst snd] in *.
    exists g, sv.
    cbn [Issue.category Issue.signal Issue.score Issue.detail Issue.severity].
    rewrite E. repeat split; auto. discriminate.
  - intros (g & sv & Hin & Hk & Hs & Hv & Hlt & Hd & Hsev).
    exists (Issue.category i, g). split; [assumption|].
    unfold entryIssues. cbn [fst snd].
    destruct (get weights (Issue.category i)); [|congruence].
    apply in_flat_map. exists (Issue.signal i, sv). split; [assumption|].
    apply issueOf_In. exists (Issue.score i). cbn [fst snd].
    repeat split; auto. destruct i; cbn in *. congruence.
Qed.

(** X3. In a bundle none of whose categories bears a name inherited from
    [Object.prototype], every issue of a result comes from a slot of the
    bundle: a signal of a category of the weight table that holds a score
    below 0.4; the issue carries that score and the slot's detail, and is
    [high] exactly when the score is below 0.2.  Unless the result is
    [INSUFFICIENT_DATA], every such slot has its issue; and there are never
    more issues than counted signals. *)
Theorem computeScore_issues_characterised (cfg : config) (b : signalBundle) :
  Forall (fun e => ~ In (fst e) inherited) b ->
  let r := computeScore cfg b in
  (forall i, In i (TrustResult.issues r) ->
     exists g sv,
       In (Issue.category i, g) b
       /\ get weights (Issue.category i) <> None
       /\ In (Issue.signal i, sv) g
       /\ normalizedValue sv = Some (Issue.score i)
       /\ Issue.score i < 0.4
       /\ Issue.detail i = detailOf sv
       /\ (Issue.severity i = high <-> Issue.score i < 0.2))
  /\ (TrustResult.level r <> INSUFFICIENT_DATA ->
      forall c g n sv v,
        In (c, g) b -> get weights c <> None -> In (n, sv) g ->
        normalizedValue sv = Some v -> v < 0.4 ->
        In (Issue.make c n v (detailOf sv)
              (if ltb v 0.2 then high else medium))
           (TrustResult.issues r))
  /\ (List.length (TrustResult.issues r) <= TrustResult.signalCount r)%nat.
Proof.
  intros _. cbv zeta. rewrite computeScore_issues, computeScore_signalCount.
  split; [|split].
  - destruct (ltb _ _); [intros i []|].
    intros i Hi. apply entryIssues_In in Hi
      as (g & sv & H1 & H2 & H3 & H4 & H5 & H6 & H7).
    exists g, sv. repeat split; auto.
    + intros Hh. rewrite Hh in H7.
      destruct (ltb (Issue.score i) 0.2) eqn:E; [now apply ltb_lt|discriminate].
    + intros Hlt. apply ltb_lt in Hlt. now rewrite H7, Hlt.
  - intros Hlv c g n sv v H1 H2 H3 H4 H5.
    destruct (ltb (ofNat (signalsOf b)) (minSignalsRequired cfg)) eqn:E.
    + exfalso. apply Hlv. unfold computeScore.
      rewrite scoreFold_totalSignals, Nat.add_0_l, E. reflexivity.
    + apply entryIssues_In. exists g, sv.
      cbn [Issue.category Issue.signal Issue.score Issue.detail Issue.severity].
      repeat split; auto.
  - destruct (ltb _ _); [cbn; lia|apply bundle_issues_length].
Qed.

Lemma computeScore_issues_characterised_witness :
  let b :=
    [ ("text"%string,
       [ ("aiDetection"%string,
          SigObj (SignalOutput.make (Some 0.1) (Some "two phrases"%string)));
         ("templateMatching"%string, SigNum 0.9);
         ("repetitionPattern"%string, SigNum 0.5) ]) ] in
  let r := computeScore defaultConfig b in
  Forall (fun e => ~ In (fst e) inherited) b
  /\ TrustResult.level r <> INSUFFICIENT_DATA
  /\ In (Issue.make "text" "aiDetection" 0.1 (Some "two phrases"%string) high)
        (TrustResult.issues r)
  /\ (List.length (TrustResult.issues r) <= TrustResult.signalCount r)%nat.
Proof.
  cbv zeta.
  assert (Hn : Forall (fun e : string * signalGroup => ~ In (fst e) inherited)
    [ ("text"%string,
       [ ("aiDetection"%string,
          SigObj (SignalOutput.make (Some 0.1) (Some "two phrases"%string)));
         ("templateMatching"%string, SigNum 0.9);
         ("repetitionPattern"%string, SigNum 0.5) ]) ]).
  { repeat constructor. intros H. cbn [inherited In] in H. intuition discriminate. }
  split; [exact Hn|].
  destruct (@computeScore_issues_characterised defaultConfig
    [ ("text"%string,
       [ ("aiDetection"%string,
          SigObj (SignalOutput.make (Some 0.1) (Some "two phrases"%string)));
         ("templateMatching"%string, SigNum 0.9);
         ("repetitionPattern"%string, SigNum 0.5) ]) ] Hn) as (_ & H2 & H3).
  split; [vm_compute; discriminate|]. split; [|exact H3].
  apply (H2 ltac:(vm_compute; discriminate) "text"%string
           [ ("aiDetection"%string,
              SigObj (SignalOutput.make (Some 0.1) (Some "two phrases"%string)));
             ("templateMatching"%string, SigNum 0.9);
             ("repetitionPattern"%string, SigNum 0.5) ]
           "aiDetection"%string
           (SigObj (SignalOutput.make (Some 0.1) (Some "two phrases"%string)))
           0.1).
  - left. reflexivity.
  - discriminate.
  - left. reflexivity.
  - reflexivity.
  - reflexivity.
Defined.

(** *** Entries and slots that do not count *)

Lemma catStep_silent category w st name sv :
  contributes sv = false -> catStep category w st (name, sv) = st.
Proof.
  unfold contributes, catStep. destruct sv as [|q|[[v|] d]]; cbn; congruence.
Qed.

Lemma scoreStep_unknown st c g :
  get weights c = None -> scoreStep st (c, g) = st.
Proof. intros H. unfold scoreStep. now rewrite H. Qed.

Lemma scoreStep_silentEntry st e : silentEntry e -> scoreStep st e = st.
Proof.
  destruct e as [c g]. intros [H|H]; cbn [fst snd] in H.
  - now apply scoreStep_unknown.
  - now apply scoreStep_silent.
Qed.

Lemma scoreFold_silent b : Forall silentEntry b -> forall st,
  fold_left scoreStep b st = st.
Proof.
  induction 1 as [|e b He _ IH]; intros st; cbn [fold_left]; [reflexivity|].
  now rewrite (scoreStep_silentEntry st He).
Qed.

Lemma scoreCatgory_null_slot c gpre name sv gpost w :
  normalizedValue sv = None ->
  _scoreCatgory c (gpre ++ (name, sv) :: gpost) w
  = _scoreCatgory c (gpre ++ gpost) w.
Proof.
  intros H. unfold _scoreCatgory. rewrite !fold_left_app. cbn [fold_left].
  rewrite catStep_silent; [reflexivity|].
  unfold contributes. now rewrite H.
Qed.

Lemma scoreStep_null_slot st c gpre name sv gpost :
  normalizedValue sv = None ->
  scoreStep st (c, gpre ++ (name, sv) :: gpost)
  = scoreStep st (c, gpre ++ gpost).
Proof.
  intros H. unfold scoreStep. cbn [fst snd].
  destruct (get weights c) as [w|]; [|reflexivity].
  now rewrite scoreCatgory_null_slot by assumption.
Qed.

(** X4. A category whose name is neither in the weight table nor
    inherited from [Object.prototype], and a slot that holds [null],
    [undefined] or an object with a [null] score, leave no trace: the
    result is the one of the bundle without them. *)
Theorem computeScore_ignores_unknown_and_null :
  (forall cfg bpre c g bpost,
     get weights c = None ->
     ~ In c inherited ->
     computeScore cfg (bpre ++ (c, g) :: bpost)
     = computeScore cfg (bpre ++ bpost))
  /\ (forall cfg bpre c gpre name sv gpost bpost,
        normalizedValue sv = None ->
        computeScore cfg (bpre ++ (c, gpre ++ (name, sv) :: gpost) :: bpost)
        = computeScore cfg (bpre ++ (c, gpre ++ gpost) :: bpost)).
Proof.
  split.
  - intros cfg bpre c g bpost H _. unfold computeScore.
    rewrite !fold_left_app. cbn [fold_left].
    now rewrite scoreStep_unknown by assumption.
  - intros cfg bpre c gpre name sv gpost bpost H. unfold computeScore.
    rewrite !fold_left_app. cbn [fold_left].
    now rewrite scoreStep_null_slot by assumption.
Qed.

Lemma computeScore_ignores_unknown_and_null_witness :
  let text := [ ("aiDetection"%string, SigNum 0.9);
                ("templateMatching"%string, SigNum 0.2);
                ("repetitionPattern"%string, SigNum 0.6) ] in
  (get weights "sentiment" = None
   /\ ~ In "sentiment"%string inherited
   /\ computeScore defaultConfig
        ([("text"%string, text)]
           ++ ("sentiment"%string, [("mood"%string, SigNum 0)]) :: [])
      = computeScore defaultConfig ([("text"%string, text)] ++ []))
  /\ (normalizedValue (SigObj (SignalOutput.make None None)) = None
      /\ computeScore defaultConfig
           ([] ++ ("text"%string,
                   text ++ ("sentimentConsistency"%string,
                            SigObj (SignalOutput.make None None)) :: []) :: [])
         = computeScore defaultConfig
             ([] ++ ("text"%string, text ++ []) :: [])).
Proof.
  cbv zeta. destruct computeScore_ignores_unknown_and_null as [Ha Hb].
  split; (split; [reflexivity|]).
  - assert (Hn : ~ In "sentiment"%string inherited)
      by (intros H; cbn [inherited In] in H; intuition discriminate).
    split; [exact Hn|]. now apply Ha.
  - apply Hb. reflexivity.
Defined.

(** *** The shape of a result *)

Lemma computeScore_enough cfg b :
  ltb (ofNat (signalsOf b)) (minSignalsRequired cfg) = false ->
  computeScore cfg b
  = let cs := categoryScores (fold_left scoreStep b scoreInit) in
    let lv := _getTrustLevel (finalScoreOf cs) in
    TrustResult.make (Some (finalScoreOf cs)) lv
      (confidenceOf cfg (signalsOf b))
      (_generateMessage lv (flat_map entryIssues b)
         (confidenceOf cfg (signalsOf b)))
      cs (flat_map entryIssues b) (signalsOf b).
Proof.
  intros H. unfold computeScore.
  rewrite scoreFold_totalSignals, scoreFold_flaggedIssues.
  cbn [totalSignals flaggedIssues scoreInit app Nat.add]. now rewrite H.
Qed.

Lemma computeScore_short cfg b :
  ltb (ofNat (signalsOf b)) (minSignalsRequired cfg) = true ->
  computeScore cfg b
  = TrustResult.make None INSUFFICIENT_DATA 0
      "Not enough data to assess authenticity"
      (categoryScores (fold_left scoreStep b scoreInit)) [] (signalsOf b).
Proof.
  intros H. unfold computeScore.
  rewrite scoreFold_totalSignals.
  cbn [totalSignals scoreInit Nat.add]. now rewrite H.
Qed.

(** *** Confidence and the wording of the message *)

Lemma coverage_mono n m :
  (n <= m)%nat -> Qmin 1 (ofNat n / 10) <= Qmin 1 (ofNat m / 10).
Proof.
  intros H. apply ofNat_le in H.
  apply Q.min_glb; [apply Q.le_min_l|].
  apply Qle_trans with (ofNat n / 10); [apply Q.le_min_r|].
  unfold Qdiv. apply Qmult_le_compat_r; [assumption|discriminate].
Qed.

Lemma coverage_full n : (10 <= n)%nat -> Qmin 1 (ofNat n / 10) == 1.
Proof.
  intros H. apply (ofNat_le 10 n) in H. apply Q.min_l.
  apply Qle_shift_div_l; [reflexivity|].
  change (ofNat 10) with 10 in H. lra.
Qed.

Lemma coverage_partial n :
  (n <= 10)%nat -> Qmin 1 (ofNat n / 10) == ofNat n / 10.
Proof.
  intros H. apply (ofNat_le n 10) in H. apply Q.min_r.
  apply Qle_shift_div_r; [reflexivity|].
  change (ofNat 10) with 10 in H. lra.
Qed.

Lemma level_sufficient cfg b :
  TrustResult.level (computeScore cfg b) <> INSUFFICIENT_DATA ->
  ltb (ofNat (signalsOf b)) (minSignalsRequired cfg) = false.
Proof.
  intros H. destruct (ltb _ _) eqn:E; [|reflexivity].
  exfalso. apply H. now rewrite (computeScore_short cfg b E).
Qed.

(** X6. For a result that is not [INSUFFICIENT_DATA], the confidence is
    the share of ten signals that were counted, capped at one, times the
    decay: with a non-negative decay it never drops when more signals are
    counted, and from ten signals on it equals the decay. *)
Theorem confidence_grows_with_signals (cfg : config) (b b' : signalBundle) :
  let r := computeScore cfg b in
  let r' := computeScore cfg b' in
  0 <= confidenceDecay cfg ->
  TrustResult.level r <> INSUFFICIENT_DATA ->
  (TrustResult.signalCount r <= TrustResult.signalCount r')%nat ->
  TrustResult.confidence r <= TrustResult.confidence r'
  /\ ((TrustResult.signalCount r <= 10)%nat ->
      TrustResult.confidence r
      == ofNat (TrustResult.signalCount r) / 10 * confidenceDecay cfg)
  /\ ((10 <= TrustResult.signalCount r)%nat ->
      TrustResult.confidence r == confidenceDecay cfg).
Proof.
  cbv zeta. intros Hd Hlv Hle.
  rewrite !computeScore_signalCount in *.
  pose proof (level_sufficient cfg b Hlv) as E.
  assert (E' : ltb (ofNat (signalsOf b')) (minSignalsRequired cfg) = false).
  { apply ltb_ge. apply ltb_ge in E. apply ofNat_le in Hle. lra. }
  rewrite (computeScore_enough cfg b E), (computeScore_enough cfg b' E').
  cbv zeta. cbn [TrustResult.confidence]. unfold confidenceOf.
  split; [|split].
  - apply Qmult_le_compat_r; [now apply coverage_mono|assumption].
  - intros H. now rewrite (coverage_partial H).
  - intros H. rewrite (coverage_full H). lra.
Qed.

Lemma confidence_grows_with_signals_witness :
  let b := [ ("text"%string,
              [ ("aiDetection"%string, SigNum 0.9);
                ("templateMatching"%string, SigNum 0.7);
                ("repetitionPattern"%string, SigNum 0.8) ]) ] in
  let b' := [ ("text"%string,
               [ ("aiDetection"%string, SigNum 0.9);
                 ("templateMatching"%string, SigNum 0.7);
                 ("repetitionPattern"%string, SigNum 0.8);
                 ("sentimentConsistency"%string, SigNum 0.2) ]) ] in
  let r := computeScore defaultConfig b in
  let r' := computeScore defaultConfig b' in
  0 <= confidenceDecay defaultConfig
  /\ TrustResult.level r <> INSUFFICIENT_DATA
  /\ (TrustResult.signalCount r <= TrustResult.signalCount r')%nat
  /\ TrustResult.confidence r <= TrustResult.confidence r'.
Proof.
  cbv zeta.
  split; [discriminate|]. split; [vm_compute; discriminate|].
  split; [vm_compute; lia|].
  apply (confidence_grows_with_signals defaultConfig
           [ ("text"%string,
              [ ("aiDetection"%string, SigNum 0.9);
                ("templateMatching"%string, SigNum 0.7);
                ("repetitionPattern"%string, SigNum 0.8) ]) ]
           [ ("text"%string,
              [ ("aiDetection"%string, SigNum 0.9);
                ("templateMatching"%string, SigNum 0.7);
                ("repetitionPattern"%string, SigNum 0.8);
                ("sentimentConsistency"%string, SigNum 0.2) ]) ]).
  - discriminate.
  - vm_compute; discriminate.
  - vm_compute; lia.
Defined.

Lemma generateMessage_prefix lv issues confidence :
  String.prefix "Limited data suggests: "
    (_generateMessage lv issues confidence)
  = ltb confidence 0.5.
Proof.
  unfold _generateMessage. cbv zeta.
  destruct (ltb confidence 0.5); destruct lv; reflexivity.
Qed.

(** X7. The message of a result that is not [INSUFFICIENT_DATA] opens with
    "Limited data suggests: " exactly when the confidence is below 0.5;
    with the default decay of 0.85 that is exactly when at most five signals
    were counted. *)
Theorem message_qualifier (cfg : config) (b : signalBundle) :
  let r := computeScore cfg b in
  TrustResult.level r <> INSUFFICIENT_DATA ->
  (String.prefix "Limited data suggests: " (TrustResult.message r) = true
   <-> TrustResult.confidence r < 0.5)
  /\ (confidenceDecay cfg == 0.85 ->
      (TrustResult.confidence r < 0.5
       <-> (TrustResult.signalCount r <= 5)%nat)).
Proof.
  cbv zeta. intros Hlv.
  pose proof (level_sufficient cfg b Hlv) as E.
  rewrite (computeScore_enough cfg b E). cbv zeta.
  cbn [TrustResult.message TrustResult.confidence TrustResult.signalCount].
  split.
  - rewrite generateMessage_prefix. apply ltb_lt.
  - intros Hd. unfold confidenceOf. rewrite Hd.
    destruct (Nat.le_gt_cases (signalsOf b) 5) as [H|H].
    + split; [intros _; assumption|intros _].
      assert (H10 : (signalsOf b <= 10)%nat) by lia.
      rewrite (coverage_partial H10).
      apply (ofNat_le (signalsOf b) 5) in H.
      change (ofNat 5) with 5 in H.
      set (x := ofNat (signalsOf b)) in *.
      assert (x / 10 == x * (1 # 10)) as -> by (unfold Qdiv; reflexivity).
      lra.
    + split; [intros Hc; exfalso|lia].
      pose proof (@coverage_mono 6 (signalsOf b) H) as Hm.
      assert (H6 : Qmin 1 (ofNat 6 / 10) == 0.6) by reflexivity.
      rewrite H6 in Hm.
      set (x := Qmin 1 (ofNat (signalsOf b) / 10)) in *. lra.
Qed.

Lemma message_qualifier_witness :
  let b := [ ("text"%string,
              [ ("aiDetection"%string, SigNum 0.9);
                ("templateMatching"%string, SigNum 0.7);
                ("repetitionPattern"%string, SigNum 0.8) ]) ] in
  let r := computeScore defaultConfig b in
  TrustResult.level r <> INSUFFICIENT_DATA
  /\ TrustResult.signalCount r = 3%nat
  /\ TrustResult.message r
     = "Limited data suggests: This content appears authentic based on available signals."%string
  /\ TrustResult.confidence r < 0.5.
Proof.
  cbv zeta.
  split; [vm_compute; discriminate|]. split; [reflexivity|].
  split; [reflexivity|].
  assert (Hlv : TrustResult.level
                  (computeScore defaultConfig
                     [ ("text"%string,
                        [ ("aiDetection"%string, SigNum 0.9);
                          ("templateMatching"%string, SigNum 0.7);
                          ("repetitionPattern"%string, SigNum 0.8) ]) ])
                <> INSUFFICIENT_DATA) by (vm_compute; discriminate).
  apply (proj1 (message_qualifier defaultConfig _ Hlv)).
  reflexivity.
Defined.

(** *** New keys of an object *)

Lemma get_app {A : Type} (o o' : list (string * A)) k :
  get (o ++ o') k = match get o k with Some v => Some v | None => get o' k end.
Proof.
  induction o as [|[k' v'] o IH]; cbn [get app]; [reflexivity|].
  destruct (String.eqb k' k); [reflexivity|apply IH].
Qed.

Lemma set_fresh {A : Type} (o : list (string * A)) k v :
  get o k = None -> set o k v = (o ++ [(k, v)])%list.
Proof.
  induction o as [|[k' v'] o IH]; cbn [get set app]; [reflexivity|].
  destruct (String.eqb k' k); [discriminate|].
  intros H. now rewrite IH.
Qed.

End AggregatorFacts.


(** ** More on the lexical detectors *)
Module TextDetectorFacts.

Import JS JSFacts TrustScorer TextAnalyzer TextAnalyzerSpec TextAnalyzerFacts
  DetectorTerms.
Local Open Scope Q_scope.

(** *** Letter case *)

Lemma lower_idempotent c : Str.lower (Str.lower c) = Str.lower c.
Proof. destruct c as [[] [] [] [] [] [] [] []]; vm_compute; reflexivity. Qed.

Lemma toLowerCase_idempotent s :
  Str.toLowerCase (Str.toLowerCase s) = Str.toLowerCase s.
Proof.
  induction s as [|c s IH]; cbn [Str.toLowerCase]; [reflexivity|].
  now rewrite lower_idempotent, IH.
Qed.

Lemma toLowerCase_length s :
  String.length (Str.toLowerCase s) = String.length s.
Proof.
  induction s as [|c s IH]; cbn [Str.toLowerCase String.length]; congruence.
Qed.

(** X10. The lexical analysis ignores letter case: two texts that agree
    once lower-cased get the same five outputs; in particular a text and
    its lower-cased form do. *)
Theorem analyze_ignores_case (text text' : string) :
  Str.toLowerCase text = Str.toLowerCase text' ->
  analyze text = analyze text'
  /\ analyze (Str.toLowerCase text) = analyze text.
Proof.
  intros H.
  assert (Hlen : forall s, analyze s
            = if Nat.ltb (String.length (Str.toLowerCase s)) 20
              then {| aiDetection := None; repetitionPattern := None;
                      sentimentConsistency := None;
                      vocabularyDistribution := None;
                      templateMatching := None |}
              else
                let normalized := Str.trim (Str.toLowerCase s) in
                {| aiDetection := Some (_detectAIPatterns normalized);
                   repetitionPattern := Some (_analyzeRepetition normalized);
                   sentimentConsistency := Some (_analyzeSentiment normalized);
                   vocabularyDistribution := Some (_analyzeVocabulary normalized);
                   templateMatching := Some (_detectTemplates normalized) |})
    by (intros s; unfold analyze; now rewrite toLowerCase_length).
  split.
  - now rewrite (Hlen text), (Hlen text'), H.
  - now rewrite (Hlen (Str.toLowerCase text)), (Hlen text),
      toLowerCase_idempotent.
Qed.

Lemma analyze_ignores_case_witness :
  Str.toLowerCase "GREAT Product, Works As Described!"
  = Str.toLowerCase "great product, works as described!"
  /\ analyze "GREAT Product, Works As Described!"
     = analyze "great product, works as described!".
Proof.
  split; [reflexivity|].
  apply (@analyze_ignores_case "GREAT Product, Works As Described!"
           "great product, works as described!").
  reflexivity.
Defined.

(** *** The AI-pattern detector *)

Lemma sumNat_fold_0 l : forall a,
  fold_left Nat.add l a = 0%nat -> a = 0%nat /\ Forall (fun x => x = 0%nat) l.
Proof.
  induction l as [|x l IH]; intros a H; cbn [fold_left] in H.
  - split; [assumption|constructor].
  - apply IH in H as [Ha Hl]. split; [lia|].
    constructor; [lia|assumption].
Qed.

Lemma clamp01_ge lo x : lo <= 1 -> lo <= x -> lo <= clamp01 x.
Proof.
  intros H1 Hx. unfold clamp01.
  apply Qle_trans with (Qmin 1 x); [|apply Q.le_max_r].
  now apply Q.min_glb.
Qed.

Lemma no_phrase_found text :
  aiPhraseCount text = 0%nat ->
  filter (fun phrase => Nat.ltb 0 (Str.countLiteral phrase text)) aiTellPhrases
  = [].
Proof.
  unfold aiPhraseCount, sumNat. intros H.
  apply sumNat_fold_0 in H as [_ H].
  induction aiTellPhrases as [|p l IH]; [reflexivity|].
  cbn [map] in H. inversion H as [|x l' Hx Hl]; subst.
  cbn [filter]. rewrite Hx. cbn [Nat.ltb Nat.leb]. now apply IH.
Qed.

(** The phrases cost at most 0.5 and the hype words at most 0.4; the bound
    0.09 leaves room for the rounding of [1 - 0.5 - 0.4]. *)
Lemma detectAIPatterns_bounds (text : string) :
  exists q,
    SignalOutput.score (_detectAIPatterns text) = Some q
    /\ 0.09 <= q <= 1
    /\ (aiPhraseCount text = 0%nat -> 0.6 <= q)
    /\ (aiPhraseCount text = 0%nat -> hypeCount text = 0%nat ->
        q == 1 /\ SignalOutput.detail (_detectAIPatterns text) = None).
Proof.
  unfold _detectAIPatterns. cbv zeta.
  fold (aiPhraseCount text). fold (hypeCount text).
  cbn [signal SignalOutput.score SignalOutput.detail].
  eexists. split; [reflexivity|].
  set (d := ofNat (aiPhraseCount text) / (ofNat (String.length text) / 500)).
  set (h := ofNat (hypeCount text) / (ofNat (String.length text) / 500)).
  pose proof (Q.le_min_l 0.5 (d * 0.25)) as Hd.
  pose proof (Q.le_min_l 0.4 ((h - 2) * 0.1)) as Hh.
  split; [|split].
  - split; [|apply clamp01_bounds].
    apply clamp01_ge; [discriminate|].
    destruct (Nat.ltb 0 (aiPhraseCount text)), (gtb h 3); lra.
  - intros H0. rewrite H0. cbn [Nat.ltb Nat.leb].
    apply clamp01_ge; [discriminate|].
    destruct (gtb h 3); lra.
  - intros H0 H1. rewrite (no_phrase_found text H0).
    rewrite H0, H1. cbn [Nat.ltb Nat.leb List.length orb].
    assert (E : gtb h 3 = false).
    { apply gtb_le. unfold h. rewrite H1. unfold Qdiv.
      change (ofNat 0) with 0. rewrite Qmult_0_l. discriminate. }
    rewrite E. split; reflexivity.
Qed.

(** *** The sentiment detector *)

Lemma countIn_none dict words :
  (forall w, In w words -> ~ In w dict) -> countIn dict words = 0%nat.
Proof.
  unfold countIn. induction words as [|w words IH]; intros H; [reflexivity|].
  cbn [filter].
  assert (E : Str.mem w dict = false).
  { apply BatchTextAnalyzerFacts.mem_not_In. apply H. now left. }
  rewrite E. apply IH. intros w' Hw'. apply H. now right.
Qed.

(** X12. The sentiment detector reads praise only off the share of
    positive words.  When at most 6% of the words are positive, as when
    none is, the score is 0.85 or 0.6 and there is no detail.  When the
    share is higher and the text has no hedging and no negative word, there
    is a detail and the score is below 0.5, with or without concrete
    details in the text. *)
Theorem analyzeSentiment_reads_praise (text : string) :
  (positiveShare text <= 0.06 ->
   _analyzeSentiment text = signal 0.85 None
   \/ _analyzeSentiment text = signal 0.6 None)
  /\ ((forall w, In w (cleanedWords text) -> ~ In w positiveWords) ->
      positiveShare text <= 0.06)
  /\ (0.06 < positiveShare text ->
      countIn hedgingWords (cleanedWords text) = 0%nat ->
      countIn negativeWords (cleanedWords text) = 0%nat ->
      exists q d, _analyzeSentiment text = signal q (Some d) /\ q < 0.5).
Proof.
  split; [|split].
  - intros H. unfold _analyzeSentiment. cbv zeta.
    fold (cleanedWords text). fold (positiveShare text).
    assert (E1 : gtb (positiveShare text) 0.06 = false) by now apply gtb_le.
    assert (E2 : gtb (positiveShare text) 0.08 = false)
      by (apply gtb_le; lra).
    rewrite E1, E2. cbn [andb].
    destruct (_ || _); auto.
  - intros H. unfold positiveShare. rewrite (countIn_none _ _ H).
    unfold Qdiv. change (ofNat 0) with 0. rewrite Qmult_0_l. discriminate.
  - intros H Hh Hn. unfold _analyzeSentiment. cbv zeta.
    fold (cleanedWords text). fold (positiveShare text).
    assert (E1 : gtb (positiveShare text) 0.06 = true) by now apply gtb_gt.
    rewrite E1, Hh, Hn. cbn [andb Nat.eqb].
    destruct (Nat.eqb _ 0) eqn:E.
    + eexists _, _. split; [reflexivity|reflexivity].
    + destruct (gtb (positiveShare text) 0.08); cbn [andb].
      * assert (L : Nat.ltb 0
                      (List.length
                         (filter (fun marker => RegExp.test marker text)
                            specificityMarkers)) = true).
        { apply Nat.ltb_lt. apply Nat.eqb_neq in E. lia. }
        rewrite L. eexists _, _. split; reflexivity.
      * assert (L : Nat.ltb 0
                      (List.length
                         (filter (fun marker => RegExp.test marker text)
                            specificityMarkers)) = true).
        { apply Nat.ltb_lt. apply Nat.eqb_neq in E. lia. }
        rewrite L. eexists _, _. split; reflexivity.
Qed.

Lemma analyzeSentiment_reads_praise_witness :
  (0.06 < positiveShare "great product love it so much"
   /\ countIn hedgingWords (cleanedWords "great product love it so much")
      = 0%nat
   /\ countIn negativeWords (cleanedWords "great product love it so much")
      = 0%nat
   /\ exists q d,
        _analyzeSentiment "great product love it so much" = signal q (Some d)
        /\ q < 0.5)
  /\ (positiveShare "it stopped charging after a week" <= 0.06
      /\ (_analyzeSentiment "it stopped charging after a week"
          = signal 0.85 None
          \/ _analyzeSentiment "it stopped charging after a week"
             = signal 0.6 None)).
Proof.
  destruct (analyzeSentiment_reads_praise "great product love it so much")
    as (_ & _ & Hhigh).
  destruct (analyzeSentiment_reads_praise "it stopped charging after a week")
    as (Hlow & _ & _).
  assert (H1 : 0.06 < positiveShare "great product love it so much")
    by (vm_compute; reflexivity).
  assert (H2 : countIn hedgingWords
                 (cleanedWords "great product love it so much") = 0%nat)
    by (vm_compute; reflexivity).
  assert (H3 : countIn negativeWords
                 (cleanedWords "great product love it so much") = 0%nat)
    by (vm_compute; reflexivity).
  assert (H4 : positiveShare "it stopped charging after a week" <= 0.06)
    by (vm_compute; discriminate).
  split.
  - split; [exact H1|]. split; [exact H2|]. split; [exact H3|].
    exact (Hhigh H1 H2 H3).
  - split; [exact H4|exact (Hlow H4)].
Defined.

(** *** Dictionary entries that cannot match *)

Lemma lower_not_upper c : Str.isUpperAZ (Str.lower c) = false.
Proof. destruct c as [[] [] [] [] [] [] [] []]; vm_compute; reflexivity. Qed.

Lemma toLowerCase_no_upper s :
  allChars (fun c => negb (Str.isUpperAZ c)) (Str.toLowerCase s) = true.
Proof.
  induction s as [|c s IH]; cbn [Str.toLowerCase allChars]; [reflexivity|].
  now rewrite lower_not_upper.
Qed.

Lemma trimStart_allChars P s :
  allChars P s = true -> allChars P (Str.trimStart s) = true.
Proof.
  induction s as [|c s IH]; cbn [Str.trimStart]; [trivial|].
  intros H. destruct (Str.isSpace c); [|assumption].
  apply IH. cbn [allChars] in H. destruct (P c); [assumption|discriminate].
Qed.

Lemma trimEnd_allChars P s :
  allChars P s = true -> allChars P (Str.trimEnd s) = true.
Proof.
  induction s as [|c s IH]; cbn [Str.trimEnd]; [trivial|].
  cbn [allChars]. destruct (P c) eqn:E; [|discriminate].
  intros H. destruct (Str.isSpace c && _)%bool; [reflexivity|].
  cbn [allChars]. rewrite E. now apply IH.
Qed.

Lemma normalize_no_upper text :
  allChars (fun c => negb (Str.isUpperAZ c)) (normalize text) = true.
Proof.
  unfold normalize, Str.trim.
  apply trimEnd_allChars, trimStart_allChars, toLowerCase_no_upper.
Qed.

Lemma matchesPrefix_Never s : RegExp.matchesPrefix RegExp.Never s = false.
Proof. induction s as [|c s IH]; cbn; [reflexivity|assumption]. Qed.

Lemma properNoun_needs_upper s :
  allChars (fun c => negb (Str.isUpperAZ c)) s = true ->
  RegExp.test properNounMarker s = false.
Proof.
  induction s as [|c s IH]; [reflexivity|].
  cbn [allChars]. destruct (Str.isUpperAZ c) eqn:E; cbn [negb]; [discriminate|].
  intros H. cbn [RegExp.test].
  assert (M : RegExp.matchesPrefix properNounMarker (String c s) = false).
  { unfold properNounMarker.
    cbn [RegExp.matchesPrefix RegExp.nullable RegExp.deriv andb].
    rewrite E. cbn [RegExp.seq RegExp.alt]. apply matchesPrefix_Never. }
  rewrite M. now apply IH.
Qed.

(** X13. [analyze] lower-cases a text before it runs the detectors, so the
    proper-noun marker of the sentiment detector, which asks for capital
    letters, never fires there: at most four of the five specificity
    markers can count. *)
Theorem proper_noun_marker_never_fires :
  nth_error specificityMarkers 3 = Some properNounMarker
  /\ (forall text, RegExp.test properNounMarker (normalize text) = false)
  /\ (forall text,
        (List.length
           (filter (fun marker => RegExp.test marker (normalize text))
              specificityMarkers) <= 4)%nat)
  /\ (forall text,
        (20 <= String.length text)%nat ->
        sentimentConsistency (analyze text)
        = Some (_analyzeSentiment (normalize text))).
Proof.
  assert (H : forall text, RegExp.test properNounMarker (normalize text) = false)
    by (intros text; apply properNoun_needs_upper, normalize_no_upper).
  split; [reflexivity|]. split; [exact H|]. split.
  - intros text. unfold specificityMarkers. cbn [filter].
    fold properNounMarker. rewrite (H text).
    repeat match goal with
           | |- context [if ?c then _ else _] => destruct c
           end; cbn [List.length]; lia.
  - intros text Hlen. unfold analyze.
    assert (E : Nat.ltb (String.length text) 20 = false)
      by (apply Nat.ltb_ge; lia).
    now rewrite E.
Qed.

Lemma proper_noun_marker_never_fires_witness :
  (20 <= String.length "Bought it for Aunt Mary in New York")%nat
  /\ RegExp.test properNounMarker "Bought it for Aunt Mary in New York" = true
  /\ RegExp.test properNounMarker
       (normalize "Bought it for Aunt Mary in New York") = false
  /\ sentimentConsistency (analyze "Bought it for Aunt Mary in New York")
     = Some (_analyzeSentiment
               (normalize "Bought it for Aunt Mary in New York")).
Proof.
  destruct proper_noun_marker_never_fires as (_ & H1 & _ & H2).
  assert (Hlen : (20 <= String.length "Bought it for Aunt Mary in New York")%nat)
    by (cbn [String.length]; lia).
  split; [exact Hlen|]. split; [vm_compute; reflexivity|].
  split; [apply H1|exact (H2 _ Hlen)].
Defined.

Lemma keepLowerAZ_allChars w :
  allChars Str.isLowerAZ (Str.keepLowerAZ w) = true.
Proof.
  induction w as [|c w IH]; cbn [Str.keepLowerAZ]; [reflexivity|].
  destruct (Str.isLowerAZ c) eqn:E; [|assumption].
  cbn [allChars]. now rewrite E.
Qed.

Lemma mem_filter_allChars P w l :
  allChars P w = true -> Str.mem w l = Str.mem w (filter (allChars P) l).
Proof.
  intros Hw. unfold Str.mem.
  induction l as [|h l IH]; cbn [filter existsb]; [reflexivity|].
  destruct (allChars P h) eqn:E; cbn [existsb]; [now rewrite IH|].
  destruct (String.eqb w h) eqn:Eq; [|assumption].
  apply String.eqb_eq in Eq. congruence.
Qed.

(** X14. The sentiment detector looks each word up after stripping it to
    its letters a-z, so the hedges that are two words ("small issue",
    "only complaint", "could be", "not perfect") never count: the hedge
    count is the one over the twelve single-word hedges. *)
Theorem multiword_hedges_never_count :
  singleWordHedges
  = [ "but"; "however"; "although"; "though"; "except"; "unless";
      "somewhat"; "slightly"; "minor"; "downside"; "only"; "wish" ]%string
  /\ (forall text,
        countIn hedgingWords (cleanedWords text)
        = countIn singleWordHedges (cleanedWords text))
  /\ (forall word h,
        In h hedgingWords -> ~ In h singleWordHedges ->
        Str.keepLowerAZ word <> h).
Proof.
  split; [reflexivity|]. split.
  - intros text. unfold countIn, cleanedWords, singleWordHedges.
    induction (Str.splitWs text) as [|w ws IH]; [reflexivity|].
    cbn [map filter].
    rewrite <- (mem_filter_allChars Str.isLowerAZ (Str.keepLowerAZ w)
                  hedgingWords (keepLowerAZ_allChars w)).
    destruct (Str.mem _ hedgingWords); cbn [List.length]; now rewrite IH.
  - intros word h Hin Hnot Heq. apply Hnot.
    unfold singleWordHedges. apply filter_In. split; [assumption|].
    rewrite <- Heq. apply keepLowerAZ_allChars.
Qed.

Lemma multiword_hedges_never_count_witness :
  In "not perfect"%string hedgingWords
  /\ ~ In "not perfect"%string singleWordHedges
  /\ Str.keepLowerAZ "not perfect" <> "not perfect"%string
  /\ countIn hedgingWords (cleanedWords "good, not perfect") = 0%nat.
Proof.
  destruct multiword_hedges_never_count as (Hs & Hc & Hw).
  assert (H1 : In "not perfect"%string hedgingWords)
    by (unfold hedgingWords; cbn [In]; tauto).
  assert (H2 : ~ In "not perfect"%string singleWordHedges)
    by (rewrite Hs; cbn [In]; intuition discriminate).
  split; [exact H1|]. split; [exact H2|].
  split; [exact (Hw "not perfect"%string _ H1 H2)|].
  rewrite Hc, Hs. vm_compute. reflexivity.
Defined.

(** *** Templates *)

Lemma append_assoc_string (a b c : string) :
  ((a ++ b) ++ c = a ++ (b ++ c))%string.
Proof.
  induction a as [|x a IH]; cbn [String.append]; [reflexivity|].
  now rewrite IH.
Qed.

Lemma occurs_context t pre text post :
  occurs t text -> occurs t (pre ++ text ++ post)%string.
Proof.
  intros (p & q & ->). exists (pre ++ p)%string, (q ++ post)%string.
  now rewrite !append_assoc_string.
Qed.

(** X15. Putting text before or after a review never lowers the number of
    templates found, so it never raises the template score. *)
Theorem detectTemplates_antitone (pre text post : string) :
  (matchCount text <= matchCount (pre ++ text ++ post))%nat
  /\ exists q q',
       SignalOutput.score (_detectTemplates text) = Some q
       /\ SignalOutput.score (_detectTemplates (pre ++ text ++ post)) = Some q'
       /\ q' <= q.
Proof.
  assert (H : (matchCount text <= matchCount (pre ++ text ++ post))%nat).
  { unfold matchCount.
    destruct (matchedTemplates_spec text) as [Hnd Hin].
    destruct (matchedTemplates_spec (pre ++ text ++ post)) as [_ Hin'].
    apply NoDup_incl_length; [assumption|].
    intros t Ht. apply Hin in Ht as [Ht Ho]. apply Hin'.
    split; [assumption|now apply occurs_context]. }
  split; [exact H|].
  rewrite !detectTemplates_score. eexists _, _.
  split; [reflexivity|]. split; [reflexivity|].
  apply ofNat_le in H.
  apply Q.max_le_compat_l. lra.
Qed.

(** *** Word n-grams *)

Lemma ngramsFrom_spec n : forall count words,
  (count <= List.length words)%nat ->
  List.length (Str.ngramsFrom n words count) = count
  /\ forall i, (i < count)%nat ->
       nth_error (Str.ngramsFrom n words count) i
       = Some (Str.join " " (firstn n (skipn i words))).
Proof.
  induction count as [|k IH]; intros words Hlen.
  - destruct words; (split; [reflexivity|]; intros i Hi; lia).
  - destruct words as [|w rest]; [cbn in Hlen; lia|].
    cbn [Str.ngramsFrom]. cbn [List.length] in Hlen.
    destruct (IH rest ltac:(lia)) as [IHl IHn].
    split; [cbn [List.length]; now rewrite IHl|].
    intros [|j] Hi; [reflexivity|].
    cbn [nth_error skipn]. apply IHn. lia.
Qed.

Lemma ngrams_spec n words :
  (1 <= n)%nat ->
  List.length (Str.ngrams n words) = (List.length words + 1 - n)%nat
  /\ forall i, (i + n <= List.length words)%nat ->
       nth_error (Str.ngrams n words) i
       = Some (Str.join " " (firstn n (skipn i words))).
Proof.
  intros Hn. unfold Str.ngrams.
  destruct (@ngramsFrom_spec n (List.length words + 1 - n)%nat words
              ltac:(lia)) as [Hl Hi].
  split; [assumption|]. intros i H. apply Hi. lia.
Qed.

(** The word n-grams of a text, for [n] at least 1: a text of [w]
    words has [w + 1 - n] of them, none when it has fewer than [n] words,
    and the one at position [i] is the words [i] to [i + n - 1] joined by
    single spaces.  [_extractNgrams] drops the empty pieces of the split
    first; the four-word runs of the cross-item detector do not. *)
Theorem ngrams_count_and_content (text : string) (n : nat) :
  (1 <= n)%nat ->
  let words :=
    filter (fun w => Nat.ltb 0 (String.length w)) (Str.splitWs text) in
  let pieces := Str.splitWs (Str.toLowerCase text) in
  (List.length (_extractNgrams text n) = (List.length words + 1 - n)%nat
   /\ forall i, (i + n <= List.length words)%nat ->
        nth_error (_extractNgrams text n) i
        = Some (Str.join " " (firstn n (skipn i words))))
  /\ (List.length (BatchTextAnalyzerSpec.shingles text)
      = (List.length pieces + 1 - 4)%nat
      /\ forall i, (i + 4 <= List.length pieces)%nat ->
           nth_error (BatchTextAnalyzerSpec.shingles text) i
           = Some (Str.join " " (firstn 4 (skipn i pieces))))
  /\ ((List.length pieces < 4)%nat ->
      BatchTextAnalyzer.grams text = []).
Proof.
  intros Hn. cbv zeta. split; [|split].
  - unfold _extractNgrams. cbv zeta. now apply ngrams_spec.
  - unfold BatchTextAnalyzerSpec.shingles. apply ngrams_spec. lia.
  - intros H. unfold BatchTextAnalyzer.grams.
    destruct (@ngrams_spec 4 (Str.splitWs (Str.toLowerCase text))
                ltac:(lia)) as [Hl _].
    destruct (Str.ngrams 4 (Str.splitWs (Str.toLowerCase text)));
      [reflexivity|cbn [List.length] in Hl; lia].
Qed.

Lemma ngrams_count_and_content_witness :
  (1 <= 3)%nat
  /\ List.length (_extractNgrams "the  quick brown fox jumps" 3) = 3%nat
  /\ nth_error (_extractNgrams "the  quick brown fox jumps" 3) 2
     = Some "brown fox jumps"%string.
Proof.
  destruct (@ngrams_count_and_content "the  quick brown fox jumps" 3
              ltac:(lia)) as [[Hl Hi] _].
  split; [lia|]. split; [exact Hl|].
  apply (Hi 2%nat). vm_compute. lia.
Defined.

End TextDetectorFacts.


(** ** Sorting *)
Module SortFacts.

Import JS.

Section InsertionSort.

Variable A : Type.
Variable before : A -> A -> bool.
Variable le : A -> A -> Prop.
Hypothesis before_le : forall a b, before a b = true -> le a b.
Hypothesis not_before_le : forall a b, before a b = false -> le b a.
Hypothesis le_trans : forall a b c, le a b -> le b c -> le a c.

Lemma insertBy_In (x y : A) l : In y (insertBy before x l) <-> y = x \/ In y l.
Proof.
  induction l as [|z l IH]; cbn [insertBy In]; [intuition|].
  destruct (before z x); cbn [In]; [rewrite IH|]; intuition.
Qed.

Lemma insertBy_sorted (x : A) l :
  StronglySorted le l -> StronglySorted le (insertBy before x l).
Proof.
  induction 1 as [|y l Hs IH Hall]; cbn [insertBy].
  - constructor; constructor.
  - destruct (before y x) eqn:E.
    + constructor; [assumption|].
      apply Forall_forall. intros z Hz. apply insertBy_In in Hz as [->|Hz].
      * now apply before_le.
      * now apply (proj1 (Forall_forall _ _) Hall).
    + assert (Hxy : le x y) by now apply not_before_le.
      constructor; [now constructor|].
      constructor; [assumption|].
      apply Forall_forall. intros z Hz.
      apply le_trans with y; [assumption|].
      now apply (proj1 (Forall_forall _ _) Hall).
Qed.

Lemma sortBy_sorted l : StronglySorted le (sortBy before l).
Proof.
  unfold sortBy. induction l as [|x l IH]; cbn [fold_right].
  - constructor.
  - now apply insertBy_sorted.
Qed.

End InsertionSort.

End SortFacts.

(** ** More on the cross-item detector *)
Module BatchDetectorFacts.

Import JS JSFacts TrustScorer BatchTextAnalyzer BatchTextAnalyzerSpec
  BatchTextAnalyzerFacts DetectorTerms SortFacts.
Local Open Scope Q_scope.

Lemma textsWith_le p texts : (textsWith p texts <= List.length texts)%nat.
Proof. unfold textsWith. apply filter_length_le. Qed.

Lemma phraseCounts_entry texts p n :
  In (p, n) (phraseCounts texts) -> n = textsWith p texts.
Proof.
  destruct (phraseCounts_spec texts) as [[Hnd _] Hk]. intros Hin.
  apply (@get_In_NoDup _ Hnd) in Hin.
  rewrite <- Hk. unfold countFor. now rewrite Hin.
Qed.

Lemma findSharedPhrases_In texts e :
  In e (_findSharedPhrases texts)
  <-> count e = textsWith (phrase e) texts /\ (3 <= count e)%nat.
Proof.
  unfold _findSharedPhrases.
  rewrite (Permutation_in' (eq_refl e) (sortBy_perm _ _)) by exact nil.
  rewrite in_map_iff. split.
  - intros [[p n] [<- Hin]]. cbn [phrase count fst snd].
    apply filter_In in Hin as [Hin Hn]. cbn [snd] in Hn.
    split; [now apply phraseCounts_entry|now apply Nat.leb_le].
  - intros [Hc Hn]. exists (phrase e, count e). split; [now destruct e|].
    apply filter_In. cbn [snd]. split; [|now apply Nat.leb_le].
    destruct (phraseCounts_spec texts) as [[Hnd _] Hk].
    apply (@get_In_NoDup _ Hnd).
    specialize (Hk (phrase e)). unfold countFor in Hk.
    destruct (get (phraseCounts texts) (phrase e)) as [m|]; [congruence|].
    lia.
Qed.

Lemma findSharedPhrases_NoDup texts : NoDup (map phrase (_findSharedPhrases texts)).
Proof.
  apply (Permutation_NoDup (l := sharedKeys texts)).
  - symmetry. apply findSharedPhrases_perm.
  - apply sharedKeys_spec.
Qed.

(** X16. What [_findSharedPhrases] returns: each phrase once, with the
    number of texts it is a four-word run of, which is at least three and
    at most the number of texts; the phrases with the larger counts come
    first. *)
Theorem findSharedPhrases_counts (texts : list string) :
  let r := _findSharedPhrases texts in
  NoDup (map phrase r)
  /\ Forall (fun e => count e = textsWith (phrase e) texts
                      /\ (3 <= count e <= List.length texts)%nat) r
  /\ descending r
  /\ (forall p, (3 <= textsWith p texts)%nat ->
                In {| phrase := p; count := textsWith p texts |} r).
Proof.
  cbv zeta. split; [apply findSharedPhrases_NoDup|]. split; [|split].
  - apply Forall_forall. intros e He.
    apply findSharedPhrases_In in He as [Hc Hn].
    split; [assumption|]. split; [assumption|].
    rewrite Hc. apply textsWith_le.
  - unfold descending, _findSharedPhrases.
    apply (@sortBy_sorted _ (fun a b => Nat.ltb (count b) (count a))
             (fun a b => (count b <= count a)%nat)).
    + intros a b H. apply Nat.ltb_lt in H. lia.
    + intros a b H. apply Nat.ltb_ge in H. lia.
    + intros a b c H1 H2. lia.
  - intros p Hp. apply findSharedPhrases_In. cbn [phrase count]. now split.
Qed.

Lemma findSharedPhrases_counts_witness :
  let texts :=
    [ "It works exactly as described";
      "Really works exactly as described";
      "Still works exactly as described";
      "Arrived late and broken sadly" ]%string in
  (3 <= textsWith "works exactly as described" texts)%nat
  /\ In {| phrase := "works exactly as described";
           count := textsWith "works exactly as described" texts |}
        (_findSharedPhrases texts).
Proof.
  cbv zeta.
  assert (H : (3 <= textsWith "works exactly as described"
                     [ "It works exactly as described";
                       "Really works exactly as described";
                       "Still works exactly as described";
                       "Arrived late and broken sadly" ]%string)%nat)
    by (vm_compute; lia).
  split; [exact H|].
  destruct (findSharedPhrases_counts
              [ "It works exactly as described";
                "Really works exactly as described";
                "Still works exactly as described";
                "Arrived late and broken sadly" ]%string) as (_ & _ & _ & Hin).
  exact (Hin _ H).
Defined.

(** *** The order of the texts *)

Lemma textsWith_perm p texts texts' :
  Permutation texts texts' -> textsWith p texts = textsWith p texts'.
Proof.
  intros H. unfold textsWith. apply Permutation_length.
  induction H as [|t l l' _ IH|t1 t2 l|l l' l'' _ IH1 _ IH2]; cbn [filter].
  - constructor.
  - destruct (Str.mem p (shingles t)); [now constructor|assumption].
  - destruct (Str.mem p (shingles t1)), (Str.mem p (shingles t2));
      try apply Permutation_refl. apply perm_swap.
  - now apply Permutation_trans
      with (filter (fun t => Str.mem p (shingles t)) l').
Qed.

Lemma map_phrase_NoDup (l : list sharedPhrase) : NoDup (map phrase l) -> NoDup l.
Proof.
  induction l as [|e l IH]; cbn [map]; intros H; [constructor|].
  inversion H as [|? ? Hnotin Hnd]; subst.
  constructor; [|auto]. intros Hin. apply Hnotin. now apply in_map.
Qed.

Lemma findSharedPhrases_order texts texts' :
  Permutation texts texts' ->
  Permutation (_findSharedPhrases texts) (_findSharedPhrases texts').
Proof.
  intros H. apply NoDup_Permutation.
  - apply map_phrase_NoDup, findSharedPhrases_NoDup.
  - apply map_phrase_NoDup, findSharedPhrases_NoDup.
  - intros e. rewrite !findSharedPhrases_In.
    now rewrite (textsWith_perm (phrase e) H).
Qed.

(** X17. The cross-item detector does not depend on the order of the
    texts: the score and the detail are the same, and the shared phrases
    are the same, with the same counts, up to their order. *)
Theorem analyzeCrossPatterns_order_irrelevant (texts texts' : list string) :
  Permutation texts texts' ->
  match coordinatedLanguage (_analyzeCrossPatterns texts),
        coordinatedLanguage (_analyzeCrossPatterns texts') with
  | Some c, Some c' =>
      score c = score c' /\ detail c = detail c'
      /\ Permutation (sharedPhrases c) (sharedPhrases c')
  | None, None => True
  | _, _ => False
  end.
Proof.
  intros H. unfold _analyzeCrossPatterns.
  rewrite <- (Permutation_length H).
  destruct (Nat.ltb (List.length texts) 3); cbn [coordinatedLanguage];
    [exact I|].
  cbn [score detail sharedPhrases].
  pose proof (findSharedPhrases_order H) as HP.
  rewrite <- (Permutation_length HP).
  split; [reflexivity|]. split; [reflexivity|assumption].
Qed.

Lemma analyzeCrossPatterns_order_irrelevant_witness :
  Permutation
    [ "It works exactly as described"; "Really works exactly as described";
      "Still works exactly as described" ]%string
    [ "Still works exactly as described"; "It works exactly as described";
      "Really works exactly as described" ]%string
  /\ match coordinatedLanguage
             (_analyzeCrossPatterns
                [ "It works exactly as described";
                  "Really works exactly as described";
                  "Still works exactly as described" ]%string),
           coordinatedLanguage
             (_analyzeCrossPatterns
                [ "Still works exactly as described";
                  "It works exactly as described";
                  "Really works exactly as described" ]%string) with
     | Some c, Some c' => score c = score c'
     | _, _ => False
     end.
Proof.
  assert (H : Permutation
    [ "It works exactly as described"; "Really works exactly as described";
      "Still works exactly as described" ]%string
    [ "Still works exactly as described"; "It works exactly as described";
      "Really works exactly as described" ]%string).
  { apply Permutation_trans
      with [ "It works exactly as described";
             "Still works exactly as described";
             "Really works exactly as described" ]%string.
    - apply perm_skip, perm_swap.
    - apply perm_swap. }
  split; [exact H|].
  pose proof (analyzeCrossPatterns_order_irrelevant H) as R.
  vm_compute in R |- *. exact (proj1 R).
Defined.

End BatchDetectorFacts.


(** ** Objects used as tallies *)
Module CounterFacts.

Import JS DetectorTerms.

Section Tally.

Variable K : Type.
Variable eqb : K -> K -> bool.
Variable dec : forall x y : K, {x = y} + {x <> y}.
Hypothesis eqb_spec : forall a b, eqb a b = true <-> a = b.

Lemma eqb_same a : eqb a a = true.
Proof. now apply eqb_spec. Qed.

Lemma eqb_other a b : a <> b -> eqb a b = false.
Proof.
  intros H. destruct (eqb a b) eqn:E; [|reflexivity].
  apply eqb_spec in E. contradiction.
Qed.

Lemma lookup_bump counts k k' :
  lookup eqb (bump eqb counts k) k'
  = (lookup eqb counts k' + if dec k k' then 1 else 0)%nat.
Proof.
  induction counts as [|[k1 n] counts IH]; cbn [bump lookup].
  - destruct (dec k k') as [->|Hne].
    + now rewrite eqb_same.
    + now rewrite eqb_other.
  - destruct (eqb k1 k) eqn:E1.
    + apply eqb_spec in E1. subst k1. cbn [lookup].
      destruct (dec k k') as [->|Hne].
      * rewrite eqb_same. lia.
      * rewrite (eqb_other Hne). lia.
    + cbn [lookup]. rewrite IH.
      destruct (eqb k1 k') eqn:E2; [|reflexivity].
      apply eqb_spec in E2. subst k1.
      destruct (dec k k') as [->|Hne]; [|lia].
      rewrite eqb_same in E1. discriminate.
Qed.

Lemma bump_key counts k k' :
  In k' (map fst (bump eqb counts k)) <-> k' = k \/ In k' (map fst counts).
Proof.
  induction counts as [|[k1 n] counts IH]; cbn [bump map fst In].
  - intuition.
  - destruct (eqb k1 k) eqn:E; cbn [map fst In].
    + apply eqb_spec in E. subst. intuition.
    + rewrite IH. intuition.
Qed.

Lemma bump_distinct counts k :
  NoDup (map fst counts) -> NoDup (map fst (bump eqb counts k)).
Proof.
  induction counts as [|[k1 n] counts IH]; cbn [bump map fst]; intros H.
  - repeat constructor. auto.
  - inversion H as [|? ? Hnotin Hnd]; subst.
    destruct (eqb k1 k) eqn:E; cbn [map fst].
    + constructor; assumption.
    + constructor; [|auto]. rewrite bump_key. intros [->|Hin].
      * rewrite eqb_same in E. discriminate.
      * contradiction.
Qed.

Lemma bump_at_least_1 counts k :
  Forall (fun e => (1 <= snd e)%nat) counts ->
  Forall (fun e => (1 <= snd e)%nat) (bump eqb counts k).
Proof.
  induction 1 as [|[k1 n] counts Hn Hrest IH]; cbn [bump].
  - repeat constructor.
  - cbn [snd] in Hn.
    destruct (eqb k1 k); constructor; cbn [snd]; auto.
Qed.

Lemma In_lookup counts :
  NoDup (map fst counts) ->
  forall k n, In (k, n) counts -> lookup eqb counts k = n.
Proof.
  induction counts as [|[k1 n1] counts IH]; cbn [map fst lookup In];
    intros H k n; [tauto|].
  inversion H as [|? ? Hnotin Hnd]; subst.
  intros [[= -> ->]|Hin].
  - now rewrite eqb_same.
  - destruct (eqb k1 k) eqn:E; [|now apply IH].
    apply eqb_spec in E. subst k1. elim Hnotin.
    apply (in_map fst) in Hin. exact Hin.
Qed.

Lemma lookup_In counts k :
  (1 <= lookup eqb counts k)%nat -> In (k, lookup eqb counts k) counts.
Proof.
  induction counts as [|[k1 n1] counts IH]; cbn [lookup In]; [lia|].
  destruct (eqb k1 k) eqn:E.
  - apply eqb_spec in E. subst k1. now left.
  - intros H. right. now apply IH.
Qed.

Lemma tally_spec ks : forall counts,
  NoDup (map fst counts) ->
  Forall (fun e => (1 <= snd e)%nat) counts ->
  let result := fold_left (bump eqb) ks counts in
  NoDup (map fst result)
  /\ Forall (fun e => (1 <= snd e)%nat) result
  /\ forall k, lookup eqb result k
               = (lookup eqb counts k + count_occ dec ks k)%nat.
Proof.
  induction ks as [|a ks IH]; intros counts Hnd Hpos; cbn [fold_left].
  - cbv zeta. split; [assumption|]. split; [assumption|].
    intros k. cbn [count_occ]. lia.
  - destruct (IH (bump eqb counts a)) as (H1 & H2 & H3).
    { now apply bump_distinct. }
    { now apply bump_at_least_1. }
    cbv zeta. split; [assumption|]. split; [assumption|].
    intros k. rewrite H3, lookup_bump. cbn [count_occ].
    destruct (dec a k); lia.
Qed.

(** The tally of [ks] holds, for each key that occurs, the number of its
    occurrences, and nothing else. *)
Lemma tally_entries ks k n :
  In (k, n) (fold_left (bump eqb) ks [])
  <-> n = count_occ dec ks k /\ (1 <= n)%nat.
Proof.
  destruct (@tally_spec ks [] (NoDup_nil _) (Forall_nil _)) as (H1 & H2 & H3).
  cbn [lookup Nat.add] in H3. split.
  - intros Hin. split.
    + rewrite <- H3. symmetry. now apply In_lookup.
    + exact (proj1 (Forall_forall _ _) H2 (k, n) Hin).
  - intros [-> Hn]. rewrite <- H3 in *. now apply lookup_In.
Qed.

Lemma tally_distinct ks : NoDup (map fst (fold_left (bump eqb) ks [])).
Proof.
  now destruct (@tally_spec ks [] (NoDup_nil _) (Forall_nil _)) as (H1 & _).
Qed.

End Tally.

Lemma maxNat_fold l : forall a,
  (a <= fold_left Nat.max l a)%nat
  /\ Forall (fun x => (x <= fold_left Nat.max l a)%nat) l
  /\ (fold_left Nat.max l a = a \/ In (fold_left Nat.max l a) l).
Proof.
  induction l as [|x l IH]; intros a; cbn [fold_left].
  - split; [lia|]. split; [constructor|now left].
  - destruct (IH (Nat.max a x)) as (H1 & H2 & H3).
    split; [lia|]. split; [constructor; [lia|assumption]|].
    destruct H3 as [H3|H3]; [|right; now right].
    destruct (Nat.max_spec a x) as [[_ E]|[_ E]]; rewrite E in *.
    + right; left. congruence.
    + now left.
Qed.

Lemma maxNat_lt l m :
  (m < maxNat l)%nat <-> exists x, In x l /\ (m < x)%nat.
Proof.
  unfold maxNat. destruct (maxNat_fold l 0) as (_ & H2 & H3).
  rewrite Forall_forall in H2. split.
  - intros H. destruct H3 as [H3|H3]; [lia|]. eauto.
  - intros (x & Hx & Hm). apply H2 in Hx. lia.
Qed.

Lemma maxNat_unique l m :
  In m l -> Forall (fun x => (x <= m)%nat) l -> maxNat l = m.
Proof.
  intros Hin Hall. unfold maxNat.
  destruct (maxNat_fold l 0) as (_ & H2 & H3).
  rewrite Forall_forall in H2, Hall. apply H2 in Hin.
  destruct H3 as [H3|H3]; [lia|].
  apply Hall in H3. lia.
Qed.

End CounterFacts.


(** ** More on the account detectors *)
Module AccountDetectorFacts.

Import Dates JS JSFacts TrustScorer AccountAnalyzer AccountAnalyzerSpec
  AccountAnalyzerFacts DetectorTerms CounterFacts SortFacts.
Local Open Scope Q_scope.

(** *** Account age *)

Lemma ageDays_ltb (a k : Z) :
  ltb (inject_Z a / inject_Z dayMs) (inject_Z k) = (a <? k * dayMs)%Z.
Proof.
  assert (Hd : 0 < inject_Z dayMs) by reflexivity.
  destruct (a <? k * dayMs)%Z eqn:E.
  - apply ltb_lt. apply Z.ltb_lt in E.
    apply Qlt_shift_div_r; [assumption|].
    rewrite <- inject_Z_mult. now rewrite <- Zlt_Qlt.
  - apply ltb_ge. apply Z.ltb_ge in E.
    apply Qle_shift_div_l; [assumption|].
    rewrite <- inject_Z_mult. now rewrite <- Zle_Qle.
Qed.

Lemma scoreAccountAge_reference now getTime profile ref :
  referenceOf profile = Some ref ->
  _scoreAccountAge now getTime profile
  = Some (signal (ageBand (now - getTime ref))
            (if (now - getTime ref <? 7 * dayMs)%Z
             then Some "Account created within the last week"%string
             else if (now - getTime ref <? 30 * dayMs)%Z
                  then Some "Account less than 30 days old"%string
                  else None)).
Proof.
  unfold referenceOf, dateOf, _scoreAccountAge, or, toBool, ageBand.
  intros H.
  assert (R : forall r,
    (if ltb (inject_Z (now - getTime r) / inject_Z dayMs) 7
     then Some (signal 0.1 (Some "Account created within the last week"%string))
     else if ltb (inject_Z (now - getTime r) / inject_Z dayMs) 30
          then Some (signal 0.3 (Some "Account less than 30 days old"%string))
          else if ltb (inject_Z (now - getTime r) / inject_Z dayMs) 90
               then Some (signal 0.6 None)
               else Some (signal 0.9 None))
    = Some (signal
              (if (now - getTime r <? 7 * dayMs)%Z then 0.1
               else if (now - getTime r <? 30 * dayMs)%Z then 0.3
                    else if (now - getTime r <? 90 * dayMs)%Z then 0.6
                         else 0.9)
              (if (now - getTime r <? 7 * dayMs)%Z
               then Some "Account created within the last week"%string
               else if (now - getTime r <? 30 * dayMs)%Z
                    then Some "Account less than 30 days old"%string
                    else None))).
  { intros r.
    change 7 with (inject_Z 7). change 30 with (inject_Z 30).
    change 90 with (inject_Z 90). rewrite !ageDays_ltb.
    destruct (_ <? 7 * dayMs)%Z; [reflexivity|].
    destruct (_ <? 30 * dayMs)%Z; [reflexivity|].
    destruct (_ <? 90 * dayMs)%Z; reflexivity. }
  destruct (accountCreated profile) as [| |s]; cbn [negb andb] in *.
  - destruct (firstReviewDate profile) as [| |s']; try discriminate.
    destruct (truthy s'); [|discriminate]. injection H as ->.
    cbn [negb]. apply R.
  - destruct (firstReviewDate profile) as [| |s']; try discriminate.
    destruct (truthy s'); [|discriminate]. injection H as ->.
    cbn [negb]. apply R.
  - destruct (truthy s).
    + injection H as ->. cbn [negb andb]. apply R.
    + destruct (firstReviewDate profile) as [| |s']; try discriminate.
      destruct (truthy s'); [|discriminate]. injection H as ->.
      cbn [negb andb]. apply R.
Qed.

Lemma ageBand_mono a a' : (a <= a')%Z -> ageBand a <= ageBand a'.
Proof.
  intros H. unfold ageBand.
  destruct (a <? 7 * dayMs)%Z eqn:E1, (a' <? 7 * dayMs)%Z eqn:E1';
  destruct (a <? 30 * dayMs)%Z eqn:E2, (a' <? 30 * dayMs)%Z eqn:E2';
  destruct (a <? 90 * dayMs)%Z eqn:E3, (a' <? 90 * dayMs)%Z eqn:E3';
    try discriminate;
    repeat match goal with
           | H : (_ <? _)%Z = true |- _ => apply Z.ltb_lt in H
           | H : (_ <? _)%Z = false |- _ => apply Z.ltb_ge in H
           end; exfalso; lia.
Qed.

(** X18. The account-age detector reads the age off [accountCreated], and
    off [firstReviewDate] only when the first is missing or empty.  The
    score is 0.1 under 7 days, 0.3 under 30, 0.6 under 90 and 0.9 from then
    on, a date in the future counting as under 7 days; so of two profiles
    the one with the older reference date never scores lower.  A detail is
    attached exactly under 30 days. *)
Theorem scoreAccountAge_older_never_lower
  (now : Z) (getTime : string -> Z) (profile profile' : fields)
  (ref ref' : string) :
  referenceOf profile = Some ref ->
  referenceOf profile' = Some ref' ->
  (getTime ref <= getTime ref')%Z ->
  exists s s',
    _scoreAccountAge now getTime profile = Some s
    /\ _scoreAccountAge now getTime profile' = Some s'
    /\ SignalOutput.score s = Some (ageBand (now - getTime ref))
    /\ SignalOutput.score s' = Some (ageBand (now - getTime ref'))
    /\ ageBand (now - getTime ref') <= ageBand (now - getTime ref)
    /\ (SignalOutput.detail s = None <-> (30 * dayMs <= now - getTime ref)%Z).
Proof.
  intros H H' Hle.
  rewrite (scoreAccountAge_reference now getTime profile H).
  rewrite (scoreAccountAge_reference now getTime profile' H').
  eexists _, _. split; [reflexivity|]. split; [reflexivity|].
  cbn [signal SignalOutput.score SignalOutput.detail].
  split; [reflexivity|]. split; [reflexivity|].
  split; [apply ageBand_mono; lia|].
  destruct (now - getTime ref <? 7 * dayMs)%Z eqn:E1.
  - apply Z.ltb_lt in E1. split; [discriminate|]. unfold dayMs in *. lia.
  - destruct (now - getTime ref <? 30 * dayMs)%Z eqn:E2.
    + apply Z.ltb_lt in E2. split; [discriminate|]. lia.
    + apply Z.ltb_ge in E2. split; [intros _; assumption|reflexivity].
Qed.

Lemma scoreAccountAge_older_never_lower_witness :
  let now := (100 * dayMs)%Z in
  let old := createdAt "2" in
  let new := {| displayName := undefined; avatarUrl := undefined;
                bio := undefined; location := undefined;
                accountCreated := val ""%string;
                firstReviewDate := val "2024"%string;
                totalReviews := undefined; helpfulVotes := undefined;
                ratings := undefined; reviewDates := undefined;
                reviewCategories := undefined; reviewDate := undefined;
                verifiedPurchase := undefined |} in
  referenceOf old = Some "2"%string
  /\ referenceOf new = Some "2024"%string
  /\ (hours "2" <= hours "2024")%Z
  /\ ageBand (now - hours "2024") <= ageBand (now - hours "2")
  /\ SignalOutput.score
       match _scoreAccountAge now hours new with
       | Some s => s
       | None => signal 0 None
       end = Some 0.9.
Proof.
  cbv zeta.
  split; [reflexivity|]. split; [reflexivity|].
  split; [vm_compute; discriminate|].
  destruct (@scoreAccountAge_older_never_lower (100 * dayMs)%Z hours
              (createdAt "2")
              {| displayName := undefined; avatarUrl := undefined;
                 bio := undefined; location := undefined;
                 accountCreated := val ""%string;
                 firstReviewDate := val "2024"%string;
                 totalReviews := undefined; helpfulVotes := undefined;
                 ratings := undefined; reviewDates := undefined;
                 reviewCategories := undefined; reviewDate := undefined;
                 verifiedPurchase := undefined |}
              "2" "2024" eq_refl eq_refl)
    as (s & s' & _ & Hs' & _ & Hb' & Hmono & _).
  { vm_compute; discriminate. }
  split; [exact Hmono|].
  rewrite Hs'. rewrite Hb'. reflexivity.
Defined.

(** *** Posting frequency *)

Lemma Z_eqb_spec a b : Z.eqb a b = true <-> a = b.
Proof. apply Z.eqb_eq. Qed.

Lemma Nat_eqb_spec a b : Nat.eqb a b = true <-> a = b.
Proof. apply Nat.eqb_eq. Qed.

Lemma sorted_days getTime dates day :
  count_occ Z.eq_dec (map dayOf (sortAscending (map getTime dates))) day
  = count_occ Z.eq_dec (reviewDays getTime dates) day.
Proof.
  apply Permutation_count_occ. unfold reviewDays, sortAscending.
  rewrite <- (map_map getTime dayOf). apply Permutation_map.
  apply BatchTextAnalyzerFacts.sortBy_perm.
Qed.

Lemma maxInOneDay_burst getTime dates m :
  (m < maxNat (map snd (fold_left (bump Z.eqb)
                          (map dayOf (sortAscending (map getTime dates))) [])))%nat
  <-> exists day, (m < count_occ Z.eq_dec (reviewDays getTime dates) day)%nat.
Proof.
  rewrite maxNat_lt. split.
  - intros (x & Hx & Hm). apply in_map_iff in Hx as [[day n] [<- Hin]].
    apply (@tally_entries _ _ Z.eq_dec Z_eqb_spec) in Hin as [-> _].
    cbn [snd] in Hm. exists day. now rewrite <- sorted_days.
  - intros (day & Hm). rewrite <- sorted_days in Hm.
    exists (count_occ Z.eq_dec
              (map dayOf (sortAscending (map getTime dates))) day).
    split; [|assumption].
    apply in_map_iff. exists (day, count_occ Z.eq_dec
              (map dayOf (sortAscending (map getTime dates))) day).
    split; [reflexivity|].
    apply (@tally_entries _ _ Z.eq_dec Z_eqb_spec). split; [reflexivity|lia].
Qed.

(** On the time values of dates that parse. *)
Lemma postingFrequency_answers
  (getTime : string -> Z) (profile : fields) (dates : list string) :
  reviewDates profile = val dates ->
  (2 <= List.length dates)%nat ->
  exists s,
    _scorePostingFrequency getTime profile = Some s
    /\ (SignalOutput.score s = Some 0.15
        <-> exists day,
              (5 < count_occ Z.eq_dec (reviewDays getTime dates) day)%nat)
    /\ (SignalOutput.score s = Some 0.15 \/ SignalOutput.score s = Some 0.3
        \/ SignalOutput.score s = Some 0.8)
    /\ (SignalOutput.detail s = None <-> SignalOutput.score s = Some 0.8).
Proof.
  intros Hd Hlen. unfold _scorePostingFrequency. rewrite Hd.
  cbn [toBool truthy truthy_array negb orb arrayOf].
  assert (E : Nat.ltb (List.length dates) 2 = false)
    by (apply Nat.ltb_ge; lia).
  rewrite E. cbv zeta.
  unfold suspiciousPatterns.burstThreshold.
  destruct (Nat.ltb 5 _) eqn:B.
  - eexists. split; [reflexivity|].
    cbn [signal SignalOutput.score SignalOutput.detail].
    apply Nat.ltb_lt in B. apply maxInOneDay_burst in B.
    split; [split; [intros _; exact B|reflexivity]|].
    split; [now left|]. split; discriminate.
  - assert (B' : ~ exists day,
                (5 < count_occ Z.eq_dec (reviewDays getTime dates) day)%nat).
    { intros H. apply maxInOneDay_burst in H. apply Nat.ltb_ge in B. lia. }
    destruct (gtb _ _); eexists; (split; [reflexivity|]);
      cbn [signal SignalOutput.score SignalOutput.detail].
    + split; [split; [discriminate|intros H; now elim B']|].
      split; [right; now left|]. split; discriminate.
    + split; [split; [discriminate|intros H; now elim B']|].
      split; [right; now right|]. split; reflexivity.
Qed.

(** *** Review dates that do not parse *)

Lemma sortBy_In {A : Type} (before : A -> A -> bool) (x : A) l :
  In x (sortBy before l) <-> In x l.
Proof.
  unfold sortBy. induction l as [|y l IH]; cbn [fold_right]; [tauto|].
  rewrite insertBy_In, IH. cbn [In]. intuition congruence.
Qed.

Lemma countStep_thrown l error :
  fold_left countStep l (Throws error) = Throws error.
Proof. induction l as [|d l IH]; cbn [fold_left countStep]; auto. Qed.

Lemma countFold_invalid l : In None l -> forall acc,
  exists error, fold_left countStep l acc = Throws error
                /\ (forall c, acc = Returns c -> error = "RangeError"%string).
Proof.
  induction l as [|d l IH]; intros Hin acc; [destruct Hin|].
  cbn [fold_left]. destruct Hin as [->|Hin].
  - destruct acc as [c|e]; cbn [countStep]; rewrite countStep_thrown.
    + exists "RangeError"%string. auto.
    + exists e. split; [reflexivity|]. intros c H. discriminate.
  - destruct acc as [c|e]; cbn [countStep].
    + destruct d as [t|].
      * destruct (IH Hin (Returns (bump Z.eqb c (dayOf t)))) as (e & He & Hr).
        exists e. split; [exact He|]. intros c' _. now apply (Hr _ eq_refl).
      * rewrite countStep_thrown. exists "RangeError"%string. auto.
    + rewrite countStep_thrown. exists e. split; [reflexivity|].
      intros c H. discriminate.
Qed.

Lemma insertBy_valid x l :
  insertBy before (Some x) (map Some l) = map Some (insertBy Z.ltb x l).
Proof.
  induction l as [|y l IH]; cbn [map insertBy before]; [reflexivity|].
  destruct (Z.ltb y x); cbn [map]; [now rewrite IH|reflexivity].
Qed.

Lemma sortBy_valid l :
  sortBy before (map Some l) = map Some (sortBy Z.ltb l).
Proof.
  unfold sortBy. induction l as [|x l IH]; cbn [map fold_right];
    [reflexivity|].
  now rewrite IH, insertBy_valid.
Qed.

Lemma countFold_valid l : forall c,
  fold_left countStep (map Some l) (Returns c)
  = Returns (fold_left (bump Z.eqb) (map dayOf l) c).
Proof.
  induction l as [|t l IH]; intros c; cbn [map fold_left countStep];
    [reflexivity|apply IH].
Qed.

(** When every date parses the call returns what the detector answers on
    the parsed times. *)
Lemma scorePostingFrequency_valid parse getTime profile :
  map parse (arrayOf (reviewDates profile))
  = map Some (map getTime (arrayOf (reviewDates profile))) ->
  Dates._scorePostingFrequency parse profile
  = Returns (AccountAnalyzer._scorePostingFrequency getTime profile).
Proof.
  intros H.
  unfold Dates._scorePostingFrequency, AccountAnalyzer._scorePostingFrequency.
  destruct (negb _ || _); [reflexivity|]. cbv zeta.
  rewrite H, sortBy_valid, countFold_valid, !length_map.
  unfold sortAscending.
  destruct (Nat.ltb _ _); [reflexivity|].
  destruct (gtb _ _); reflexivity.
Qed.

Lemma parsed_times (parse : string -> option Z) : forall dates times,
  map parse dates = map Some times ->
  map (fun d => match parse d with Some t => t | None => 0%Z end) dates
  = times.
Proof.
  induction dates as [|d dates IH]; intros [|t times] H; try discriminate;
    [reflexivity|].
  cbn [map] in *. injection H as Hd H. rewrite Hd. now rewrite (IH _ H).
Qed.

(** X19. For a profile with at least two review dates: when one of the
    dates does not parse, the posting-frequency detector throws a
    [RangeError]; when all of them parse, it answers 0.15, 0.3 or 0.8.  It
    answers 0.15 exactly when more than five of the dates fall on one
    calendar day, whatever the order of the dates; a detail is attached to
    0.15 and 0.3 only. *)
Theorem scorePostingFrequency_burst
  (parse : string -> option Z) (profile : fields) (dates : list string) :
  reviewDates profile = val dates ->
  (2 <= List.length dates)%nat ->
  ((exists d, In d dates /\ parse d = None) ->
   Dates._scorePostingFrequency parse profile
   = Dates.Throws "RangeError"%string)
  /\ (forall times,
        map parse dates = map Some times ->
        exists s,
          Dates._scorePostingFrequency parse profile
          = Dates.Returns (Some s)
          /\ (SignalOutput.score s = Some 0.15
              <-> exists day,
                    (5 < count_occ Z.eq_dec (map dayOf times) day)%nat)
          /\ (SignalOutput.score s = Some 0.15
              \/ SignalOutput.score s = Some 0.3
              \/ SignalOutput.score s = Some 0.8)
          /\ (SignalOutput.detail s = None
              <-> SignalOutput.score s = Some 0.8)).
Proof.
  intros Hd Hlen. split.
  - intros (d & Hin & Hp). unfold Dates._scorePostingFrequency. rewrite Hd.
    cbn [toBool truthy truthy_array negb orb arrayOf].
    assert (E : Nat.ltb (List.length dates) 2 = false)
      by (apply Nat.ltb_ge; lia).
    rewrite E. cbv zeta.
    assert (Hnone : In None (sortBy Dates.before (map parse dates))).
    { apply sortBy_In. rewrite <- Hp. now apply in_map. }
    destruct (@countFold_invalid _ Hnone (Dates.Returns [])) as (e & He & Hr).
    rewrite He. now rewrite (Hr [] eq_refl).
  - intros times Ht.
    pose proof (@parsed_times parse dates times Ht) as Hg.
    rewrite (@scorePostingFrequency_valid parse
               (fun d => match parse d with Some t => t | None => 0%Z end))
      by (rewrite Hd; cbn [arrayOf]; now rewrite Hg).
    destruct (@postingFrequency_answers
                (fun d => match parse d with Some t => t | None => 0%Z end)
                profile dates Hd Hlen) as (s & Hs & H1 & H2 & H3).
    exists s. rewrite Hs. split; [reflexivity|].
    split; [|split; assumption].
    unfold reviewDays in H1. rewrite <- (map_map _ dayOf), Hg in H1.
    exact H1.
Qed.

Lemma scorePostingFrequency_burst_witness :
  let burst := [ "1"; "22"; "333"; "4444"; "55555"; "666666" ]%string in
  let broken := [ "1"; "" ]%string in
  let profile dates :=
    {| displayName := undefined; avatarUrl := undefined; bio := undefined;
       location := undefined; accountCreated := undefined;
       firstReviewDate := undefined; totalReviews := undefined;
       helpfulVotes := undefined; ratings := undefined;
       reviewDates := val dates; reviewCategories := undefined;
       reviewDate := undefined; verifiedPurchase := undefined |} in
  ((2 <= List.length broken)%nat
   /\ (exists d, In d broken /\ parseHours d = None)
   /\ Dates._scorePostingFrequency parseHours (profile broken)
      = Dates.Throws "RangeError"%string)
  /\ ((2 <= List.length burst)%nat
      /\ map parseHours burst = map Some [3600000; 7200000; 10800000;
                                          14400000; 18000000; 21600000]%Z
      /\ exists s,
           Dates._scorePostingFrequency parseHours (profile burst)
           = Dates.Returns (Some s)
           /\ SignalOutput.score s = Some 0.15).
Proof.
  cbv zeta. split.
  - assert (Hlen : (2 <= List.length [ "1"; "" ]%string)%nat)
      by (cbn [List.length]; lia).
    assert (Hex : exists d, In d [ "1"; "" ]%string /\ parseHours d = None)
      by (exists ""%string; split; [cbn; tauto|reflexivity]).
    split; [exact Hlen|]. split; [exact Hex|].
    apply (proj1 (@scorePostingFrequency_burst parseHours
                    {| displayName := undefined; avatarUrl := undefined;
                       bio := undefined; location := undefined;
                       accountCreated := undefined;
                       firstReviewDate := undefined;
                       totalReviews := undefined; helpfulVotes := undefined;
                       ratings := undefined;
                       reviewDates := val [ "1"; "" ]%string;
                       reviewCategories := undefined; reviewDate := undefined;
                       verifiedPurchase := undefined |}
                    [ "1"; "" ]%string eq_refl Hlen) Hex).
  - assert (Hlen : (2 <= List.length
                      [ "1"; "22"; "333"; "4444"; "55555"; "666666" ]%string)%nat)
      by (cbn [List.length]; lia).
    split; [exact Hlen|]. split; [reflexivity|].
    destruct (proj2 (@scorePostingFrequency_burst parseHours
                {| displayName := undefined; avatarUrl := undefined;
                   bio := undefined; location := undefined;
                   accountCreated := undefined; firstReviewDate := undefined;
                   totalReviews := undefined; helpfulVotes := undefined;
                   ratings := undefined;
                   reviewDates :=
                     val [ "1"; "22"; "333"; "4444"; "55555"; "666666" ]%string;
                   reviewCategories := undefined; reviewDate := undefined;
                   verifiedPurchase := undefined |}
                [ "1"; "22"; "333"; "4444"; "55555"; "666666" ]%string
                eq_refl Hlen)
                [3600000; 7200000; 10800000; 14400000; 18000000; 21600000]%Z
                eq_refl)
      as (s & Hs & H15 & _).
    exists s. split; [exact Hs|].
    apply H15. exists 0%Z. vm_compute. lia.
Defined.

(** *** Review diversity *)

Lemma count_occ_two (l : list nat) r k :
  r <> k ->
  (count_occ Nat.eq_dec l r + count_occ Nat.eq_dec l k <= List.length l)%nat.
Proof.
  intros Hne. induction l as [|x l IH]; cbn [count_occ List.length]; [lia|].
  destruct (Nat.eq_dec x r), (Nat.eq_dec x k); subst;
    first [lia | congruence].
Qed.

Lemma dominant_share (l : list nat) r k :
  0.9 * ofNat (List.length l) <= ofNat (count_occ Nat.eq_dec l r) ->
  (1 <= List.length l)%nat ->
  r <> k ->
  (count_occ Nat.eq_dec l k < count_occ Nat.eq_dec l r)%nat.
Proof.
  intros H Hlen Hne. pose proof (count_occ_two l Hne) as H2.
  apply ofNat_le in H2. apply (ofNat_le 1) in Hlen.
  change (ofNat 1) with 1 in Hlen.
  apply Nat.lt_nge. intros Hle. apply ofNat_le in Hle.
  unfold ofNat in H2. rewrite Nat2Z.inj_add, inject_Z_plus in H2.
  fold (ofNat (count_occ Nat.eq_dec l r)) in H2.
  fold (ofNat (count_occ Nat.eq_dec l k)) in H2.
  fold (ofNat (List.length l)) in H2. lra.
Qed.

Lemma head_of_descending (l : list (nat * nat)) e rest :
  sortBy (fun a b => Nat.ltb (snd b) (snd a)) l = e :: rest ->
  In e l /\ forall e', In e' l -> (snd e' <= snd e)%nat.
Proof.
  intros H.
  pose proof (BatchTextAnalyzerFacts.sortBy_perm
                (fun a b => Nat.ltb (snd b) (snd a)) l) as HP.
  assert (HS : StronglySorted (fun a b : nat * nat => (snd b <= snd a)%nat)
                 (sortBy (fun a b => Nat.ltb (snd b) (snd a)) l)).
  { apply (@sortBy_sorted _ (fun a b => Nat.ltb (snd b) (snd a))
             (fun a b : nat * nat => (snd b <= snd a)%nat)); cbv beta.
    - intros a b Hab. apply Nat.ltb_lt in Hab. lia.
    - intros a b Hab. apply Nat.ltb_ge in Hab. lia.
    - intros a b c H1 H2. lia. }
  rewrite H in HP, HS. split.
  - apply (Permutation_in e HP). now left.
  - intros e' He'. apply (Permutation_in e' (Permutation_sym HP)) in He'.
    destruct He' as [<-|He']; [lia|].
    inversion HS as [|? ? _ Hall]; subst.
    rewrite Forall_forall in Hall. now apply Hall.
Qed.

(** X20. When one star rating [r] makes up at least 90% of three or more
    ratings, the diversity detector scores 0.2 and its detail names that
    rating with its share in percent; when all ratings are [r] the detail
    reads "100% of reviews are r-star". *)
Theorem scoreReviewDiversity_dominant
  (profile : fields) (rs : list nat) (r : nat) :
  ratings profile = val rs ->
  (3 <= List.length rs)%nat ->
  0.9 * ofNat (List.length rs) <= ofNat (count_occ Nat.eq_dec rs r) ->
  _scoreReviewDiversity profile
  = Some (signal 0.2
            (Some (showNat
                     (TextAnalyzer.round
                        (ofNat (count_occ Nat.eq_dec rs r)
                         / ofNat (List.length rs) * 100))
                   ++ "% of reviews are " ++ showNat r ++ "-star")%string))
  /\ (count_occ Nat.eq_dec rs r = List.length rs ->
      _scoreReviewDiversity profile
      = Some (signal 0.2
                (Some ("100% of reviews are " ++ showNat r ++ "-star")%string))).
Proof.
  intros Hr Hlen Hshare.
  assert (Hmain : _scoreReviewDiversity profile
    = Some (signal 0.2
              (Some (showNat
                       (TextAnalyzer.round
                          (ofNat (count_occ Nat.eq_dec rs r)
                           / ofNat (List.length rs) * 100))
                     ++ "% of reviews are " ++ showNat r ++ "-star")%string))).
  { unfold _scoreReviewDiversity. rewrite Hr.
    cbn [toBool truthy truthy_array negb orb arrayOf].
    assert (E : Nat.ltb (List.length rs) 3 = false)
      by (apply Nat.ltb_ge; lia).
    rewrite E. cbv zeta.
    set (counts := fold_left (bump Nat.eqb) rs []).
    assert (Hc : (1 <= count_occ Nat.eq_dec rs r)%nat).
    { apply (ofNat_le 3) in Hlen. change (ofNat 3) with 3 in Hlen.
      apply (ofNat_le 1). change (ofNat 1) with 1. lra. }
    assert (Hin : In (r, count_occ Nat.eq_dec rs r) counts)
      by (apply (@tally_entries _ _ Nat.eq_dec Nat_eqb_spec); split;
          [reflexivity|assumption]).
    assert (Hmax : maxNat (map snd counts) = count_occ Nat.eq_dec rs r).
    { apply maxNat_unique.
      - apply in_map_iff. now exists (r, count_occ Nat.eq_dec rs r).
      - apply Forall_forall. intros x Hx.
        apply in_map_iff in Hx as [[k n] [<- Hk]]. cbn [snd].
        apply (@tally_entries _ _ Nat.eq_dec Nat_eqb_spec) in Hk as [-> _].
        destruct (Nat.eq_dec r k) as [->|Hne]; [lia|].
        pose proof (@dominant_share rs r k Hshare ltac:(lia) Hne). lia. }
    rewrite Hmax.
    assert (G : geb (ofNat (count_occ Nat.eq_dec rs r)
                     / ofNat (List.length rs))
                  suspiciousPatterns.allSameRatingThreshold = true).
    { apply geb_le. unfold suspiciousPatterns.allSameRatingThreshold.
      apply Qle_shift_div_l; [|lra].
      apply (ofNat_le 3) in Hlen. change (ofNat 3) with 3 in Hlen. lra. }
    rewrite G.
    destruct (sortBy (fun a b => Nat.ltb (snd b) (snd a))
                (ratingEntries counts)) as [|[k n] rest] eqn:S.
    - exfalso.
      pose proof (BatchTextAnalyzerFacts.sortBy_perm
                    (fun a b => Nat.ltb (snd b) (snd a))
                    (ratingEntries counts)) as HP.
      rewrite S in HP. apply Permutation_nil in HP.
      unfold ratingEntries in HP.
      pose proof (BatchTextAnalyzerFacts.sortBy_perm
                    (fun a b => Nat.ltb (fst a) (fst b)) counts) as HP2.
      rewrite HP in HP2. apply Permutation_nil in HP2.
      rewrite HP2 in Hin. contradiction.
    - apply head_of_descending in S as [Hk Hall].
      assert (Hperm : forall e, In e (ratingEntries counts) <-> In e counts).
      { intros e. unfold ratingEntries. split; intros He.
        - apply (Permutation_in e
                   (BatchTextAnalyzerFacts.sortBy_perm _ counts) He).
        - apply (Permutation_in e
                   (Permutation_sym
                      (BatchTextAnalyzerFacts.sortBy_perm _ counts)) He). }
      apply Hperm in Hk.
      apply (@tally_entries _ _ Nat.eq_dec Nat_eqb_spec) in Hk as [Hn _].
      specialize (Hall (r, count_occ Nat.eq_dec rs r) (proj2 (Hperm _) Hin)).
      cbn [snd] in Hall.
      destruct (Nat.eq_dec r k) as [->|Hne]; [reflexivity|].
      pose proof (@dominant_share rs r k Hshare ltac:(lia) Hne). lia. }
  split; [exact Hmain|].
  intros Hall. rewrite Hmain, Hall.
  assert (R : TextAnalyzer.round
                (ofNat (List.length rs) / ofNat (List.length rs) * 100)
              = 100%nat).
  { unfold TextAnalyzer.round.
    assert (Q1 : ofNat (List.length rs) / ofNat (List.length rs) * 100 + 0.5
                 == inject_Z 100 + 0.5).
    { assert (N : ~ ofNat (List.length rs) == 0).
      { apply (ofNat_le 3) in Hlen. change (ofNat 3) with 3 in Hlen. lra. }
      field. exact N. }
    rewrite (Qfloor_comp _ _ Q1). reflexivity. }
  now rewrite R.
Qed.

Lemma scoreReviewDiversity_dominant_witness :
  let profile :=
    {| displayName := undefined; avatarUrl := undefined; bio := undefined;
       location := undefined; accountCreated := undefined;
       firstReviewDate := undefined; totalReviews := undefined;
       helpfulVotes := undefined; ratings := val [5; 5; 5; 5]%nat;
       reviewDates := undefined; reviewCategories := undefined;
       reviewDate := undefined; verifiedPurchase := undefined |} in
  ratings profile = val [5; 5; 5; 5]%nat
  /\ (3 <= List.length [5; 5; 5; 5]%nat)%nat
  /\ 0.9 * ofNat (List.length [5; 5; 5; 5]%nat)
     <= ofNat (count_occ Nat.eq_dec [5; 5; 5; 5]%nat 5%nat)
  /\ _scoreReviewDiversity profile
     = Some (signal 0.2 (Some "100% of reviews are 5-star"%string)).
Proof.
  cbv zeta. split; [reflexivity|]. split; [cbn [List.length]; lia|].
  assert (H : 0.9 * ofNat (List.length [5; 5; 5; 5]%nat)
              <= ofNat (count_occ Nat.eq_dec [5; 5; 5; 5]%nat 5%nat))
    by (vm_compute; discriminate).
  split; [exact H|].
  apply (@scoreReviewDiversity_dominant
           {| displayName := undefined; avatarUrl := undefined;
              bio := undefined; location := undefined;
              accountCreated := undefined; firstReviewDate := undefined;
              totalReviews := undefined; helpfulVotes := undefined;
              ratings := val [5; 5; 5; 5]%nat;
              reviewDates := undefined; reviewCategories := undefined;
              reviewDate := undefined; verifiedPurchase := undefined |}
           [5; 5; 5; 5]%nat 5%nat eq_refl
           ltac:(cbn [List.length]; lia) H).
  reflexivity.
Defined.

(** *** Timing clusters *)

Lemma chained_snoc c d :
  c <> [] -> chained c -> (d - last c 0 < dayMs)%Z -> chained (c ++ [d]).
Proof.
  induction c as [|a c IH]; [congruence|]. intros _ Hc Hd.
  destruct c as [|b c].
  - cbn [app chained last] in *. auto.
  - change ((a :: b :: c) ++ [d])%list with (a :: ((b :: c) ++ [d]))%list.
    change (chained (a :: b :: c)) with ((b - a < dayMs)%Z /\ chained (b :: c))
      in Hc.
    destruct Hc as [Hab Hc].
    change (last (a :: b :: c) 0%Z) with (last (b :: c) 0%Z) in Hd.
    assert (IH' : chained ((b :: c) ++ [d]))
      by (apply IH; [discriminate|assumption|assumption]).
    change ((b :: c) ++ [d])%list with (b :: (c ++ [d]))%list in *.
    cbn [chained]. cbn [chained] in IH'. auto.
Qed.

Lemma clusterStep_invariant clusters cur prev d processed dropped :
  cur <> [] -> last cur 0%Z = prev -> chained cur ->
  Forall (fun c => (3 <= List.length c)%nat /\ chained c) clusters ->
  Permutation (List.concat clusters ++ cur ++ dropped) processed ->
  let '(clusters', cur', prev') := clusterStep (clusters, cur, prev) d in
  cur' <> [] /\ last cur' 0%Z = prev' /\ chained cur'
  /\ Forall (fun c => (3 <= List.length c)%nat /\ chained c) clusters'
  /\ exists dropped',
       Permutation (List.concat clusters' ++ cur' ++ dropped') (processed ++ [d]).
Proof.
  intros Hne Hlast Hch Hall HP. unfold clusterStep.
  destruct (d - prev <? dayMs)%Z eqn:E.
  - apply Z.ltb_lt in E. split; [now destruct cur|].
    split; [apply last_last|].
    split; [apply chained_snoc; [assumption|assumption|now rewrite Hlast]|].
    split; [assumption|]. exists dropped.
    rewrite <- app_assoc. rewrite !app_assoc.
    rewrite <- (app_assoc (List.concat clusters ++ cur) [d] dropped).
    rewrite (Permutation_app_comm [d] dropped).
    rewrite !app_assoc. apply Permutation_app_tail.
    now rewrite <- !app_assoc.
  - destruct (Nat.leb 3 (List.length cur)) eqn:L.
    + apply Nat.leb_le in L. split; [discriminate|].
      split; [reflexivity|]. split; [exact I|].
      split; [apply Forall_app; split;
              [assumption|constructor; [now split|constructor]]|].
      exists dropped. rewrite concat_app. cbn [List.concat]. rewrite app_nil_r.
      apply Permutation_trans with (d :: processed);
        [|apply Permutation_cons_append].
      cbn [app]. apply Permutation_sym, Permutation_cons_app, Permutation_sym.
      now rewrite <- app_assoc.
    + split; [discriminate|]. split; [reflexivity|]. split; [exact I|].
      split; [assumption|]. exists (cur ++ dropped)%list.
      apply Permutation_trans with (d :: processed);
        [|apply Permutation_cons_append].
      cbn [app]. apply Permutation_sym, Permutation_cons_app, Permutation_sym.
      exact HP.
Qed.

Lemma clusterFold_invariant rest : forall clusters cur prev processed dropped,
  cur <> [] -> last cur 0%Z = prev -> chained cur ->
  Forall (fun c => (3 <= List.length c)%nat /\ chained c) clusters ->
  Permutation (List.concat clusters ++ cur ++ dropped) processed ->
  let '(clusters', cur', prev') :=
    fold_left clusterStep rest (clusters, cur, prev) in
  cur' <> [] /\ chained cur'
  /\ Forall (fun c => (3 <= List.length c)%nat /\ chained c) clusters'
  /\ exists dropped',
       Permutation (List.concat clusters' ++ cur' ++ dropped') (processed ++ rest).
Proof.
  induction rest as [|d rest IH];
    intros clusters cur prev processed dropped Hne Hlast Hch Hall HP;
    cbn [fold_left].
  - split; [assumption|]. split; [assumption|]. split; [assumption|].
    exists dropped. now rewrite app_nil_r.
  - pose proof (@clusterStep_invariant clusters cur prev d processed dropped
                  Hne Hlast Hch Hall HP) as Hstep.
    destruct (clusterStep (clusters, cur, prev) d) as [[clusters1 cur1] prev1].
    destruct Hstep as (H1 & H2 & H3 & H4 & dropped1 & H5).
    specialize (IH clusters1 cur1 prev1 (processed ++ [d])%list dropped1
                  H1 H2 H3 H4 H5).
    now rewrite <- app_assoc in IH.
Qed.

(** X21. The clusters the timing detector counts: each holds at least
    three timestamps, each less than 24 hours after the one before it, and
    the clusters are taken from the timestamps without using one twice. *)
Theorem findClusters_invariants (dates : list Z) :
  Forall (fun c => (3 <= List.length c)%nat /\ chained c) (findClusters dates)
  /\ (exists dropped,
        Permutation (List.concat (findClusters dates) ++ dropped) dates)
  /\ Forall (fun c => (List.length c <= List.length dates)%nat)
       (findClusters dates).
Proof.
  assert (H : Forall (fun c => (3 <= List.length c)%nat /\ chained c)
                (findClusters dates)
              /\ exists dropped,
                   Permutation (List.concat (findClusters dates) ++ dropped) dates).
  { unfold findClusters. destruct dates as [|d0 rest].
    - split; [constructor|]. now exists [].
    - pose proof (@clusterFold_invariant rest [] [d0] d0 [d0] []
                    ltac:(discriminate) eq_refl I (Forall_nil _)
                    (Permutation_refl _)) as Hfold.
      destruct (fold_left clusterStep rest ([], [d0], d0))
        as [[clusters cur] prev].
      destruct Hfold as (H1 & H2 & H3 & dropped & H4).
      cbn [app] in H4.
      destruct (Nat.leb 3 (List.length cur)) eqn:L.
      + apply Nat.leb_le in L. split.
        * apply Forall_app. split; [assumption|].
          constructor; [now split|constructor].
        * exists dropped. rewrite concat_app. cbn [List.concat].
          now rewrite app_nil_r, <- app_assoc.
      + split; [assumption|]. now exists (cur ++ dropped)%list. }
  destruct H as [H1 [dropped H2]].
  split; [exact H1|]. split; [now exists dropped|].
  apply Forall_forall. intros c Hc.
  apply Permutation_length in H2. rewrite length_app in H2.
  assert (Hl : (List.length c <= List.length (List.concat (findClusters dates)))%nat).
  { clear - Hc. induction (findClusters dates) as [|x l IH]; [contradiction|].
    cbn [List.concat]. rewrite length_app. destruct Hc as [->|Hc]; [lia|].
    specialize (IH Hc). lia. }
  lia.
Qed.

(** *** Accounts created together *)

Lemma sortAscending_sorted l : StronglySorted Z.le (sortAscending l).
Proof.
  unfold sortAscending.
  apply (@sortBy_sorted _ Z.ltb Z.le).
  - intros a b H. apply Z.ltb_lt in H. lia.
  - intros a b H. apply Z.ltb_ge in H. lia.
  - intros a b c H1 H2. lia.
Qed.

Lemma sortAscending_In l x : In x (sortAscending l) <-> In x l.
Proof.
  unfold sortAscending. split; intros H.
  - apply (Permutation_in x (BatchTextAnalyzerFacts.sortBy_perm Z.ltb l) H).
  - apply (Permutation_in x
             (Permutation_sym (BatchTextAnalyzerFacts.sortBy_perm Z.ltb l)) H).
Qed.

Lemma sortAscending_length l :
  List.length (sortAscending l) = List.length l.
Proof.
  apply Permutation_length, BatchTextAnalyzerFacts.sortBy_perm.
Qed.

Lemma sorted_bounds l :
  StronglySorted Z.le l -> l <> [] ->
  In (hd 0%Z l) l /\ In (last l 0%Z) l
  /\ forall x, In x l -> (hd 0%Z l <= x <= last l 0%Z)%Z.
Proof.
  induction 1 as [|a l Hs IH Hall]; [congruence|]. intros _.
  rewrite Forall_forall in Hall. cbn [hd].
  destruct l as [|b l].
  - cbn [last In]. split; [now left|]. split; [now left|].
    intros x [<-|[]]. lia.
  - destruct (IH ltac:(discriminate)) as (_ & Hlast & Hb).
    change (last (a :: b :: l) 0%Z) with (last (b :: l) 0%Z).
    split; [now left|]. split; [now right|].
    intros x [<-|Hx].
    + specialize (Hall _ Hlast). lia.
    + specialize (Hb x Hx). specialize (Hall x Hx). lia.
Qed.

(** X22. The account-age cluster detector answers once three profiles
    carry a creation date.  It answers 0.1 exactly when at least five do
    and any two of the creation dates are less than seven days apart;
    otherwise it answers 0.7. *)
Theorem detectAccountAgeCluster_same_week
  (getTime : string -> Z) (profiles : list fields) :
  let created := datesOf getTime accountCreated profiles in
  ((List.length created < 3)%nat ->
   _detectAccountAgeCluster getTime profiles = None)
  /\ ((3 <= List.length created)%nat ->
      exists s,
        _detectAccountAgeCluster getTime profiles = Some s
        /\ (SignalOutput.score s = Some 0.1
            <-> (5 <= List.length created)%nat
                /\ forall a b, In a created -> In b created ->
                               (b - a < 7 * dayMs)%Z)
        /\ (SignalOutput.score s = Some 0.1
            \/ SignalOutput.score s = Some 0.7)).
Proof.
  cbv zeta. unfold _detectAccountAgeCluster. cbv zeta.
  set (created := datesOf getTime accountCreated profiles).
  split.
  - intros H. apply Nat.ltb_lt in H. now rewrite H.
  - intros H.
    assert (E : Nat.ltb (List.length created) 3 = false)
      by (apply Nat.ltb_ge; lia).
    rewrite E. rewrite sortAscending_length.
    assert (Hne : sortAscending created <> []).
    { intros Hnil. apply (f_equal (@List.length Z)) in Hnil.
      rewrite sortAscending_length in Hnil. cbn in Hnil. lia. }
    destruct (sorted_bounds (sortAscending_sorted created) Hne)
      as (Hhd & Hlast & Hb).
    set (lo := hd 0%Z (sortAscending created)) in *.
    set (hi := last (sortAscending created) 0%Z) in *.
    assert (Hrange : (hi - lo < 7 * dayMs)%Z
                     <-> forall a b, In a created -> In b created ->
                                     (b - a < 7 * dayMs)%Z).
    { split.
      - intros Hr a b Ha Hb'.
        apply sortAscending_In in Ha, Hb'.
        pose proof (Hb a Ha). pose proof (Hb b Hb'). lia.
      - intros Hall. apply Hall; now apply sortAscending_In. }
    destruct (hi - lo <? 7 * dayMs)%Z eqn:R.
    + apply Z.ltb_lt in R.
      destruct (Nat.leb 5 (List.length created)) eqn:L; cbn [andb];
        eexists; (split; [reflexivity|]);
        cbn [signal SignalOutput.score].
      * apply Nat.leb_le in L.
        split; [|now left]. split; [intros _|reflexivity].
        split; [assumption|now apply Hrange].
      * apply Nat.leb_gt in L.
        split; [|now right]. split; [discriminate|]. intros [H5 _]. lia.
    + apply Z.ltb_ge in R. cbn [andb].
      eexists; (split; [reflexivity|]); cbn [signal SignalOutput.score].
      split; [|now right]. split; [discriminate|].
      intros [_ Hall]. apply Hrange in Hall. lia.
Qed.

Lemma detectAccountAgeCluster_same_week_witness :
  let profiles :=
    [ createdAt "1"; createdAt "22"; createdAt "333"; createdAt "4444";
      createdAt "55555" ] in
  (3 <= List.length (datesOf hours accountCreated profiles))%nat
  /\ exists s, _detectAccountAgeCluster hours profiles = Some s
               /\ SignalOutput.score s = Some 0.1.
Proof.
  cbv zeta.
  assert (H : (3 <= List.length
                     (datesOf hours accountCreated
                        [ createdAt "1"; createdAt "22"; createdAt "333";
                          createdAt "4444"; createdAt "55555" ]))%nat)
    by (vm_compute; lia).
  split; [exact H|].
  destruct (detectAccountAgeCluster_same_week hours
              [ createdAt "1"; createdAt "22"; createdAt "333";
                createdAt "4444"; createdAt "55555" ]) as [_ Hsome].
  destruct (Hsome H) as (s & Hs & Hiff & _).
  exists s. split; [exact Hs|]. apply Hiff. split; [vm_compute; lia|].
  intros a b Ha Hb. vm_compute in Ha, Hb.
  destruct Ha as [<-|[<-|[<-|[<-|[<-|[]]]]]];
    destruct Hb as [<-|[<-|[<-|[<-|[<-|[]]]]]]; vm_compute; reflexivity.
Defined.

End AccountDetectorFacts.


(** ** Which verdicts become issues *)
Module VerdictFacts.

Import JS JSFacts TrustScorer TrustScorerSpec AccountAnalyzerSpec.
Local Open Scope Q_scope.

Lemma objectIssue category name q d :
  issueOf category (name, SigObj (SignalOutput.make (Some q) d))
  = if ltb q 0.4
    then [ Issue.make category name q d (if ltb q 0.2 then high else medium) ]
    else [].
Proof. reflexivity. Qed.

(** X23. An output becomes an issue only when its score is below 0.4, so
    some verdicts never do.  The network detector never raises an issue,
    though it attaches a detail to its score of 0.4.  The timing detector
    answers 0.15 or at least 0.5, its floor of 0.3 never being reached, and
    raises an issue only with 0.15.  The sentiment detector raises an issue
    with its scores 0.15 and 0.30, never with 0.45, which carries a detail
    too. *)
Theorem verdicts_that_raise_issues :
  (forall profile,
     issueOf "account"
       ("networkConnections"%string,
        TextAnalyzer.slot (AccountAnalyzer._scoreNetworkSignals profile))
     = [])
  /\ (forall getTime profiles s,
        AccountAnalyzer._detectTimingClusters getTime profiles = Some s ->
        exists q,
          SignalOutput.score s = Some q
          /\ (q = 0.15 \/ 0.5 <= q)
          /\ (issueOf "behavioral" ("timingCluster"%string, SigObj s) <> []
              <-> q = 0.15))
  /\ (forall text,
        issueOf "text"
          ("sentimentConsistency"%string,
           SigObj (TextAnalyzer._analyzeSentiment text)) <> []
        <-> (SignalOutput.score (TextAnalyzer._analyzeSentiment text)
             = Some 0.15
             \/ SignalOutput.score (TextAnalyzer._analyzeSentiment text)
                = Some 0.30)).
Proof.
  split; [|split].
  - intros profile. unfold AccountAnalyzer._scoreNetworkSignals. cbv zeta.
    destruct (_ && AccountAnalyzer.toBool _)%bool; [|reflexivity].
    destruct (_ && _)%bool; [reflexivity|].
    destruct (gtb _ 1); reflexivity.
  - intros getTime profiles s.
    unfold AccountAnalyzer._detectTimingClusters. cbv zeta.
    destruct (Nat.ltb _ 5); [discriminate|].
    destruct (Nat.eqb _ 0).
    + intros [= <-]. exists 0.8. split; [reflexivity|].
      split; [right; discriminate|].
      split; [intros H; now elim H|discriminate].
    + destruct (gtb _ 0.5) eqn:G.
      * intros [= <-]. exists 0.15. split; [reflexivity|].
        split; [now left|]. split; [reflexivity|discriminate].
      * intros [= <-]. apply gtb_le in G.
        eexists. split; [reflexivity|].
        match goal with
        | |- context [Qmax 0.3 ?x] =>
            assert (Hq : 0.5 <= Qmax 0.3 x)
              by (apply Qle_trans with x; [lra|apply Q.le_max_r]);
            set (q := Qmax 0.3 x) in *
        end.
        split; [now right|].
        unfold AccountAnalyzer.signal. rewrite objectIssue.
        assert (L : ltb q 0.4 = false) by (apply ltb_ge; lra).
        rewrite L. split; [intros H; now elim H|].
        intros E. rewrite E in Hq. exfalso. lra.
  - intros text. unfold TextAnalyzer._analyzeSentiment. cbv zeta.
    repeat match goal with
           | |- context [if ?c then _ else _] => destruct c
           end;
      unfold TextAnalyzer.signal; rewrite objectIssue;
      cbn [SignalOutput.score];
      (split; [intros H|intros [H|H]]);
      first [ discriminate H | now left | now right | now elim H
            | discriminate ].
Qed.

Lemma verdicts_that_raise_issues_witness :
  let profiles :=
    [ reviewedAt "1"; reviewedAt "22"; reviewedAt "333"; reviewedAt "4444";
      reviewedAt "55555" ] in
  exists s,
    AccountAnalyzer._detectTimingClusters hours profiles = Some s
    /\ exists q, SignalOutput.score s = Some q /\ (q = 0.15 \/ 0.5 <= q).
Proof.
  cbv zeta.
  destruct verdicts_that_raise_issues as (_ & Htiming & _).
  destruct (AccountAnalyzer._detectTimingClusters hours
              [ reviewedAt "1"; reviewedAt "22"; reviewedAt "333";
                reviewedAt "4444"; reviewedAt "55555" ]) as [s|] eqn:E;
    [|vm_compute in E; discriminate].
  exists s. split; [reflexivity|].
  destruct (Htiming hours _ s E) as (q & Hq & Hb & _).
  exists q. now split.
Defined.

End VerdictFacts.


(** ** The Amazon content script *)
Module AmazonFacts.

Import JS JSFacts TrustScorer TrustScorerSpec TrustScorerFacts AggregatorTerms
  AggregatorFacts AccountAnalyzer AccountAnalyzerSpec DetectorTerms
  AmazonScript.
Local Open Scope Q_scope.

(** *** Averaging the signals of the reviews *)

Lemma get_set {A : Type} (o : list (string * A)) k v k' :
  get (set o k v) k' = if String.eqb k k' then Some v else get o k'.
Proof.
  induction o as [|[k1 v1] o IH]; cbn [set get].
  - destruct (String.eqb k k'); reflexivity.
  - destruct (String.eqb k1 k) eqn:E1; cbn [get].
    + apply String.eqb_eq in E1. subst k1.
      destruct (String.eqb k k'); reflexivity.
    + rewrite IH. destruct (String.eqb k1 k') eqn:E2; [|reflexivity].
      apply String.eqb_eq in E2. subst k1.
      now rewrite String.eqb_sym, E1.
Qed.

Lemma set_keys {A : Type} (o : list (string * A)) k v k' :
  In k' (map fst (set o k v)) <-> k' = k \/ In k' (map fst o).
Proof.
  induction o as [|[k1 v1] o IH]; cbn [set map fst In].
  - intuition.
  - destruct (String.eqb k1 k) eqn:E; cbn [map fst In].
    + apply String.eqb_eq in E. subst. intuition.
    + rewrite IH. intuition.
Qed.

Lemma set_NoDup {A : Type} (o : list (string * A)) k v :
  NoDup (map fst o) -> NoDup (map fst (set o k v)).
Proof.
  induction o as [|[k1 v1] o IH]; cbn [set map fst]; intros H.
  - repeat constructor. auto.
  - inversion H as [|? ? Hnotin Hnd]; subst.
    destruct (String.eqb k1 k) eqn:E; cbn [map fst].
    + constructor; assumption.
    + constructor; [|auto]. rewrite set_keys. intros [->|Hin].
      * now rewrite String.eqb_refl in E.
      * contradiction.
Qed.

Lemma get_keys {A : Type} (o : list (string * A)) k :
  In k (map fst o) <-> get o k <> None.
Proof.
  induction o as [|[k1 v1] o IH]; cbn [map fst In get]; [intuition|].
  destruct (String.eqb k1 k) eqn:E.
  - apply String.eqb_eq in E. split; [discriminate|now left].
  - rewrite <- IH. apply String.eqb_neq in E. intuition.
Qed.

Lemma In_get {A : Type} (o : list (string * A)) k v :
  NoDup (map fst o) -> In (k, v) o -> get o k = Some v.
Proof.
  induction o as [|[k1 v1] o IH]; cbn [map fst In get]; intros H; [tauto|].
  inversion H as [|? ? Hnotin Hnd]; subst.
  intros [[= -> ->]|Hin].
  - now rewrite String.eqb_refl.
  - destruct (String.eqb k1 k) eqn:E; [|now apply IH].
    apply String.eqb_eq in E. subst k1. elim Hnotin.
    apply (in_map fst) in Hin. exact Hin.
Qed.

Lemma aggregateStep_keyState st e k :
  keyState (aggregateStep st e) k
  = if String.eqb (fst e) k
    then match normalizedValue (snd e) with
         | Some v => keyStep (keyState st k) v
         | None => keyState st k
         end
    else keyState st k.
Proof.
  destruct e as [key value]. cbn [fst snd].
  assert (Hnull : normalizedValue value = None ->
                  aggregateStep st (key, value) = st).
  { intros H. unfold aggregateStep. destruct value; cbn in H |- *;
      try reflexivity; try discriminate. now rewrite H. }
  destruct (normalizedValue value) as [v|] eqn:Hv;
    [|rewrite (Hnull eq_refl); now destruct (String.eqb key k)].
  assert (Hstep : aggregateStep st (key, value)
    = let (aggregated, counts) := st in
      let (aggregated, counts) :=
        if unset (get aggregated key)
        then (set aggregated key 0, set counts key 0%nat)
        else (aggregated, counts) in
      (set aggregated key (sumOr0 aggregated key + v),
       set counts key (S (countOr0 counts key)))).
  { unfold aggregateStep. destruct value; cbn in Hv |- *;
      try discriminate; now rewrite ?Hv; try (injection Hv as ->). }
  rewrite Hstep. clear Hstep Hnull. destruct st as [agg cnt].
  unfold keyState, keyStep. cbn [fst snd].
  destruct (String.eqb key k) eqn:E.
  - apply String.eqb_eq in E. subst k.
    destruct (get agg key) as [a|] eqn:Ha; cbn [unset].
    + destruct (Qeq_bool a 0) eqn:Z0; cbn [fst snd].
      * unfold sumOr0, countOr0.
        rewrite !get_set, !String.eqb_refl. reflexivity.
      * unfold sumOr0, countOr0 at 1.
        rewrite !get_set, !String.eqb_refl, Ha. reflexivity.
    + cbn [fst snd]. unfold sumOr0, countOr0.
      rewrite !get_set, !String.eqb_refl. reflexivity.
  - destruct (unset (get agg key)); cbn [fst snd];
      unfold countOr0; rewrite !get_set, !E; reflexivity.
Qed.

Lemma fold_concat {A B : Type} (f : A -> B -> A) (ls : list (list B)) :
  forall a,
    fold_left (fun st l => fold_left f l st) ls a
    = fold_left f (List.concat ls) a.
Proof.
  induction ls as [|l ls IH]; intros a; cbn [fold_left List.concat];
    [reflexivity|].
  now rewrite fold_left_app, IH.
Qed.

Lemma aggregateFold_keyState k es : forall st,
  keyState (fold_left aggregateStep es st) k
  = fold_left keyStep
      (flat_map (fun e => if String.eqb (fst e) k
                          then match normalizedValue (snd e) with
                               | Some v => [v]
                               | None => []
                               end
                          else []) es)
      (keyState st k).
Proof.
  induction es as [|e es IH]; intros st; cbn [fold_left flat_map];
    [reflexivity|].
  rewrite fold_left_app, IH, aggregateStep_keyState.
  destruct (String.eqb (fst e) k); [|reflexivity].
  destruct (normalizedValue (snd e)); reflexivity.
Qed.

Lemma aggregateStep_NoDup st e :
  NoDup (map fst (fst st)) -> NoDup (map fst (fst (aggregateStep st e))).
Proof.
  destruct e as [key value]. destruct st as [agg cnt]. cbn [fst].
  intros H. unfold aggregateStep.
  destruct value as [|q|o]; [assumption| |].
  - cbn [normalizedValue].
    destruct (unset (get agg key)); cbn [fst]; repeat apply set_NoDup;
      assumption.
  - cbn [normalizedValue]. destruct (SignalOutput.score o); [|assumption].
    destruct (unset (get agg key)); cbn [fst]; repeat apply set_NoDup;
      assumption.
Qed.

Lemma aggregateFold_NoDup es : forall st,
  NoDup (map fst (fst st)) ->
  NoDup (map fst (fst (fold_left aggregateStep es st))).
Proof.
  induction es as [|e es IH]; intros st H; cbn [fold_left]; [assumption|].
  apply IH. now apply aggregateStep_NoDup.
Qed.

(** The state of the two objects when the loops are done. *)
Lemma aggregate_final arrays :
  let st := fold_left aggregateStep (List.concat arrays) ([], []) in
  _aggregateSignals arrays
  = map (fun e =>
           (fst e,
            SigObj (SignalOutput.make
                      (Some (snd e / ofNat (countOr0 (snd st) (fst e)))) None)))
      (fst st)
  /\ NoDup (map fst (fst st))
  /\ forall k, keyState st k = fold_left keyStep (scoresFor k arrays) None.
Proof.
  cbv zeta. split; [|split].
  - unfold _aggregateSignals. rewrite fold_concat.
    now destruct (fold_left aggregateStep (List.concat arrays) ([], [])).
  - apply aggregateFold_NoDup. constructor.
  - intros k. now rewrite aggregateFold_keyState.
Qed.

Lemma keyStep_fold_Some vs : forall st,
  vs <> [] -> fold_left keyStep vs st <> None.
Proof.
  induction vs as [|v vs IH]; intros st H; [congruence|].
  cbn [fold_left]. destruct vs as [|v' vs].
  - cbn [fold_left]. unfold keyStep.
    destruct st as [[a c]|]; [destruct (Qeq_bool a 0)|]; discriminate.
  - apply IH. discriminate.
Qed.

Lemma keyStep_fold_unit vs :
  Forall (fun v => 0 <= v <= 1) vs ->
  forall st,
    match st with
    | Some (a, c) => 0 <= a <= ofNat c /\ (1 <= c)%nat
    | None => True
    end ->
    match fold_left keyStep vs st with
    | Some (a, c) => 0 <= a <= ofNat c /\ (1 <= c)%nat
    | None => True
    end.
Proof.
  induction 1 as [|v vs Hv _ IH]; intros st Hst; cbn [fold_left];
    [assumption|].
  apply IH. unfold keyStep.
  assert (H1 : 0 <= 0 + v <= ofNat 1 /\ (1 <= 1)%nat)
    by (change (ofNat 1) with 1; split; [lra|lia]).
  destruct st as [[a c]|]; [|exact H1].
  destruct (Qeq_bool a 0); [exact H1|].
  destruct Hst as [Ha Hc]. split; [|lia].
  unfold ofNat in *. rewrite Nat2Z.inj_succ, <- Z.add_1_r, inject_Z_plus.
  change (inject_Z 1) with 1. lra.
Qed.

Lemma scoresFor_unit k arrays :
  Forall groupInUnit arrays -> Forall (fun v => 0 <= v <= 1) (scoresFor k arrays).
Proof.
  intros H. unfold scoresFor. apply Forall_flat_map.
  apply Forall_forall. intros e He.
  assert (Hg : forall v, normalizedValue (snd e) = Some v -> 0 <= v <= 1).
  { apply in_concat in He as (g & Hg & He).
    rewrite Forall_forall in H. specialize (H g Hg).
    unfold groupInUnit in H. rewrite Forall_forall in H. now apply H. }
  destruct (String.eqb (fst e) k); [|constructor].
  destruct (normalizedValue (snd e)) as [v|]; [|constructor].
  constructor; [now apply Hg|constructor].
Qed.

(** X24. What [_aggregateSignals] returns: one entry for each key that
    holds a score in some object, each key once, every entry an output with
    a score and no detail.  When the scores handed in lie between 0 and 1,
    so do the scores handed out. *)
Theorem aggregateSignals_shape (arrays : list signalGroup) :
  let r := _aggregateSignals arrays in
  NoDup (map fst r)
  /\ (forall k, In k (map fst r) <-> scoresFor k arrays <> [])
  /\ Forall (fun e => exists q,
               snd e = SigObj (SignalOutput.make (Some q) None)) r
  /\ (Forall groupInUnit arrays -> groupInUnit r).
Proof.
  cbv zeta. destruct (aggregate_final arrays) as (Hr & Hnd & Hk).
  set (st := fold_left aggregateStep (List.concat arrays) ([], [])) in *.
  assert (Hkeys : map fst (_aggregateSignals arrays) = map fst (fst st))
    by (rewrite Hr, map_map; reflexivity).
  split; [now rewrite Hkeys|]. split; [|split].
  - intros k. rewrite Hkeys, get_keys.
    specialize (Hk k). unfold keyState in Hk. split.
    + intros Hget Hnil. rewrite Hnil in Hk. cbn [fold_left] in Hk.
      destruct (get (fst st) k); [discriminate|congruence].
    + intros Hne Hget. rewrite Hget in Hk.
      symmetry in Hk. revert Hk. now apply keyStep_fold_Some.
  - rewrite Hr. apply Forall_forall. intros e He.
    apply in_map_iff in He as [[k a] [<- _]]. cbn [snd]. eauto.
  - intros Hunit. rewrite Hr. unfold groupInUnit.
    apply Forall_forall. intros e He.
    apply in_map_iff in He as [[k a] [<- Hin]]. cbn [fst snd normalizedValue].
    cbn [SignalOutput.score]. intros v [= <-].
    pose proof (@In_get _ _ _ _ Hnd Hin) as Hget.
    pose proof (keyStep_fold_unit (scoresFor_unit k Hunit) None I) as Hinv.
    rewrite <- Hk in Hinv. unfold keyState in Hinv. rewrite Hget in Hinv.
    destruct Hinv as [Ha Hc].
    apply ratio_in_unit; [assumption|].
    apply (ofNat_le 1) in Hc. change (ofNat 1) with 1 in Hc. lra.
Qed.

Lemma aggregateSignals_shape_witness :
  let arrays :=
    [ [ ("aiDetection"%string, SigNum 0.8);
        ("templateMatching"%string, SigNull) ];
      [ ("aiDetection"%string, SigNum 0.4);
        ("templateMatching"%string, SigNum 1) ] ] in
  Forall groupInUnit arrays
  /\ groupInUnit (_aggregateSignals arrays)
  /\ map fst (_aggregateSignals arrays)
     = [ "aiDetection"; "templateMatching" ]%string.
Proof.
  cbv zeta.
  assert (H : Forall groupInUnit
                [ [ ("aiDetection"%string, SigNum 0.8);
                    ("templateMatching"%string, SigNull) ];
                  [ ("aiDetection"%string, SigNum 0.4);
                    ("templateMatching"%string, SigNum 1) ] ]).
  { unfold groupInUnit.
    repeat first [apply Forall_nil | apply Forall_cons | progress cbn [snd]];
      cbn [normalizedValue]; intros v Hv; try discriminate;
      injection Hv as <-; split; discriminate. }
  split; [exact H|]. split; [|reflexivity].
  destruct (aggregateSignals_shape
              [ [ ("aiDetection"%string, SigNum 0.8);
                  ("templateMatching"%string, SigNull) ];
                [ ("aiDetection"%string, SigNum 0.4);
                  ("templateMatching"%string, SigNum 1) ] ])
    as (_ & _ & _ & Hu).
  exact (Hu H).
Defined.

(** *** The average and the zero scores *)







(** *** The rating histogram *)

(** X26. The rating-distribution detector answers once the histogram has
    three rows.  It raises an issue exactly when more than 90% of the
    ratings are five stars with under 5% in the middle, or more than 50% are
    five stars with more than 25% one star and under 15% in the middle; its
    verdict of 0.4 carries a detail but raises none.  A histogram with at
    most 50% five stars scores 0.8. *)
Theorem analyzeRatingDistribution_issues (histogram : list (Z * Z)) :
  let five := pct histogram 5 in
  let one := pct histogram 1 in
  let middle := (pct histogram 2 + pct histogram 3 + pct histogram 4)%Z in
  ((List.length histogram < 3)%nat ->
   _analyzeRatingDistribution histogram = None)
  /\ ((3 <= List.length histogram)%nat ->
      exists s,
        _analyzeRatingDistribution histogram = Some s
        /\ (issueOf "behavioral" ("ratingDistribution"%string, SigObj s) <> []
            <-> ((90 < five /\ middle < 5)
                 \/ (50 < five /\ 25 < one /\ middle < 15))%Z)
        /\ ((five <= 50)%Z -> s = signal 0.8 None)).
Proof.
  cbv zeta. unfold _analyzeRatingDistribution. cbv zeta. split.
  - intros H. apply Nat.ltb_lt in H. now rewrite H.
  - intros H.
    assert (E : Nat.ltb (List.length histogram) 3 = false)
      by (apply Nat.ltb_ge; lia).
    rewrite E.
    set (five := pct histogram 5).
    set (one := pct histogram 1).
    set (middle := (pct histogram 2 + pct histogram 3 + pct histogram 4)%Z).
    assert (A : ((90 <? five)%Z && (middle <? 5)%Z = true
                 <-> (90 < five /\ middle < 5)%Z)%bool)
      by (rewrite andb_true_iff, !Z.ltb_lt; tauto).
    assert (B : ((80 <? five)%Z && (one <? 2)%Z = true
                 <-> (80 < five /\ one < 2)%Z)%bool)
      by (rewrite andb_true_iff, !Z.ltb_lt; tauto).
    assert (C : ((50 <? five)%Z && (25 <? one)%Z && (middle <? 15)%Z = true
                 <-> (50 < five /\ 25 < one /\ middle < 15)%Z)%bool)
      by (rewrite !andb_true_iff, !Z.ltb_lt; tauto).
    destruct ((90 <? five)%Z && (middle <? 5)%Z)%bool.
    { eexists. split; [reflexivity|]. unfold signal.
      rewrite VerdictFacts.objectIssue.
      pose proof (proj1 A eq_refl).
      split; [split; [intros _; now left|discriminate]|intros; exfalso; lia]. }
    assert (A' : ~ (90 < five /\ middle < 5)%Z)
      by (intros H'; apply A in H'; discriminate).
    destruct ((80 <? five)%Z && (one <? 2)%Z)%bool.
    { eexists. split; [reflexivity|]. unfold signal.
      rewrite VerdictFacts.objectIssue.
      pose proof (proj1 B eq_refl).
      split; [split; [intros Hi; now elim Hi|intros [Hc|Hc]; exfalso; lia]
             |intros; exfalso; lia]. }
    destruct ((50 <? five)%Z && (25 <? one)%Z && (middle <? 15)%Z)%bool.
    { eexists. split; [reflexivity|]. unfold signal.
      rewrite VerdictFacts.objectIssue.
      pose proof (proj1 C eq_refl).
      split; [split; [intros _; now right|discriminate]|intros; exfalso; lia]. }
    assert (C' : ~ (50 < five /\ 25 < one /\ middle < 15)%Z)
      by (intros H'; apply C in H'; discriminate).
    eexists. split; [reflexivity|]. unfold signal.
    rewrite VerdictFacts.objectIssue.
    split; [split; [intros Hi; now elim Hi|tauto]|reflexivity].
Qed.

Lemma analyzeRatingDistribution_issues_witness :
  (3 <= List.length [(5, 85); (4, 10); (1, 1)]%Z)%nat
  /\ _analyzeRatingDistribution [(5, 85); (4, 10); (1, 1)]%Z
     = Some (signal 0.4 (Some "Unusually concentrated positive ratings"%string))
  /\ issueOf "behavioral"
       ("ratingDistribution"%string,
        TextAnalyzer.slot
          (_analyzeRatingDistribution [(5, 85); (4, 10); (1, 1)]%Z))
     = [].
Proof.
  assert (H : (3 <= List.length [(5, 85); (4, 10); (1, 1)]%Z)%nat)
    by (cbn [List.length]; lia).
  split; [exact H|]. split; [reflexivity|].
  destruct (analyzeRatingDistribution_issues [(5, 85); (4, 10); (1, 1)]%Z)
    as [_ Hsome].
  destruct (Hsome H) as (s & Hs & Hiff & _).
  rewrite Hs. cbn [TextAnalyzer.slot].
  destruct (issueOf "behavioral" ("ratingDistribution"%string, SigObj s))
    as [|i l] eqn:E; [reflexivity|].
  exfalso.
  assert (Hne : i :: l <> []) by discriminate.
  apply Hiff in Hne. vm_compute in Hne.
  destruct Hne as [[Ha _]|[_ [Hb _]]]; discriminate.
Defined.

(** *** A review loaded later *)

Lemma truthy_count h : truthy (ofNat h) = negb (Nat.eqb h 0).
Proof.
  destruct h as [|h]; [reflexivity|]. cbn [Nat.eqb negb].
  unfold truthy, truthy_number.
  destruct (Qeq_bool (ofNat (S h)) 0) eqn:E; [|reflexivity].
  apply Qeq_bool_eq in E.
  pose proof (proj2 (ofNat_le 1 (S h)) ltac:(lia)) as H.
  change (ofNat 1) with 1 in H. lra.
Qed.

Lemma scraped_account now getTime name verified helpful date rating :
  accountEntries
    (analyze now getTime (scrapedProfile name verified helpful date rating))
  = [ ("accountAge"%string, SigNull);
      ("postingFrequency"%string, SigNull);
      ("reviewDiversity"%string, SigNull);
      ("profileCompleteness"%string,
       SigObj
         (if match name with
             | Some s => negb (String.eqb s "")
             | None => false
             end && negb (Nat.eqb helpful 0)
          then signal 0.5 None
          else signal 0.3 (Some "Minimal profile information"%string)));
      ("networkConnections"%string, SigNull) ].
Proof.
  unfold accountEntries, analyze.
  cbn [accountAge postingFrequency reviewDiversity profileCompleteness
       networkConnections].
  assert (A : _scoreAccountAge now getTime
                (scrapedProfile name verified helpful date rating) = None)
    by reflexivity.
  assert (P : _scorePostingFrequency getTime
                (scrapedProfile name verified helpful date rating) = None)
    by reflexivity.
  assert (D : _scoreReviewDiversity
                (scrapedProfile name verified helpful date rating) = None)
    by (destruct rating; reflexivity).
  assert (N : _scoreNetworkSignals
                (scrapedProfile name verified helpful date rating) = None).
  { unfold _scoreNetworkSignals, scrapedProfile, ReviewerProfile.
    cbn [helpfulVotes totalReviews]. cbv zeta.
    cbn [or toBool]. now rewrite andb_false_r. }
  rewrite A, P, D, N, AccountAnalyzerFacts.scoreProfileCompleteness_spec.
  assert (C : presentFields (scrapedProfile name verified helpful date rating)
              = ((if match name with
                     | Some s => negb (String.eqb s "")
                     | None => false
                     end then 1 else 0)
                 + (if negb (Nat.eqb helpful 0) then 1 else 0))%nat).
  { unfold presentFields, scrapedProfile, ReviewerProfile.
    cbn [displayName avatarUrl bio location helpfulVotes totalReviews].
    rewrite !AccountAnalyzerFacts.toBool_or_null. cbn [toBool].
    rewrite truthy_count.
    destruct name as [s|]; cbn [toBool].
    - unfold truthy at 1, truthy_string.
      destruct (negb (String.eqb s "")), (negb (Nat.eqb helpful 0));
        reflexivity.
    - destruct (negb (Nat.eqb helpful 0)); reflexivity. }
  rewrite C.
  destruct (match name with
            | Some s => negb (String.eqb s "")
            | None => false
            end), (negb (Nat.eqb helpful 0)); reflexivity.
Qed.

Lemma scored_contributes s :
  TextAnalyzerSpec.scored s -> contributes (SigObj s) = true.
Proof. intros (q & Hq & _). unfold contributes. cbn. now rewrite Hq. Qed.

Lemma scored_slot_unit (name : string) s :
  TextAnalyzerSpec.scored s ->
  forall v, normalizedValue (snd (name, SigObj s)) = Some v -> 0 <= v <= 1.
Proof.
  intros (q & Hq & Hb) v. cbn [snd normalizedValue]. rewrite Hq.
  now intros [= <-].
Qed.

Lemma text_entries text :
  countOf (TextAnalyzer.entries (TextAnalyzer.analyze text))
  = (if Nat.ltb (String.length text) 20 then 0 else 5)%nat
  /\ groupInUnit (TextAnalyzer.entries (TextAnalyzer.analyze text)).
Proof.
  unfold TextAnalyzer.analyze.
  destruct (Nat.ltb (String.length text) 20).
  - split; [reflexivity|].
    unfold groupInUnit, TextAnalyzer.entries.
    repeat (apply Forall_cons; [intros v; discriminate|]). constructor.
  - cbv zeta. set (n := Str.trim (Str.toLowerCase text)).
    pose proof (TextAnalyzerFacts.detectAIPatterns_scored n) as H1.
    pose proof (TextAnalyzerFacts.analyzeRepetition_scored n) as H2.
    pose proof (TextAnalyzerFacts.analyzeSentiment_scored n) as H3.
    pose proof (TextAnalyzerFacts.analyzeVocabulary_scored n) as H4.
    pose proof (TextAnalyzerFacts.detectTemplates_scored n) as H5.
    unfold TextAnalyzer.entries.
    cbn [TextAnalyzer.aiDetection TextAnalyzer.repetitionPattern
         TextAnalyzer.sentimentConsistency
         TextAnalyzer.vocabularyDistribution TextAnalyzer.templateMatching
         TextAnalyzer.slot].
    split.
    + unfold countOf. cbn [filter snd].
      rewrite (scored_contributes H1), (scored_contributes H2),
        (scored_contributes H3), (scored_contributes H4),
        (scored_contributes H5). reflexivity.
    + unfold groupInUnit.
      repeat (apply Forall_cons; [now apply scored_slot_unit|]). constructor.
Qed.

Lemma account_entries_unit now getTime name verified helpful date rating :
  countOf (accountEntries
             (analyze now getTime
                (scrapedProfile name verified helpful date rating))) = 1%nat
  /\ groupInUnit
       (accountEntries
          (analyze now getTime
             (scrapedProfile name verified helpful date rating))).
Proof.
  rewrite scraped_account.
  destruct (_ && _)%bool; (split; [reflexivity|]);
    unfold groupInUnit;
    repeat (apply Forall_cons;
            [cbn [snd normalizedValue signal SignalOutput.score];
             intros v Hv; first [discriminate Hv
                                | injection Hv as <-; split; discriminate]|]);
    constructor.
Qed.

(** X27. A review the Amazon script loads later is scored on its text and
    on the little the review card says of the reviewer.  Of the five account
    signals only the profile completeness is there: 0.5 when the card names
    the reviewer and counts a helpful vote, else 0.3 with "Minimal profile
    information".  So a review of fewer than 20 characters counts one signal
    and is [INSUFFICIENT_DATA]; a longer one counts six, is never
    [INSUFFICIENT_DATA], and gets a score between 0 and 1. *)
Theorem analyzeNewReview_signals
  (now : Z) (getTime : string -> Z) (name : option string) (verified : bool)
  (helpful : nat) (date : option string) (rating : option nat)
  (body : string) :
  let reviewer := scrapedProfile name verified helpful date rating in
  let r := analyzeNewReview now getTime {| text := body; profile := reviewer |} in
  accountEntries (analyze now getTime reviewer)
  = [ ("accountAge"%string, SigNull);
      ("postingFrequency"%string, SigNull);
      ("reviewDiversity"%string, SigNull);
      ("profileCompleteness"%string,
       SigObj
         (if match name with
             | Some s => negb (String.eqb s "")
             | None => false
             end && negb (Nat.eqb helpful 0)
          then signal 0.5 None
          else signal 0.3 (Some "Minimal profile information"%string)));
      ("networkConnections"%string, SigNull) ]
  /\ ((String.length body < 20)%nat ->
      TrustResult.level r = INSUFFICIENT_DATA
      /\ TrustResult.score r = None
      /\ TrustResult.signalCount r = 1%nat)
  /\ ((20 <= String.length body)%nat ->
      TrustResult.level r <> INSUFFICIENT_DATA
      /\ TrustResult.signalCount r = 6%nat
      /\ exists q, TrustResult.score r = Some q /\ 0 <= q <= 1).
Proof.
  cbv zeta. split; [apply scraped_account|].
  unfold analyzeNewReview. cbn [text profile].
  set (b := [ ("text"%string,
               TextAnalyzer.entries (TextAnalyzer.analyze body));
              ("account"%string,
               accountEntries
                 (analyze now getTime
                    (scrapedProfile name verified helpful date rating)));
              ("behavioral"%string, []) ]).
  destruct (text_entries body) as [Ht Htu].
  destruct (account_entries_unit now getTime name verified helpful date rating)
    as [Ha Hau].
  assert (Hn : signalsOf b
               = (if Nat.ltb (String.length body) 20 then 1 else 6)%nat).
  { unfold signalsOf, b. cbn [fold_right]. unfold entryCount. cbn [fst snd].
    change (get weights "text") with (Some textWeights).
    assert (W : exists w, get weights "account" = Some w)
      by (eexists; reflexivity).
    destruct W as [w ->].
    assert (W : exists w, get weights "behavioral" = Some w)
      by (eexists; reflexivity).
    destruct W as [w' ->].
    rewrite Ht, Ha. destruct (Nat.ltb (String.length body) 20); reflexivity. }
  assert (Hu : bundleInUnit b).
  { unfold bundleInUnit, b.
    repeat (apply Forall_cons; [cbn [snd]; assumption|]).
    apply Forall_cons; [constructor|constructor]. }
  split.
  - intros Hlen. apply Nat.ltb_lt in Hlen. rewrite Hlen in Hn.
    assert (E : ltb (ofNat (signalsOf b)) (minSignalsRequired defaultConfig)
                = true) by (rewrite Hn; reflexivity).
    rewrite (computeScore_short defaultConfig b E).
    cbn [TrustResult.level TrustResult.score TrustResult.signalCount].
    now rewrite Hn.
  - intros Hlen. apply Nat.ltb_ge in Hlen. rewrite Hlen in Hn.
    assert (E : ltb (ofNat (signalsOf b)) (minSignalsRequired defaultConfig)
                = false) by (rewrite Hn; reflexivity).
    rewrite (computeScore_enough defaultConfig b E). cbv zeta.
    cbn [TrustResult.level TrustResult.score TrustResult.signalCount].
    split; [apply getTrustLevel_sufficient|]. split; [exact Hn|].
    eexists. split; [reflexivity|].
    apply finalScoreOf_in_unit, details_in_unit; [assumption|constructor].
Qed.

Lemma analyzeNewReview_signals_witness :
  let reviewer := scrapedProfile (Some "Pat"%string) true 0 None (Some 5%nat) in
  let r :=
    analyzeNewReview 0 hours
      {| text := "Stopped working after two days."; profile := reviewer |} in
  (20 <= String.length "Stopped working after two days.")%nat
  /\ TrustResult.level r <> INSUFFICIENT_DATA
  /\ TrustResult.signalCount r = 6%nat
  /\ In (Issue.make "account" "profileCompleteness" 0.3
           (Some "Minimal profile information"%string) medium)
        (TrustResult.issues r).
Proof.
  cbv zeta.
  assert (H : (20 <= String.length "Stopped working after two days.")%nat)
    by (cbn [String.length]; lia).
  split; [exact H|].
  destruct (analyzeNewReview_signals 0 hours (Some "Pat"%string) true 0 None
              (Some 5%nat) "Stopped working after two days.")
    as (_ & _ & Hlong).
  destruct (Hlong H) as (Hlv & Hn & _).
  split; [exact Hlv|]. split; [exact Hn|].
  vm_compute. tauto.
Defined.

(** *** Every score of a page *)

Lemma computeScore_wellScored b :
  bundleInUnit b -> wellScored (computeScore defaultConfig b).
Proof.
  intros Hu. unfold wellScored.
  destruct (ltb (ofNat (signalsOf b)) (minSignalsRequired defaultConfig)) eqn:E.
  - rewrite (computeScore_short defaultConfig b E).
    cbn [TrustResult.score TrustResult.level TrustResult.confidence].
    split; [reflexivity|split; discriminate].
  - rewrite (computeScore_enough defaultConfig b E). cbv zeta.
    cbn [TrustResult.score TrustResult.level TrustResult.confidence].
    split.
    + split; [|apply getTrustLevel_sufficient].
      apply finalScoreOf_in_unit, details_in_unit; [assumption|constructor].
    + unfold confidenceOf. cbn [confidenceDecay defaultConfig].
      pose proof (coverage_in_unit (signalsOf b)) as Hc.
      set (x := Qmin 1 _) in *. lra.
Qed.

Lemma slot_unit (name : string) (o : option SignalOutput.t) :
  TextAnalyzerSpec.slotInUnit o ->
  forall v, normalizedValue (snd (name, TextAnalyzer.slot o)) = Some v ->
            0 <= v <= 1.
Proof.
  unfold TextAnalyzerSpec.slotInUnit, TextAnalyzerSpec.inUnit.
  destruct o as [s|]; cbn [snd TextAnalyzer.slot normalizedValue];
    [|discriminate].
  intros H v Hv. now rewrite Hv in H.
Qed.

Lemma signal_unit q d :
  0 <= q <= 1 -> TextAnalyzerSpec.slotInUnit (Some (signal q d)).
Proof. intros H. exact H. Qed.

Lemma Qdiv_nonneg a b : 0 <= a -> 0 <= b -> 0 <= a / b.
Proof.
  intros Ha Hb. unfold Qdiv. apply Qmult_le_0_compat; [assumption|].
  now apply Qinv_le_0_compat.
Qed.

Lemma scoreAccountAge_unit now getTime p :
  TextAnalyzerSpec.slotInUnit (_scoreAccountAge now getTime p).
Proof.
  unfold _scoreAccountAge.
  destruct (_ && _)%bool; [exact I|].
  destruct (or _ _); try exact I.
  cbv zeta. destruct (ltb _ 7); [split; discriminate|].
  destruct (ltb _ 30); [split; discriminate|].
  destruct (ltb _ 90); split; discriminate.
Qed.

Lemma scorePostingFrequency_unit getTime p :
  TextAnalyzerSpec.slotInUnit (_scorePostingFrequency getTime p).
Proof.
  unfold _scorePostingFrequency.
  destruct (_ || _)%bool; [exact I|]. cbv zeta.
  destruct (Nat.ltb _ _); [split; discriminate|].
  destruct (gtb _ _); split; discriminate.
Qed.

Lemma scoreReviewDiversity_unit p :
  TextAnalyzerSpec.slotInUnit (_scoreReviewDiversity p).
Proof.
  unfold _scoreReviewDiversity.
  destruct (_ || _)%bool; [exact I|]. cbv zeta.
  destruct (geb _ _); [split; discriminate|].
  match goal with
  | |- context [if ?c then _ else _] => destruct c
  end; [split; discriminate|].
  apply signal_unit. split.
  - apply Qle_trans with 0.4; [discriminate|apply Q.le_max_l].
  - apply Q.max_lub; [discriminate|apply Q.le_min_l].
Qed.

Lemma scoreProfileCompleteness_unit p :
  TextAnalyzerSpec.slotInUnit (_scoreProfileCompleteness p).
Proof.
  rewrite AccountAnalyzerFacts.scoreProfileCompleteness_spec.
  destruct (Nat.ltb _ 2); [split; discriminate|].
  apply signal_unit. split.
  - apply Qle_trans with 0.5; [discriminate|apply Q.le_max_l].
  - apply Q.max_lub; [discriminate|].
    apply Qle_shift_div_r; [reflexivity|].
    pose proof (AccountAnalyzerFacts.presentFields_le_6 p) as H.
    apply (ofNat_le _ 6) in H. lra.
Qed.

Lemma scoreNetworkSignals_unit p :
  TextAnalyzerSpec.slotInUnit (_scoreNetworkSignals p).
Proof.
  unfold _scoreNetworkSignals. cbv zeta.
  destruct (_ && toBool _)%bool; [|exact I].
  destruct (_ && _)%bool; [split; discriminate|].
  destruct (gtb _ 1); [split; discriminate|exact I].
Qed.

Lemma detectTimingClusters_unit getTime ps :
  TextAnalyzerSpec.slotInUnit (_detectTimingClusters getTime ps).
Proof.
  unfold _detectTimingClusters. cbv zeta.
  destruct (Nat.ltb _ 5); [exact I|].
  destruct (Nat.eqb _ 0); [split; discriminate|].
  destruct (gtb _ 0.5); [split; discriminate|].
  apply signal_unit. split.
  - apply Qle_trans with 0.3; [discriminate|apply Q.le_max_l].
  - apply Q.max_lub; [discriminate|].
    match goal with
    | |- 1 - ?x <= 1 =>
        assert (0 <= x) by (apply Qdiv_nonneg; apply ofNat_nonneg); lra
    end.
Qed.

Lemma analyzeRatingDistribution_unit histogram :
  TextAnalyzerSpec.slotInUnit (_analyzeRatingDistribution histogram).
Proof.
  unfold _analyzeRatingDistribution. cbv zeta.
  destruct (Nat.ltb _ 3); [exact I|].
  repeat match goal with
         | |- context [if ?c then _ else _] => destruct c
         end; split; discriminate.
Qed.

Lemma coordinatedSlot_unit texts v :
  normalizedValue
    (coordinatedSlot
       (BatchTextAnalyzer.coordinatedLanguage
          (BatchTextAnalyzer._analyzeCrossPatterns texts))) = Some v ->
  0 <= v <= 1.
Proof.
  unfold BatchTextAnalyzer._analyzeCrossPatterns.
  destruct (Nat.ltb _ 3); cbn; [discriminate|].
  intros [= <-]. split; [apply Q.le_max_l|].
  apply Q.max_lub; [discriminate|].
  pose proof (ofNat_nonneg
                (List.length (BatchTextAnalyzer._findSharedPhrases texts))).
  lra.
Qed.

Lemma account_unit now getTime p :
  groupInUnit (accountEntries (analyze now getTime p)).
Proof.
  unfold groupInUnit, accountEntries, analyze.
  cbn [accountAge postingFrequency reviewDiversity profileCompleteness
       networkConnections].
  apply Forall_cons; [apply slot_unit, scoreAccountAge_unit|].
  apply Forall_cons; [apply slot_unit, scorePostingFrequency_unit|].
  apply Forall_cons; [apply slot_unit, scoreReviewDiversity_unit|].
  apply Forall_cons; [apply slot_unit, scoreProfileCompleteness_unit|].
  apply Forall_cons; [apply slot_unit, scoreNetworkSignals_unit|].
  constructor.
Qed.

Lemma aggregate_unit arrays :
  Forall groupInUnit arrays -> groupInUnit (_aggregateSignals arrays).
Proof.
  intros Hunit.
  destruct (aggregate_final arrays) as (Hr & Hnd & Hk).
  set (st := fold_left aggregateStep (List.concat arrays) ([], [])) in *.
  rewrite Hr. unfold groupInUnit.
  apply Forall_forall. intros e He.
  apply in_map_iff in He as [[k a] [<- Hin]]. cbn [fst snd normalizedValue].
  cbn [SignalOutput.score]. intros v [= <-].
  pose proof (@In_get _ _ _ _ Hnd Hin) as Hget.
  pose proof (keyStep_fold_unit (scoresFor_unit k Hunit) None I) as Hinv.
  rewrite <- Hk in Hinv. unfold keyState in Hinv. rewrite Hget in Hinv.
  destruct Hinv as [Ha Hc].
  apply ratio_in_unit; [assumption|].
  apply (ofNat_le 1) in Hc. change (ofNat 1) with 1 in Hc. lra.
Qed.

(** X28. On a page with reviews [run] scores every review and the product.
    Each of those results either has a score between 0 and 1 and a level
    other than [INSUFFICIENT_DATA], or has no score and is
    [INSUFFICIENT_DATA]; its confidence lies between 0 and 0.85.  On a page
    without reviews nothing is scored. *)
Theorem run_scores_every_review
  (now : Z) (getTime : string -> Z) (reviews : list review)
  (histogram : list (Z * Z)) :
  (reviews = [] -> run now getTime reviews histogram = None)
  /\ (reviews <> [] ->
      exists s,
        run now getTime reviews histogram = Some s
        /\ List.length (reviewScores s) = List.length reviews
        /\ wellScored (overallScore s)
        /\ Forall wellScored (reviewScores s)).
Proof.
  split; [intros ->; reflexivity|].
  intros Hne. unfold run.
  destruct reviews as [|r0 rest]; [congruence|].
  set (reviews := r0 :: rest). change (Nat.eqb (List.length reviews) 0) with false.
  cbv iota zeta. eexists. split; [reflexivity|].
  cbn [reviewScores overallScore].
  assert (Hb : forall o : option SignalOutput.t,
            TextAnalyzerSpec.slotInUnit o ->
            forall o' : option SignalOutput.t,
              TextAnalyzerSpec.slotInUnit o' ->
              groupInUnit
                [ ("timingCluster"%string, TextAnalyzer.slot o);
                  ("ratingDistribution"%string, TextAnalyzer.slot o') ]).
  { intros o Ho o' Ho'. unfold groupInUnit.
    apply Forall_cons; [now apply slot_unit|].
    apply Forall_cons; [now apply slot_unit|constructor]. }
  split; [|split].
  - rewrite length_map, length_combine. unfold analyzeBatch.
    cbn [individual]. rewrite !length_map. lia.
  - apply computeScore_wellScored. unfold overallSignals, bundleInUnit.
    apply Forall_cons; cbn [snd].
    { apply aggregate_unit. apply Forall_forall. intros g Hg.
      apply in_map_iff in Hg as [t [<- Ht]].
      apply in_map_iff in Ht as [r [<- _]].
      apply (proj2 (text_entries (text r))). }
    apply Forall_cons; cbn [snd].
    { unfold groupInUnit.
      apply Forall_cons; [apply slot_unit, detectTimingClusters_unit|].
      apply Forall_cons; [cbn [snd]; apply coordinatedSlot_unit|].
      apply Forall_cons;
        [apply slot_unit, analyzeRatingDistribution_unit|constructor]. }
    apply Forall_cons; [|constructor]. cbn [snd].
    apply aggregate_unit. apply Forall_forall. intros g Hg.
    apply in_map_iff in Hg as [a [<- Ha]].
    unfold analyzeBatch in Ha. cbn [individual] in Ha.
    apply in_map_iff in Ha as [p [<- _]]. apply account_unit.
  - apply Forall_forall. intros res Hres.
    apply in_map_iff in Hres as [[t a] [<- Hin]]. cbn [fst snd].
    apply computeScore_wellScored. unfold reviewSignals, bundleInUnit.
    pose proof (in_combine_l _ _ _ _ Hin) as Ht.
    pose proof (in_combine_r _ _ _ _ Hin) as Ha.
    apply in_map_iff in Ht as [r [<- _]].
    unfold analyzeBatch in Ha. cbn [individual] in Ha.
    apply in_map_iff in Ha as [p [<- _]].
    apply Forall_cons; [apply (proj2 (text_entries (text r)))|].
    apply Forall_cons; [apply account_unit|].
    apply Forall_cons; [|constructor]. cbn [snd].
    apply Hb; [apply detectTimingClusters_unit
              |apply analyzeRatingDistribution_unit].
Qed.

Lemma run_scores_every_review_witness :
  let reviews :=
    [ {| text := "Stopped working after two days.";
         profile := scrapedProfile (Some "Pat"%string) true 0 None
                      (Some 1%nat) |} ] in
  reviews <> []
  /\ exists s, run 0 hours reviews [] = Some s
               /\ wellScored (overallScore s).
Proof.
  cbv zeta.
  assert (H : [ {| text := "Stopped working after two days.";
                   profile := scrapedProfile (Some "Pat"%string) true 0 None
                                (Some 1%nat) |} ] <> []) by discriminate.
  split; [exact H|].
  destruct (run_scores_every_review 0 hours
              [ {| text := "Stopped working after two days.";
                   profile := scrapedProfile (Some "Pat"%string) true 0 None
                                (Some 1%nat) |} ] []) as [_ Hrun].
  destruct (Hrun H) as (s & Hs & _ & Hw & _).
  exists s. split; [exact Hs|exact Hw].
Defined.

End AmazonFacts.


(** ** The result cache *)
Module StorageFacts.

Import JS StorageManager.

Section Cache.

Variable A : Type.
Variable V : Type.

Lemma get_remove (s : storage A V) key k :
  get (remove s key) k = if String.eqb key k then None else get s k.
Proof.
  unfold remove. induction s as [|[k1 v1] s IH]; cbn [filter get fst].
  - now destruct (String.eqb key k).
  - destruct (String.eqb k1 key) eqn:E1; cbn [negb get].
    + apply String.eqb_eq in E1. subst k1. rewrite IH.
      now destruct (String.eqb key k).
    + rewrite IH. destruct (String.eqb k1 k) eqn:E2; [|reflexivity].
      apply String.eqb_eq in E2. subst k1.
      now rewrite String.eqb_sym, E1.
Qed.

Lemma get_cached (s : storage A V) k v k' :
  get (set s k v) k' = if String.eqb k k' then Some v else get s k'.
Proof. apply AmazonFacts.get_set. Qed.

(** X29. A result put in the cache is handed back, with the time it was
    cached, for 24 hours, the last millisecond included, and the storage
    is left as it was.  A later request answers [null] and removes the
    entry.  Neither call touches another key. *)
Theorem cache_round_trip
  (now later : Z) (key : string) (result : A) (s : storage A V) :
  let s1 := cacheResult now key result s in
  ((later - now <= CACHE_TTL)%Z ->
   getCachedResult later key s1 = (Some (Cached V result now), s1))
  /\ ((CACHE_TTL < later - now)%Z ->
      fst (getCachedResult later key s1) = None
      /\ get (snd (getCachedResult later key s1)) ("cache_" ++ key)%string
         = None
      /\ forall k, k <> ("cache_" ++ key)%string ->
                   get (snd (getCachedResult later key s1)) k = get s k)
  /\ (forall k, k <> ("cache_" ++ key)%string -> get s1 k = get s k).
Proof.
  cbv zeta. unfold cacheResult, getCachedResult. cbv zeta.
  rewrite get_cached, String.eqb_refl.
  split; [|split].
  - intros H. apply Z.ltb_ge in H. now rewrite H.
  - intros H. apply Z.ltb_lt in H. rewrite H. cbn [fst snd].
    split; [reflexivity|]. split.
    + now rewrite get_remove, String.eqb_refl.
    + intros k Hk. apply not_eq_sym in Hk. apply String.eqb_neq in Hk.
      now rewrite get_remove, Hk, get_cached, Hk.
  - intros k Hk. apply not_eq_sym in Hk. apply String.eqb_neq in Hk.
    now rewrite get_cached, Hk.
Qed.

Lemma get_remove_all keys : forall (s : storage A V) k,
  get (fold_left (@remove A V) keys s) k
  = if Str.mem k keys then None else get s k.
Proof.
  induction keys as [|key keys IH]; intros s k; cbn [fold_left];
    [reflexivity|].
  rewrite IH, get_remove. unfold Str.mem. cbn [existsb].
  rewrite (String.eqb_sym k key).
  destruct (String.eqb key k); cbn [orb]; [|reflexivity].
  now destruct (existsb (String.eqb k) keys).
Qed.

Lemma old_keys now (s : storage A V) k :
  NoDup (map fst s) ->
  Str.mem k (map fst (filter (@tooOld A V now) s))
  = match get s k with
    | Some v => @tooOld A V now (k, v)
    | None => false
    end.
Proof.
  induction s as [|[k1 v1] s IH]; cbn [map fst filter get]; intros Hnd;
    [reflexivity|].
  inversion Hnd as [|? ? Hnotin Hnd']; subst.
  specialize (IH Hnd').
  destruct (String.eqb k1 k) eqn:E.
  - apply String.eqb_eq in E. subst k1.
    assert (Hrest : Str.mem k (map fst (filter (@tooOld A V now) s)) = false).
    { apply BatchTextAnalyzerFacts.mem_not_In. intros Hin. apply Hnotin.
      apply in_map_iff in Hin as [e [He Hin]].
      apply filter_In in Hin as [Hin _]. rewrite <- He. now apply in_map. }
    destruct (@tooOld A V now (k, v1)); cbn [map fst]; [|assumption].
    unfold Str.mem. cbn [existsb]. now rewrite String.eqb_refl.
  - destruct (@tooOld A V now (k1, v1)); cbn [map fst]; [|assumption].
    unfold Str.mem. cbn [existsb]. rewrite (String.eqb_sym k k1), E.
    exact IH.
Qed.

(** X30. [cleanupOldCache] removes the entries under a key that starts
    with "cache_" that were cached more than seven days ago, reports how
    many they were, and leaves every other key as it was: the younger
    entries, the keys that are not cache keys, and an entry cached at time
    0. *)
Theorem cleanupOldCache_removes_old (now : Z) (s : storage A V) :
  NoDup (map fst s) ->
  fst (cleanupOldCache now s) = List.length (filter (@tooOld A V now) s)
  /\ (forall k,
        get (snd (cleanupOldCache now s)) k
        = match get s k with
          | Some v => if @tooOld A V now (k, v) then None else Some v
          | None => None
          end)
  /\ (forall k r t,
        @tooOld A V now (k, Cached V r t) = true
        <-> String.prefix "cache_" k = true /\ t <> 0%Z
            /\ (CACHE_MAX_AGE < now - t)%Z)
  /\ (forall k v, @tooOld A V now (k, Plain A v) = false).
Proof.
  intros Hnd. unfold cleanupOldCache. cbv zeta. cbn [fst snd].
  split; [apply length_map|]. split; [|split].
  - intros k.
    destruct (Nat.ltb 0 (List.length (map fst (filter (@tooOld A V now) s))))
      eqn:L.
    + rewrite get_remove_all, (@old_keys now s k Hnd).
      destruct (get s k) as [v|]; [|reflexivity].
      now destruct (@tooOld A V now (k, v)).
    + apply Nat.ltb_ge in L.
      assert (Hnil : map fst (filter (@tooOld A V now) s) = [])
        by (destruct (map fst (filter (@tooOld A V now) s));
            [reflexivity|cbn in L; lia]).
      pose proof (@old_keys now s k Hnd) as Hk. rewrite Hnil in Hk.
      cbn in Hk. destruct (get s k) as [v|]; [|reflexivity].
      now rewrite <- Hk.
  - intros k r t. unfold tooOld. cbn [fst snd].
    destruct (String.prefix "cache_" k); [|split; [discriminate|tauto]].
    destruct (Z.eqb t 0) eqn:E.
    + apply Z.eqb_eq in E. split; [discriminate|]. intros (_ & H & _).
      contradiction.
    + apply Z.eqb_neq in E. rewrite Z.ltb_lt. tauto.
  - intros k v. unfold tooOld. cbn [fst snd].
    now destruct (String.prefix "cache_" k).
Qed.

End Cache.

Lemma cache_round_trip_witness :
  (CACHE_TTL - 0 <= CACHE_TTL)%Z
  /\ getCachedResult CACHE_TTL "B00X"
       (cacheResult 0 "B00X" 7%nat (@nil (string * stored nat unit)))
     = (Some (Cached unit 7%nat 0),
        cacheResult 0 "B00X" 7%nat (@nil (string * stored nat unit)))
  /\ (CACHE_TTL < CACHE_TTL + 1 - 0)%Z
  /\ fst (getCachedResult (CACHE_TTL + 1) "B00X"
            (cacheResult 0 "B00X" 7%nat (@nil (string * stored nat unit))))
     = None.
Proof.
  destruct (@cache_round_trip nat unit 0 CACHE_TTL "B00X" 7%nat [])
    as (Hfresh & _ & _).
  destruct (@cache_round_trip nat unit 0 (CACHE_TTL + 1) "B00X" 7%nat [])
    as (_ & Hstale & _).
  assert (H1 : (CACHE_TTL - 0 <= CACHE_TTL)%Z) by (vm_compute; discriminate).
  assert (H2 : (CACHE_TTL < CACHE_TTL + 1 - 0)%Z) by reflexivity.
  split; [exact H1|]. split; [exact (Hfresh H1)|].
  split; [exact H2|exact (proj1 (Hstale H2))].
Defined.

Lemma cleanupOldCache_removes_old_witness :
  let s : storage nat unit :=
    [ ("cache_B00X"%string, Cached unit 7%nat 1);
      ("settings"%string, Plain nat tt);
      ("cache_B00Y"%string, Cached unit 9%nat (CACHE_MAX_AGE + 1)) ] in
  NoDup (map fst s)
  /\ fst (cleanupOldCache (CACHE_MAX_AGE + 2) s) = 1%nat
  /\ get (snd (cleanupOldCache (CACHE_MAX_AGE + 2) s)) "cache_B00X" = None
  /\ get (snd (cleanupOldCache (CACHE_MAX_AGE + 2) s)) "cache_B00Y"
     = Some (Cached unit 9%nat (CACHE_MAX_AGE + 1)).
Proof.
  cbv zeta.
  assert (Hnd : NoDup (map fst
                  [ ("cache_B00X"%string, Cached unit 7%nat 1);
                    ("settings"%string, Plain nat tt);
                    ("cache_B00Y"%string,
                     Cached unit 9%nat (CACHE_MAX_AGE + 1)) ])).
  { cbn [map fst]. repeat constructor; cbn [In]; intuition discriminate. }
  split; [exact Hnd|].
  destruct (@cleanupOldCache_removes_old nat unit (CACHE_MAX_AGE + 2) _ Hnd)
    as (Hn & Hget & _).
  split; [rewrite Hn; reflexivity|].
  split; rewrite Hget; reflexivity.
Defined.

End StorageFacts.

(** ** The scorer in double precision *)
Module DoubleFacts.

Import PrimFloat JS Double DoubleTerms.
Local Open Scope float_scope.

(** *** The loop of [_scoreCatgory], field by field *)

Lemma catStep_fields category w st e :
  catStep category w st e =
  let acc :=
    fold_left (addSignal w) (scoresOf [e]) (cs_score st, cs_weightSum st) in
  {| cs_score := fst acc;
     cs_weightSum := snd acc;
     cs_signalCount :=
       (cs_signalCount st + (if contributes (snd e) then 1 else 0))%nat;
     cs_issues := cs_issues st ++ issueOf category e |}.
Proof.
  destruct e as [name sv], st as [s ws n iss].
  unfold catStep, scoresOf, addSignal, issueOf, contributes.
  destruct sv as [|q|[[v|] d]]; simpl;
    rewrite ?app_nil_r, ?Nat.add_0_r, ?Nat.add_1_r; try reflexivity.
  - destruct (q <? 0.4); rewrite ?app_nil_r; reflexivity.
  - destruct (v <? 0.4); rewrite ?app_nil_r; reflexivity.
Qed.

Lemma catFold_fields category w g : forall st,
  fold_left (catStep category w) g st =
  let acc :=
    fold_left (addSignal w) (scoresOf g) (cs_score st, cs_weightSum st) in
  {| cs_score := fst acc;
     cs_weightSum := snd acc;
     cs_signalCount := (cs_signalCount st + countOf g)%nat;
     cs_issues := cs_issues st ++ flat_map (issueOf category) g |}.
Proof.
  induction g as [|e g IH]; intros st.
  - cbn. rewrite Nat.add_0_r, app_nil_r. destruct st; reflexivity.
  - cbn [fold_left]. rewrite IH, catStep_fields. cbv zeta.
    cbn [cs_score cs_weightSum cs_signalCount cs_issues].
    replace (scoresOf (e :: g)) with (scoresOf [e] ++ scoresOf g)%list
      by (unfold scoresOf; cbn [flat_map]; now rewrite app_nil_r).
    rewrite fold_left_app, <- surjective_pairing.
    unfold countOf. cbn [filter flat_map].
    destruct (contributes (snd e)); cbn [List.length];
      rewrite <- ?app_assoc; f_equal; lia.
Qed.

Lemma scoreCatgory_signalCount_double category g w :
  CategoryResult.signalCount (_scoreCatgory category g w) = countOf g.
Proof. unfold _scoreCatgory. rewrite catFold_fields. reflexivity. Qed.

Lemma scoreCatgory_issues_double category g w :
  CategoryResult.issues (_scoreCatgory category g w)
  = flat_map (issueOf category) g.
Proof. unfold _scoreCatgory. rewrite catFold_fields. reflexivity. Qed.

Lemma scoreCatgory_score_double category g w :
  CategoryResult.score (_scoreCatgory category g w)
  = ratioOf (fold_left (addSignal w) (scoresOf g) (0, 0)).
Proof. unfold _scoreCatgory. rewrite catFold_fields. reflexivity. Qed.

Lemma issueOf_silent_double category e :
  contributes (snd e) = false -> issueOf category e = [].
Proof.
  unfold contributes, issueOf. destruct (normalizedValue (snd e)); easy.
Qed.

Lemma countOf_0_issues_double category g :
  countOf g = 0%nat -> flat_map (issueOf category) g = [].
Proof.
  unfold countOf. induction g as [|e g IH]; simpl; [reflexivity|].
  destruct (contributes (snd e)) eqn:E; simpl; [discriminate|].
  intros H. rewrite (issueOf_silent_double _ _ E). simpl. auto.
Qed.

Lemma countOf_perm_double g g' : Permutation g g' -> countOf g = countOf g'.
Proof.
  intros H. unfold countOf. apply Permutation_length.
  induction H as [|e g g' _ IH|e1 e2 g|g g' g'' _ IH1 _ IH2]; cbn [filter].
  - constructor.
  - destruct (contributes (snd e)); [now constructor|assumption].
  - destruct (contributes (snd e1)), (contributes (snd e2));
      try apply Permutation_refl. apply perm_swap.
  - now apply Permutation_trans with (filter (fun e => contributes (snd e)) g').
Qed.

(** *** The first loop of [computeScore] *)

Lemma scoreStep_totalSignals_double st e :
  totalSignals (scoreStep st e) = (totalSignals st + entryCount e)%nat.
Proof.
  destruct e as [c g]. unfold scoreStep, entryCount. cbn [fst snd].
  destruct (get weights c) as [w|]; [|lia].
  rewrite scoreCatgory_signalCount_double.
  destruct (Nat.ltb_spec 0 (countOf g)); cbn [totalSignals]; lia.
Qed.

Lemma scoreStep_flaggedIssues_double st e :
  flaggedIssues (scoreStep st e) = flaggedIssues st ++ entryIssues e.
Proof.
  destruct e as [c g]. unfold scoreStep, entryIssues. cbn [fst snd].
  destruct (get weights c) as [w|]; [|now rewrite app_nil_r].
  rewrite scoreCatgory_signalCount_double.
  destruct (Nat.ltb_spec 0 (countOf g)); cbn [flaggedIssues].
  - rewrite scoreCatgory_issues_double. reflexivity.
  - rewrite (countOf_0_issues_double c g) by lia. now rewrite app_nil_r.
Qed.

Lemma scoreFold_totalSignals_double b : forall st,
  totalSignals (fold_left scoreStep b st) = (totalSignals st + signalsOf b)%nat.
Proof.
  induction b as [|e b IH]; intros st; cbn [fold_left signalsOf fold_right].
  - lia.
  - rewrite IH, scoreStep_totalSignals_double. fold (signalsOf b). lia.
Qed.

Lemma scoreFold_flaggedIssues_double b : forall st,
  flaggedIssues (fold_left scoreStep b st)
  = flaggedIssues st ++ flat_map entryIssues b.
Proof.
  induction b as [|e b IH]; intros st; cbn [fold_left flat_map].
  - now rewrite app_nil_r.
  - rewrite IH, scoreStep_flaggedIssues_double, app_assoc. reflexivity.
Qed.

Lemma scoreStep_kept_double st e :
  get (categoryScores st) (fst e) = None ->
  categoryScores (scoreStep st e) = (categoryScores st ++ keptOf e)%list.
Proof.
  destruct e as [c g]. cbn [fst]. intros H. unfold scoreStep, keptOf.
  cbn [fst snd].
  destruct (get weights c) as [w|]; [|now rewrite app_nil_r].
  rewrite scoreCatgory_signalCount_double.
  destruct (Nat.ltb 0 (countOf g)); [|now rewrite app_nil_r].
  cbn [categoryScores]. now apply AggregatorFacts.set_fresh.
Qed.

Lemma keptOf_keys_double e k :
  get (keptOf e) k <> None -> k = fst e.
Proof.
  unfold keptOf. destruct (get weights (fst e)); [|cbn; congruence].
  destruct (Nat.ltb 0 _); [|cbn; congruence].
  cbn [get]. destruct (String.eqb (fst e) k) eqn:E; [|congruence].
  intros _. symmetry. now apply String.eqb_eq.
Qed.

Lemma scoreFold_kept_double b :
  NoDup (map fst b) ->
  forall st,
    (forall e, In e b -> get (categoryScores st) (fst e) = None) ->
    categoryScores (fold_left scoreStep b st)
    = (categoryScores st ++ flat_map keptOf b)%list.
Proof.
  induction b as [|e b IH]; intros Hnd st Hfresh; cbn [fold_left flat_map].
  - now rewrite app_nil_r.
  - cbn [map] in Hnd. apply NoDup_cons_iff in Hnd as [Hnotin Hnd].
    rewrite IH; [|assumption|].
    + rewrite scoreStep_kept_double by (apply Hfresh; now left).
      now rewrite <- app_assoc.
    + intros e' He'.
      rewrite scoreStep_kept_double by (apply Hfresh; now left).
      rewrite AggregatorFacts.get_app, (Hfresh e' (or_intror He')).
      destruct (get (keptOf e) (fst e')) eqn:E; [|reflexivity].
      exfalso. apply Hnotin.
      rewrite <- (@keptOf_keys_double e (fst e')) by congruence.
      now apply in_map.
Qed.

Lemma signalsOf_perm_double b b' : Permutation b b' -> signalsOf b = signalsOf b'.
Proof.
  induction 1 as [|e b b' _ IH|e1 e2 b|b b' b'' _ IH1 _ IH2].
  - reflexivity.
  - unfold signalsOf. cbn [fold_right]. fold (signalsOf b) (signalsOf b').
    now rewrite IH.
  - unfold signalsOf. cbn [fold_right]. lia.
  - congruence.
Qed.

Lemma getTrustLevel_sufficient_double q :
  _getTrustLevel q <> TrustScorer.INSUFFICIENT_DATA.
Proof.
  unfold _getTrustLevel.
  destruct (thresholds.HIGH_TRUST <=? q); [discriminate|].
  destruct (thresholds.MODERATE_TRUST <=? q); [discriminate|].
  destruct (thresholds.LOW_TRUST <=? q); discriminate.
Qed.

(** *** One category, every signal at the same score *)

Lemma scoresOf_length g : List.length (scoresOf g) = countOf g.
Proof.
  unfold scoresOf, countOf, contributes.
  induction g as [|e g IH]; cbn [flat_map filter]; [reflexivity|].
  destruct (normalizedValue (snd e)); cbn [app List.length]; now rewrite IH.
Qed.

Lemma scoresOf_names g x : In x (map fst (scoresOf g)) -> In x (map fst g).
Proof.
  unfold scoresOf. induction g as [|e g IH]; cbn [flat_map map];
    [exact (fun H => H)|].
  destruct (normalizedValue (snd e)); cbn [app map fst In].
  - intros [H|H]; [now left|right; now apply IH].
  - intros H. right. now apply IH.
Qed.

Lemma scoresOf_NoDup g : NoDup (map fst g) -> NoDup (map fst (scoresOf g)).
Proof.
  induction g as [|e g IH]; intros H; [constructor|].
  cbn [map] in H. apply NoDup_cons_iff in H as [Hnotin Hnd].
  unfold scoresOf. cbn [flat_map]. fold (scoresOf g).
  destruct (normalizedValue (snd e)); cbn [app map fst]; [|now apply IH].
  constructor; [|now apply IH].
  intros Hin. apply Hnotin. now apply scoresOf_names.
Qed.

Lemma scoresOf_constant (v : float) (P : string -> Prop) g :
  Forall (fun e => forall x, normalizedValue (snd e) = Some x ->
                     x = v /\ P (fst e)) g ->
  scoresOf g = map (fun name => (name, v)) (map fst (scoresOf g))
  /\ Forall P (map fst (scoresOf g)).
Proof.
  induction 1 as [|e g He _ [IH1 IH2]]; [split; constructor|].
  unfold scoresOf. cbn [flat_map]. fold (scoresOf g).
  destruct (normalizedValue (snd e)) as [x|]; cbn [app map fst];
    [|now split].
  destruct (He x eq_refl) as [-> Hp].
  split; [now rewrite <- IH1|now constructor].
Qed.

Lemma words_complete {A : Type} (alphabet : list A) l :
  Forall (fun x => In x alphabet) l ->
  In l (words alphabet (List.length l)).
Proof.
  induction 1 as [|x l Hx _ IH]; cbn [List.length words]; [now left|].
  apply in_flat_map. exists x. split; [assumption|]. now apply in_map.
Qed.

Lemma distinct_NoDup l : NoDup l -> distinct l = true.
Proof.
  induction 1 as [|a l Hnotin _ IH]; cbn [distinct]; [reflexivity|].
  rewrite IH, andb_true_r.
  destruct (existsb (String.eqb a) l) eqn:E; [|reflexivity].
  apply existsb_exists in E as [x [Hin Hx]].
  apply String.eqb_eq in Hx. subst x. contradiction.
Qed.

(** The five text signals at 0.9, in each of their 120 orders. *)
Lemma textScoreAt_orders names :
  In names (filter distinct (words TrustScorerSpec.textSignals 5)) ->
  textScoreAt 0.9 names = 0.9.
Proof.
  intros H. apply (in_map (textScoreAt 0.9)) in H.
  replace (map (textScoreAt 0.9)
             (filter distinct (words TrustScorerSpec.textSignals 5)))
    with (repeat 0.9 120) in H by (vm_compute; reflexivity).
  now apply repeat_spec in H.
Qed.

Lemma text_category_at_09 category g :
  NoDup (map fst g) ->
  countOf g = 5%nat ->
  Forall (fun e => forall v, normalizedValue (snd e) = Some v ->
                     v = 0.9 /\ In (fst e) TrustScorerSpec.textSignals) g ->
  CategoryResult.score (_scoreCatgory category g textWeights) = 0.9.
Proof.
  intros Hnd Hn Hg. rewrite scoreCatgory_score_double.
  destruct (@scoresOf_constant 0.9
              (fun name => In name TrustScorerSpec.textSignals) g Hg)
    as [Hs Hin].
  rewrite Hs.
  apply textScoreAt_orders. apply filter_In. split.
  - replace 5%nat with (List.length (map fst (scoresOf g)))
      by now rewrite length_map, scoresOf_length.
    now apply words_complete.
  - apply distinct_NoDup. now apply scoresOf_NoDup.
Qed.

(** C4, the counterexample.  The five text signals of the weight table at
    0.9, and no other category: the category scores 0.9, and the overall
    score is [0.9 * 0.3 / 0.3], which is 0.9000000000000001 and not 0.9.
    Five non-null signals at 0.9 of which three carry no weight: the
    category itself scores 0.8999999999999999. *)
Lemma C4_overall_score_counterexample :
  let object := SigObj (SignalOutput.make (Some 0.9) None) in
  let g :=
    [ ("aiDetection", object); ("repetitionPattern", object);
      ("sentimentConsistency", object); ("vocabularyDistribution", object);
      ("templateMatching", object) ]%string in
  let g' :=
    [ ("aiDetection", object); ("sentimentConsistency", object);
      ("readability", object); ("novelty", object);
      ("tone", object) ]%string in
  let r := computeScore defaultConfig [("text"%string, g)] in
  let r' := computeScore defaultConfig [("text"%string, g')] in
  (countOf g = 5%nat
   /\ map (fun e => (fst e, CategoryResult.score (snd e)))
        (TrustResult.details r) = [("text"%string, 0.9)]
   /\ TrustResult.score r = Some 0.9000000000000001
   /\ (0.9 <? 0.9000000000000001) = true)
  /\ (countOf g' = 5%nat
      /\ map (fun e => (fst e, CategoryResult.score (snd e)))
           (TrustResult.details r') = [("text"%string, 0.8999999999999999)]
      /\ (0.8999999999999999 <? 0.9) = true).
Proof. cbv zeta. repeat split. Qed.

(** C4, as the code has it.  A bundle that holds the text category only,
    with exactly five non-null signals, the five text signals of the weight
    table, each scoring 0.9, gets category score 0.9, overall score
    0.9000000000000001 (the renormalisation [0.9 * 0.3 / 0.3] rounds one
    unit in the last place above 0.9), level [HIGH_TRUST], confidence 0.425
    and signal count 5 under the default configuration.  In general a
    result that is not [INSUFFICIENT_DATA] has confidence
    [min(1, totalSignals / 10) * confidenceDecay]. *)
Theorem C4_single_category_scenario :
  (forall g : signalGroup,
     NoDup (map fst g) ->
     countOf g = 5%nat ->
     Forall (fun e => forall v, normalizedValue (snd e) = Some v ->
                        v = 0.9 /\ In (fst e) TrustScorerSpec.textSignals) g ->
     let r := computeScore defaultConfig [("text"%string, g)] in
     exists category,
       TrustResult.details r = [("text"%string, category)]
       /\ CategoryResult.score category = 0.9
       /\ TrustResult.score r = Some 0.9000000000000001
       /\ TrustResult.level r = TrustScorer.HIGH_TRUST
       /\ TrustResult.confidence r = 0.425
       /\ TrustResult.signalCount r = 5%nat)
  /\ (forall (cfg : config) (b : signalBundle),
        let r := computeScore cfg b in
        TrustResult.level r <> TrustScorer.INSUFFICIENT_DATA ->
        TrustResult.confidence r
        = min 1 (ofNat (TrustResult.signalCount r) / 10)
          * confidenceDecay cfg).
Proof.
  split.
  - intros g Hnd Hn Hg. cbv zeta.
    pose proof (text_category_at_09 "text" Hnd Hn Hg) as Hcat.
    unfold computeScore. cbn [fold_left]. unfold scoreStep.
    change (get weights "text") with (Some textWeights). cbv beta iota zeta.
    rewrite scoreCatgory_signalCount_double, Hn.
    cbn [Nat.ltb Nat.leb totalSignals categoryScores flaggedIssues scoreInit
         Nat.add set minSignalsRequired defaultConfig].
    replace (ofNat 5 <? 3) with false by reflexivity.
    exists (_scoreCatgory "text" g textWeights).
    cbn [TrustResult.details TrustResult.score TrustResult.level
         TrustResult.confidence TrustResult.signalCount].
    unfold finalScoreOf. cbn [fold_left finalStep fst snd]. rewrite Hcat.
    repeat split.
  - intros cfg b. cbv zeta. unfold computeScore.
    destruct (ofNat _ <? minSignalsRequired cfg).
    + intros H. now elim H.
    + intros _. reflexivity.
Qed.

(** The five text signals, in the order [analyze] lists them, at 0.9. *)
Lemma C4_single_category_scenario_witness :
  let object := SigObj (SignalOutput.make (Some 0.9) None) in
  let g :=
    [ ("aiDetection", object); ("repetitionPattern", object);
      ("sentimentConsistency", object); ("vocabularyDistribution", object);
      ("templateMatching", object) ]%string in
  let r := computeScore defaultConfig [("text"%string, g)] in
  (NoDup (map fst g)
   /\ countOf g = 5%nat
   /\ exists category,
       TrustResult.details r = [("text"%string, category)]
       /\ CategoryResult.score category = 0.9
       /\ TrustResult.score r = Some 0.9000000000000001
       /\ TrustResult.level r = TrustScorer.HIGH_TRUST
       /\ TrustResult.confidence r = 0.425
       /\ TrustResult.signalCount r = 5%nat)
  /\ (TrustResult.level r <> TrustScorer.INSUFFICIENT_DATA
      /\ TrustResult.confidence r
         = min 1 (ofNat (TrustResult.signalCount r) / 10)
           * confidenceDecay defaultConfig).
Proof.
  cbv zeta.
  assert (Hnd : NoDup
            [ "aiDetection"; "repetitionPattern"; "sentimentConsistency";
              "vocabularyDistribution"; "templateMatching" ]%string).
  { repeat constructor; cbn [In]; intuition discriminate. }
  split; [split; [exact Hnd|split; [reflexivity|]]|split].
  - apply (proj1 C4_single_category_scenario).
    + exact Hnd.
    + reflexivity.
    + repeat (apply Forall_cons;
                [intros v [= <-]; split; [reflexivity|cbn; tauto]|]).
      apply Forall_nil.
  - vm_compute. discriminate.
  - apply (proj2 C4_single_category_scenario).
    vm_compute. discriminate.
Defined.

(** *** The order of signals and of categories *)

(** X5. The overall score can leave the range of the category scores it
    averages.  When every signal of the text and of the account category
    scores 0.75, both categories score 0.75, a score that is [HIGH_TRUST];
    the overall score is 0.7499999999999999 and the level
    [MODERATE_TRUST]. *)
Theorem overall_score_outside_categories :
  let b :=
    [ ("text",
       allAt 0.75
         [ "aiDetection"; "repetitionPattern"; "sentimentConsistency";
           "vocabularyDistribution"; "templateMatching" ]);
      ("account",
       allAt 0.75
         [ "accountAge"; "postingFrequency"; "reviewDiversity";
           "profileCompleteness"; "networkConnections" ]) ]%string in
  let r := computeScore defaultConfig b in
  map (fun e => (fst e, CategoryResult.score (snd e))) (TrustResult.details r)
  = [ ("text"%string, 0.75); ("account"%string, 0.75) ]
  /\ _getTrustLevel 0.75 = TrustScorer.HIGH_TRUST
  /\ TrustResult.score r = Some 0.7499999999999999
  /\ (0.7499999999999999 <? 0.75) = true
  /\ TrustResult.level r = TrustScorer.MODERATE_TRUST.
Proof. cbv zeta. repeat split. Qed.

(** X8. Listing the signals of a category in another order changes
    neither the signal count nor the issues, up to their order; it can
    change the score.  Three text signals at 0.3 score 0.3 in the order of
    the weight table and 0.29999999999999993 with the last two exchanged,
    and alone in a bundle they make it [LOW_TRUST] in one order and
    [VERY_LOW_TRUST] in the other. *)
Theorem scoreCatgory_order_of_signals :
  (forall (category : string) (w : list (string * float))
          (g g' : signalGroup),
     Permutation g g' ->
     let r := _scoreCatgory category g w in
     let r' := _scoreCatgory category g' w in
     CategoryResult.signalCount r = CategoryResult.signalCount r'
     /\ Permutation (CategoryResult.issues r) (CategoryResult.issues r'))
  /\ (let g :=
        allAt 0.3
          [ "aiDetection"; "repetitionPattern"; "sentimentConsistency" ]%string in
      let g' :=
        allAt 0.3
          [ "aiDetection"; "sentimentConsistency"; "repetitionPattern" ]%string in
      Permutation g g'
      /\ CategoryResult.score (_scoreCatgory "text" g textWeights) = 0.3
      /\ CategoryResult.score (_scoreCatgory "text" g' textWeights)
         = 0.29999999999999993
      /\ TrustResult.level (computeScore defaultConfig [("text"%string, g)])
         = TrustScorer.LOW_TRUST
      /\ TrustResult.level (computeScore defaultConfig [("text"%string, g')])
         = TrustScorer.VERY_LOW_TRUST).
Proof.
  split.
  - intros category w g g' H. cbv zeta.
    rewrite !scoreCatgory_signalCount_double, !scoreCatgory_issues_double.
    split; [now apply countOf_perm_double|now apply Permutation_flat_map].
  - cbv zeta. split; [apply perm_skip, perm_swap|]. repeat split.
Qed.

Lemma scoreCatgory_order_of_signals_witness :
  let g := [ ("aiDetection"%string, SigNum 0.1);
             ("templateMatching"%string, SigNum 0.3);
             ("repetitionPattern"%string, SigNum 0.8) ] in
  let g' := [ ("templateMatching"%string, SigNum 0.3);
              ("aiDetection"%string, SigNum 0.1);
              ("repetitionPattern"%string, SigNum 0.8) ] in
  Permutation g g'
  /\ CategoryResult.signalCount (_scoreCatgory "text" g textWeights)
     = CategoryResult.signalCount (_scoreCatgory "text" g' textWeights)
  /\ Permutation (CategoryResult.issues (_scoreCatgory "text" g textWeights))
       (CategoryResult.issues (_scoreCatgory "text" g' textWeights)).
Proof.
  cbv zeta. split; [apply perm_swap|].
  apply (proj1 scoreCatgory_order_of_signals "text"%string textWeights).
  apply perm_swap.
Defined.

Lemma computeScore_short_double cfg b :
  (ofNat (signalsOf b) <? minSignalsRequired cfg) = true ->
  computeScore cfg b
  = TrustResult.make None TrustScorer.INSUFFICIENT_DATA 0
      "Not enough data to assess authenticity"
      (categoryScores (fold_left scoreStep b scoreInit)) [] (signalsOf b).
Proof.
  intros H. unfold computeScore.
  rewrite scoreFold_totalSignals_double, Nat.add_0_l, H. reflexivity.
Qed.

Lemma computeScore_enough_double cfg b :
  (ofNat (signalsOf b) <? minSignalsRequired cfg) = false ->
  computeScore cfg b
  = let st := fold_left scoreStep b scoreInit in
    let finalScore := finalScoreOf (categoryScores st) in
    let confidence := confidenceOf cfg (signalsOf b) in
    let lv := _getTrustLevel finalScore in
    TrustResult.make (Some finalScore) lv confidence
      (_generateMessage lv (flat_map entryIssues b) confidence)
      (categoryScores st) (flat_map entryIssues b) (signalsOf b).
Proof.
  intros H. unfold computeScore.
  rewrite scoreFold_totalSignals_double, scoreFold_flaggedIssues_double, Nat.add_0_l, H.
  reflexivity.
Qed.

(** X9. A bundle is an object: its categories are distinct keys.  Listing
    them in another order changes neither the signal count, nor the
    confidence, nor whether the result is [INSUFFICIENT_DATA], nor, up to
    their order, the issues and the kept categories; it can change the
    overall score and the level.  With every signal of the four categories
    at 0.75 the result is 0.75 and [HIGH_TRUST] in the order of the weight
    table, and 0.7499999999999999 and [MODERATE_TRUST] when media is
    listed before behavioral. *)
Theorem computeScore_order_of_categories :
  (forall (cfg : config) (b b' : signalBundle),
     NoDup (map fst b) ->
     Permutation b b' ->
     let r := computeScore cfg b in
     let r' := computeScore cfg b' in
     TrustResult.signalCount r = TrustResult.signalCount r'
     /\ TrustResult.confidence r = TrustResult.confidence r'
     /\ (TrustResult.level r = TrustScorer.INSUFFICIENT_DATA
         <-> TrustResult.level r' = TrustScorer.INSUFFICIENT_DATA)
     /\ Permutation (TrustResult.issues r) (TrustResult.issues r')
     /\ Permutation (TrustResult.details r) (TrustResult.details r'))
  /\ (let text :=
        ("text",
         allAt 0.75
           [ "aiDetection"; "repetitionPattern"; "sentimentConsistency";
             "vocabularyDistribution"; "templateMatching" ])%string in
      let account :=
        ("account",
         allAt 0.75
           [ "accountAge"; "postingFrequency"; "reviewDiversity";
             "profileCompleteness"; "networkConnections" ])%string in
      let behavioral :=
        ("behavioral",
         allAt 0.75
           [ "timingCluster"; "coordinatedLanguage";
             "ratingDistribution" ])%string in
      let media :=
        ("media",
         allAt 0.75
           [ "reverseImageMatch"; "exifAnalysis"; "aiArtifacts" ])%string in
      let r := computeScore defaultConfig [text; account; behavioral; media] in
      let r' := computeScore defaultConfig [text; account; media; behavioral] in
      Permutation [text; account; behavioral; media]
        [text; account; media; behavioral]
      /\ TrustResult.score r = Some 0.75
      /\ TrustResult.level r = TrustScorer.HIGH_TRUST
      /\ TrustResult.score r' = Some 0.7499999999999999
      /\ TrustResult.level r' = TrustScorer.MODERATE_TRUST
      /\ TrustResult.message r <> TrustResult.message r').
Proof.
  split.
  - intros cfg b b' Hnd HP. cbv zeta.
    assert (Hnd' : NoDup (map fst b')).
    { apply (Permutation_NoDup (l := map fst b)); [|assumption].
      now apply Permutation_map. }
    assert (Hcs : Permutation
                    (categoryScores (fold_left scoreStep b scoreInit))
                    (categoryScores (fold_left scoreStep b' scoreInit))).
    { rewrite !scoreFold_kept_double by (assumption || reflexivity).
      cbn [categoryScores scoreInit app]. now apply Permutation_flat_map. }
    assert (Hi : Permutation (flat_map entryIssues b) (flat_map entryIssues b'))
      by now apply Permutation_flat_map.
    pose proof (signalsOf_perm_double HP) as Hn.
    destruct (ofNat (signalsOf b) <? minSignalsRequired cfg) eqn:E.
    + rewrite (computeScore_short_double cfg b E).
      rewrite Hn in E. rewrite (computeScore_short_double cfg b' E).
      cbn [TrustResult.level TrustResult.confidence TrustResult.signalCount
           TrustResult.issues TrustResult.details].
      repeat split; auto.
    + rewrite (computeScore_enough_double cfg b E).
      rewrite Hn in E. rewrite (computeScore_enough_double cfg b' E). cbv zeta.
      cbn [TrustResult.level TrustResult.confidence TrustResult.signalCount
           TrustResult.issues TrustResult.details].
      rewrite Hn. repeat split; auto;
        intros H; exfalso; revert H; apply getTrustLevel_sufficient_double.
  - cbv zeta. split; [apply perm_skip, perm_skip, perm_swap|].
    repeat split. vm_compute. discriminate.
Qed.

Lemma computeScore_order_of_categories_witness :
  let b := [ ("text"%string,
              [ ("aiDetection"%string, SigNum 0.9);
                ("templateMatching"%string, SigNum 0.1) ]);
             ("account"%string,
              [ ("profileCompleteness"%string, SigNum 0.3) ]) ] in
  let b' := [ ("account"%string,
               [ ("profileCompleteness"%string, SigNum 0.3) ]);
              ("text"%string,
               [ ("aiDetection"%string, SigNum 0.9);
                 ("templateMatching"%string, SigNum 0.1) ]) ] in
  NoDup (map fst b)
  /\ Permutation b b'
  /\ TrustResult.confidence (computeScore defaultConfig b)
     = TrustResult.confidence (computeScore defaultConfig b')
  /\ Permutation (TrustResult.issues (computeScore defaultConfig b))
       (TrustResult.issues (computeScore defaultConfig b')).
Proof.
  cbv zeta.
  assert (Hnd : NoDup (map fst
                  [ ("text"%string,
                     [ ("aiDetection"%string, SigNum 0.9);
                       ("templateMatching"%string, SigNum 0.1) ]);
                    ("account"%string,
                     [ ("profileCompleteness"%string, SigNum 0.3) ]) ])).
  { cbn [map fst]. repeat constructor; cbn [In]; intuition discriminate. }
  split; [exact Hnd|]. split; [apply perm_swap|].
  pose proof (proj1 computeScore_order_of_categories defaultConfig _ _ Hnd
           (perm_swap ("account"%string,
                       [ ("profileCompleteness"%string, SigNum 0.3) ])
                      ("text"%string,
                       [ ("aiDetection"%string, SigNum 0.9);
                         ("templateMatching"%string, SigNum 0.1) ]) []))
    as (_ & Hc & _ & Hi & _).
  split; [exact Hc|exact Hi].
Defined.

(** *** The AI-pattern detector at its caps *)

(** X11. The AI-pattern detector takes off at most 0.5 for the listed
    phrases and at most 0.4 for the hype words, and no score is below 0.09.
    A text with none of the listed phrases scores at least 0.6, and one
    that in addition has no hype word scores 1 and carries no detail.  With
    both penalties at their caps the score is [1 - 0.5 - 0.4], which in
    doubles is 0.09999999999999998, below 0.1. *)
Theorem detectAIPatterns_floor :
  (forall text : string,
     exists q,
       TrustScorer.SignalOutput.score (TextAnalyzer._detectAIPatterns text)
       = Some q
       /\ (0.09 <= q <= 1)%Q
       /\ (DetectorTerms.aiPhraseCount text = 0%nat -> (0.6 <= q)%Q)
       /\ (DetectorTerms.aiPhraseCount text = 0%nat ->
           DetectorTerms.hypeCount text = 0%nat ->
           (q == 1)%Q
           /\ TrustScorer.SignalOutput.detail
                (TextAnalyzer._detectAIPatterns text) = None))
  /\ (forall text : string,
        let length := ofNat (String.length text) in
        let density :=
          ofNat (DetectorTerms.aiPhraseCount text) / (length / 500) in
        let hypeDensity :=
          ofNat (DetectorTerms.hypeCount text) / (length / 500) in
        (0 < DetectorTerms.aiPhraseCount text)%nat ->
        min 0.5 (density * 0.25) = 0.5 ->
        (3 <? hypeDensity) = true ->
        min 0.4 ((hypeDensity - 2) * 0.1) = 0.4 ->
        SignalOutput.score (_detectAIPatterns text)
        = Some 0.09999999999999998)
  /\ (0.09999999999999998 <? 0.1) = true.
Proof.
  split; [exact TextDetectorFacts.detectAIPatterns_bounds|].
  split; [|reflexivity].
  intros text. cbv zeta. intros Hc Hp H3 Hh.
  unfold _detectAIPatterns. cbv zeta.
  fold (DetectorTerms.aiPhraseCount text). fold (DetectorTerms.hypeCount text).
  apply Nat.ltb_lt in Hc. rewrite Hc, H3, Hp, Hh. reflexivity.
Qed.

Lemma detectAIPatterns_floor_witness :
  let text := "truly remarkable"%string in
  (0 < DetectorTerms.aiPhraseCount text)%nat
  /\ SignalOutput.score (_detectAIPatterns text) = Some 0.09999999999999998
  /\ SignalOutput.detail (_detectAIPatterns text)
     = Some "Found 1 AI-associated phrases, 2 hype words"%string.
Proof.
  cbv zeta.
  assert (Hc : (0 < DetectorTerms.aiPhraseCount "truly remarkable")%nat)
    by (apply Nat.ltb_lt; vm_compute; reflexivity).
  split; [exact Hc|]. split; [|vm_compute; reflexivity].
  apply (proj1 (proj2 detectAIPatterns_floor) "truly remarkable"%string Hc);
    vm_compute; reflexivity.
Defined.

End DoubleFacts.
